(** * Staff panel server: credential store, repository and route layer

    A shallow embedding of [server/auth.ts], [server/storage.ts],
    [server/routes.ts] and the tables of [shared/schema.ts], with the
    properties of the credential check, the access-request workflow, the
    role and message repository operations, the task update route, the
    attendance routes and the user list route.

    Conventions. A JavaScript string is a [string], a sequence of 8-bit
    characters. A promise is the completion it settles to. The database is
    a record of tables, each the list of its rows in insertion order, and
    a storage method is a function from the database to the new database
    and a completion. A route is a function from the database to the new
    database and the response; it takes the session's user id, the route
    parameter as the integer [parseInt] read, and the request body at the
    type that the storage method it is handed to declares. What a route
    draws from its environment ([randomBytes], [new Date()], the
    database's [now()]) is an argument. *)

From Stdlib Require Import ZArith NArith Ascii String.
From Stdlib.Strings Require Import Byte.
From stdpp Require Import base decidable option list strings gmap finite sorting.

Local Open Scope string_scope.
Local Open Scope list_scope.
Local Set Warnings "-register-all".

(** ** Exceptions and completions

    An [async] function either fulfils its promise with a value or rejects
    it with the exception that was thrown. *)

Inductive Exception : Type :=
  | TypeError (message : string)
  | RangeError (message : string)
  | Error (message : string).

Definition message_of (e : Exception) : string :=
  match e with
  | TypeError m | RangeError m | Error m => m
  end.

(** A name in double quotes, as the error messages write it. *)
Definition quoted (name : string) : string :=
  let dq :=
    String (Ascii.Ascii false true false false false true false false)
      EmptyString in
  dq +:+ name +:+ dq.

(** What [!s] negates, for a string. *)
Definition truthy (s : string) : bool :=
  if s is EmptyString then false else true.

Inductive Completion (A : Type) : Type :=
  | Return (a : A)
  | Throw (e : Exception).
Arguments Return {A} a.
Arguments Throw {A} e.

(** ** Buffers and strings (the parts of the Node runtime that auth.ts uses) *)

Abbreviation Buffer := (list byte).

Global Instance byte_eq_dec : EqDecision byte := Byte.byte_eq_dec.

Definition all_bytes : list byte :=
  omap Byte.of_N (N.of_nat <$> seq 0 256).

Definition hexDigit (n : N) : ascii :=
  match n with
  | 0%N => "0" | 1%N => "1" | 2%N => "2" | 3%N => "3"
  | 4%N => "4" | 5%N => "5" | 6%N => "6" | 7%N => "7"
  | 8%N => "8" | 9%N => "9" | 10%N => "a" | 11%N => "b"
  | 12%N => "c" | 13%N => "d" | 14%N => "e" | _ => "f"
  end%char.

(** Value of one hexadecimal digit; both letter cases are accepted when
    decoding. *)
Definition hexValue (c : ascii) : option N :=
  let n := N_of_ascii c in
  if ((48 <=? n) && (n <=? 57))%N then Some (n - 48)%N
  else if ((97 <=? n) && (n <=? 102))%N then Some (n - 87)%N
  else if ((65 <=? n) && (n <=? 70))%N then Some (n - 55)%N
  else None.

(** [buf.toString("hex")]: two lower-case digits per byte. *)
Fixpoint toString_hex (buf : Buffer) : string :=
  match buf with
  | [] => EmptyString
  | b :: rest =>
      let n := Byte.to_N b in
      String (hexDigit (n / 16)) (String (hexDigit (n mod 16)) (toString_hex rest))
  end.

(** [Buffer.from(s, "hex")]: decodes pairs of digits and stops at the first
    pair that is not hexadecimal; an unpaired last character is dropped. *)
Fixpoint Buffer_from_hex (s : string) : Buffer :=
  match s with
  | String hi (String lo rest) =>
      match hexValue hi, hexValue lo with
      | Some h, Some l =>
          match Byte.of_N (16 * h + l) with
          | Some b => b :: Buffer_from_hex rest
          | None => []
          end
      | _, _ => []
      end
  | _ => []
  end.

(** [s.split(sep)] for a one-character separator; the result is never
    empty. *)
Fixpoint split (sep : ascii) (s : string) : list string :=
  match s with
  | EmptyString => [EmptyString]
  | String c rest =>
      if decide (c = sep) then EmptyString :: split sep rest
      else match split sep rest with
           | first :: others => String c first :: others
           | [] => [String c EmptyString]
           end
  end.

Definition ERR_CRYPTO_TIMING_SAFE_EQUAL_LENGTH : Exception :=
  RangeError "Input buffers must have the same byte length".

(** [crypto.timingSafeEqual]: throws on buffers of different byte length. *)
Definition timingSafeEqual (a b : Buffer) : Completion bool :=
  if decide (length a = length b) then Return (bool_decide (a = b))
  else Throw ERR_CRYPTO_TIMING_SAFE_EQUAL_LENGTH.

(** What [scrypt] throws when its salt is [undefined]. *)
Definition ERR_INVALID_ARG_TYPE : Exception :=
  TypeError
    ("The " +:+ quoted "salt"
     +:+ " argument must be of type string or an instance of ArrayBuffer, Buffer, TypedArray, or DataView. Received undefined").

(** [crypto.scrypt] is a deterministic function of password, salt and key
    length whose result has the requested length; nothing else about it is
    used. *)
Class Scrypt : Type := {
  scrypt : string → string → nat → Buffer;
  scrypt_keylen : ∀ password salt keylen,
    length (scrypt password salt keylen) = keylen
}.

(** A stand-in key derivation used to run the model on concrete inputs. *)
Definition toy_derive (password salt : string) (keylen : nat) : Buffer :=
  take keylen
    (omap (λ c, Byte.of_N (N_of_ascii c))
          (String.list_ascii_of_string (password +:+ salt))
     ++ replicate keylen x00).

Definition toyScrypt : Scrypt.
Proof.
  refine {| scrypt := toy_derive |}.
  intros password salt keylen. unfold toy_derive.
  rewrite length_take, length_app, length_replicate. lia.
Defined.

(** ** auth.ts: password hashing *)

Section Hashing.
Context `{K : Scrypt}.

(** [hashPassword]; [random] stands for the result of [randomBytes(16)]. *)
Definition hashPassword (random : Buffer) (password : string) : string :=
  let salt := toString_hex random in
  let buf := scrypt password salt 64 in
  toString_hex buf +:+ "." +:+ salt.

(** [comparePasswords]. With no ["."] in [stored] the destructured [salt]
    is [undefined], which [scrypt] refuses with a [TypeError]. *)
Definition comparePasswords (supplied stored : string) : Completion bool :=
  match split "." stored with
  | hashed :: salt :: _ =>
      let hashedBuf := Buffer_from_hex hashed in
      let suppliedBuf := scrypt supplied salt 64 in
      timingSafeEqual hashedBuf suppliedBuf
  | _ => Throw ERR_INVALID_ARG_TYPE
  end.

End Hashing.

(** ** shared/schema.ts: the rows of each table

    Timestamps are milliseconds since the epoch; [text] columns are strings;
    a nullable column is an [option]. *)

Module User.
Record t : Type := mk {
  id : Z;
  username : string;
  password : string;
  email : string;
  name : string;
  avatar : option string;
  isAdmin : bool;
  roleId : option Z;
  isApproved : bool
}.
End User.

(** [InsertUser]: every caller supplies all the columns but [id]. *)
Module InsertUser.
Record t : Type := mk {
  username : string;
  password : string;
  email : string;
  name : string;
  isAdmin : bool;
  isApproved : bool;
  avatar : option string;
  roleId : option Z
}.
End InsertUser.

(** [Partial<InsertUser>]: [None] is an absent ([undefined]) key. *)
Module UserPatch.
Record t : Type := mk {
  password : option string;
  email : option string;
  name : option string;
  avatar : option (option string)
}.
End UserPatch.

Module Role.
Record t : Type := mk {
  id : Z;
  name : string;
  color : string
}.
End Role.

Module AccessRequest.
Record t : Type := mk {
  id : Z;
  username : string;
  email : string;
  password : string;
  name : string;
  status : string;
  requestedAt : Z
}.
End AccessRequest.

Module InsertAccessRequest.
Record t : Type := mk {
  username : string;
  email : string;
  name : string;
  password : string
}.
End InsertAccessRequest.

Module Message.
Record t : Type := mk {
  id : Z;
  senderId : Z;
  content : option string;
  messageType : string;
  mediaUrl : option string;
  isDeleted : bool;
  createdAt : Z
}.
End Message.

Module Task.
Record t : Type := mk {
  id : Z;
  title : string;
  description : option string;
  priority : string;
  status : string;
  assignedTo : option Z;
  createdBy : Z;
  dueDate : option Z;
  createdAt : Z
}.
End Task.

(** [Partial<InsertTask>], as the JSON body of a request gives it: [None]
    is an absent key, [Some None] an explicit [null] for a nullable
    column. *)
Module TaskPatch.
Record t : Type := mk {
  title : option string;
  description : option (option string);
  priority : option string;
  status : option string;
  assignedTo : option (option Z);
  createdBy : option Z;
  dueDate : option (option Z)
}.
End TaskPatch.

Module Attendance.
Record t : Type := mk {
  id : Z;
  userId : Z;
  clockIn : Z;
  clockOut : option Z;
  date : string
}.
End Attendance.

Module InsertAttendance.
Record t : Type := mk {
  userId : Z;
  clockIn : Z;
  clockOut : option Z;
  date : string
}.
End InsertAttendance.

(** [UserWithRole = User & { role: Role | null }]. *)
Module UserWithRole.
Record t : Type := mk {
  user : User.t;
  role : option Role.t
}.
End UserWithRole.

(** [MessageWithSender]: the relational query leaves a missing relation
    [null]. *)
Module MessageWithSender.
Record t : Type := mk {
  message : Message.t;
  sender : option UserWithRole.t
}.
End MessageWithSender.

Global Instance User_eq_dec : EqDecision User.t.
Proof. solve_decision. Defined.
Global Instance Role_eq_dec : EqDecision Role.t.
Proof. solve_decision. Defined.
Global Instance AccessRequest_eq_dec : EqDecision AccessRequest.t.
Proof. solve_decision. Defined.
Global Instance Message_eq_dec : EqDecision Message.t.
Proof. solve_decision. Defined.
Global Instance Task_eq_dec : EqDecision Task.t.
Proof. solve_decision. Defined.
Global Instance Attendance_eq_dec : EqDecision Attendance.t.
Proof. solve_decision. Defined.

(** ** Side effects that leave the process *)

Inductive Effect : Type :=
  | AccessApprovedEmail (email username : string)
  | AccessRejectedEmail (email username : string)
  | Broadcast_delete_message (id : Z).

(** ** The database

    Each table is the list of its rows in insertion order. The identity
    columns draw from one sequence per table; [outbox] collects the e-mails
    and broadcasts issued so far. *)

Record Db : Type := mkDb {
  users : list User.t;
  roles : list Role.t;
  accessRequests : list AccessRequest.t;
  messages : list Message.t;
  tasks : list Task.t;
  attendance : list Attendance.t;
  users_id_seq : Z;
  access_requests_id_seq : Z;
  attendance_id_seq : Z;
  outbox : list Effect
}.

Definition set_users (f : list User.t → list User.t) (db : Db) : Db :=
  mkDb (f (users db)) (roles db) (accessRequests db) (messages db) (tasks db)
       (attendance db) (users_id_seq db) (access_requests_id_seq db)
       (attendance_id_seq db) (outbox db).

Definition set_roles (f : list Role.t → list Role.t) (db : Db) : Db :=
  mkDb (users db) (f (roles db)) (accessRequests db) (messages db) (tasks db)
       (attendance db) (users_id_seq db) (access_requests_id_seq db)
       (attendance_id_seq db) (outbox db).

Definition set_accessRequests
    (f : list AccessRequest.t → list AccessRequest.t) (db : Db) : Db :=
  mkDb (users db) (roles db) (f (accessRequests db)) (messages db) (tasks db)
       (attendance db) (users_id_seq db) (access_requests_id_seq db)
       (attendance_id_seq db) (outbox db).

Definition set_messages (f : list Message.t → list Message.t) (db : Db) : Db :=
  mkDb (users db) (roles db) (accessRequests db) (f (messages db)) (tasks db)
       (attendance db) (users_id_seq db) (access_requests_id_seq db)
       (attendance_id_seq db) (outbox db).

Definition set_tasks (f : list Task.t → list Task.t) (db : Db) : Db :=
  mkDb (users db) (roles db) (accessRequests db) (messages db) (f (tasks db))
       (attendance db) (users_id_seq db) (access_requests_id_seq db)
       (attendance_id_seq db) (outbox db).

Definition set_attendance
    (f : list Attendance.t → list Attendance.t) (db : Db) : Db :=
  mkDb (users db) (roles db) (accessRequests db) (messages db) (tasks db)
       (f (attendance db)) (users_id_seq db) (access_requests_id_seq db)
       (attendance_id_seq db) (outbox db).

Definition next_users_id (db : Db) : Db :=
  mkDb (users db) (roles db) (accessRequests db) (messages db) (tasks db)
       (attendance db) (users_id_seq db + 1) (access_requests_id_seq db)
       (attendance_id_seq db) (outbox db).

Definition next_access_requests_id (db : Db) : Db :=
  mkDb (users db) (roles db) (accessRequests db) (messages db) (tasks db)
       (attendance db) (users_id_seq db) (access_requests_id_seq db + 1)
       (attendance_id_seq db) (outbox db).

Definition next_attendance_id (db : Db) : Db :=
  mkDb (users db) (roles db) (accessRequests db) (messages db) (tasks db)
       (attendance db) (users_id_seq db) (access_requests_id_seq db)
       (attendance_id_seq db + 1) (outbox db).

Definition emit (e : Effect) (db : Db) : Db :=
  mkDb (users db) (roles db) (accessRequests db) (messages db) (tasks db)
       (attendance db) (users_id_seq db) (access_requests_id_seq db)
       (attendance_id_seq db) (outbox db ++ [e]).

Definition emptyDb : Db := mkDb [] [] [] [] [] [] 1 1 1 [].

(** ** Asynchronous computations over the database

    A computation reads and writes the database and then returns or throws;
    what it wrote before throwing stays written (no route opens a
    transaction). *)

Definition M (A : Type) : Type := Db → Db * Completion A.

Definition ret {A} (a : A) : M A := λ db, (db, Return a).

Definition throw {A} (e : Exception) : M A := λ db, (db, Throw e).

Definition bind {A B} (m : M A) (k : A → M B) : M B :=
  λ db, match m db with
        | (db', Return a) => k a db'
        | (db', Throw e) => (db', Throw e)
        end.

Definition query {A} (f : Db → A) : M A := λ db, (db, Return (f db)).

Definition modify (f : Db → Db) : M unit := λ db, (f db, Return tt).

Definition exec {A} (m : M A) (db : Db) : Db := fst (m db).

Definition eval {A} (m : M A) (db : Db) : Completion A := snd (m db).

Notation "'await' x ← m ; k" := (bind m (λ x, k))
  (at level 10, x name, m at level 100, k at level 200,
   format "'[v' 'await'  x  ←  m ;  '/' k ']'").

(** SQL [UPDATE ... SET ... WHERE] and the rows that [RETURNING] yields. *)
Definition update_where {A} (P : A → Prop) `{∀ x, Decision (P x)}
    (set : A → A) (rows : list A) : list A :=
  (λ r, if decide (P r) then set r else r) <$> rows.

Definition returning {A} (P : A → Prop) `{∀ x, Decision (P x)}
    (set : A → A) (rows : list A) : list A :=
  set <$> filter P rows.

(** SQL [ORDER BY]: a stable insertion sort on [le]. Rows that tie come
    out in the order in which they are given; the database itself fixes
    no order among them. *)
Fixpoint insert_by {A} (le : A → A → bool) (x : A) (l : list A) : list A :=
  match l with
  | [] => [x]
  | y :: l' => if le x y then x :: y :: l' else y :: insert_by le x l'
  end.

Fixpoint order_by {A} (le : A → A → bool) (l : list A) : list A :=
  match l with
  | [] => []
  | x :: l' => insert_by le x (order_by le l')
  end.

(** What the database driver throws for a violated [unique] and for a
    violated [references] constraint, named as the schema names them. *)
Definition unique_violation (name : string) : Exception :=
  Error ("duplicate key value violates unique constraint " +:+ quoted name).

Definition foreign_key_violation (table name : string) : Exception :=
  Error ("insert or update on table " +:+ quoted table
         +:+ " violates foreign key constraint " +:+ quoted name).

(** The constraint of [tasks] that a write with this assignee violates:
    [assigned_to] is checked before [created_by]. *)
Definition tasks_foreign_key (assignedTo : option Z) (rows : list Z) : string :=
  match assignedTo with
  | Some u =>
      if decide (u ∈ rows) then "tasks_created_by_users_id_fk"
      else "tasks_assigned_to_users_id_fk"
  | None => "tasks_created_by_users_id_fk"
  end.

(** ** server/storage.ts: [DatabaseStorage] *)

(** Users *)

Definition getUser (id : Z) : M (option User.t) :=
  query (λ db, head (filter (λ u, User.id u = id) (users db))).

Definition getUserByUsername (username : string) : M (option User.t) :=
  query (λ db, head (filter (λ u, User.username u = username) (users db))).

Definition with_role (db : Db) (u : User.t) : UserWithRole.t :=
  UserWithRole.mk u
    (r ← User.roleId u; head (filter (λ x, Role.id x = r) (roles db))).

Definition getUserWithRole (id : Z) : M (option UserWithRole.t) :=
  query (λ db, with_role db <$> head (filter (λ u, User.id u = id) (users db))).

(** [username] is [unique]: the insert throws on a duplicate, after the
    identity sequence has been advanced. *)
Definition createUser (user : InsertUser.t) : M User.t :=
  λ db,
    let newUser :=
      User.mk (users_id_seq db) (InsertUser.username user)
        (InsertUser.password user) (InsertUser.email user)
        (InsertUser.name user) (InsertUser.avatar user)
        (InsertUser.isAdmin user) (InsertUser.roleId user)
        (InsertUser.isApproved user) in
    if decide (InsertUser.username user ∈ User.username <$> users db)
    then (next_users_id db,
          Throw (unique_violation "users_username_unique"))
    else (set_users (λ rows, rows ++ [newUser]) (next_users_id db),
          Return newUser).

Definition UserPatch_is_empty (data : UserPatch.t) : bool :=
  match UserPatch.password data, UserPatch.email data,
        UserPatch.name data, UserPatch.avatar data with
  | None, None, None, None => true
  | _, _, _, _ => false
  end.

Definition UserPatch_apply (data : UserPatch.t) (u : User.t) : User.t :=
  User.mk (User.id u) (User.username u)
    (default (User.password u) (UserPatch.password data))
    (default (User.email u) (UserPatch.email data))
    (default (User.name u) (UserPatch.name data))
    (default (User.avatar u) (UserPatch.avatar data))
    (User.isAdmin u) (User.roleId u) (User.isApproved u).

(** The query builder refuses an update without any defined value. *)
Definition updateUser (id : Z) (data : UserPatch.t) : M (option User.t) :=
  if UserPatch_is_empty data then throw (Error "No values to set")
  else
    λ db,
      (set_users (update_where (λ u, User.id u = id) (UserPatch_apply data)) db,
       Return (head (returning (λ u, User.id u = id) (UserPatch_apply data)
                       (users db)))).

Definition User_desc_id (a b : User.t) : bool := (User.id b <=? User.id a)%Z.

Definition getAllUsers : M (list UserWithRole.t) :=
  query (λ db, with_role db <$> order_by User_desc_id (users db)).

(** Roles *)

Definition getRole (id : Z) : M (option Role.t) :=
  query (λ db, head (filter (λ r, Role.id r = id) (roles db))).

Definition User_set_roleId (roleId : option Z) (u : User.t) : User.t :=
  User.mk (User.id u) (User.username u) (User.password u) (User.email u)
    (User.name u) (User.avatar u) (User.isAdmin u) roleId (User.isApproved u).

Definition deleteRole (id : Z) : M unit :=
  (* First remove the role from all users *)
  await _ ← modify (set_users
      (update_where (λ u, User.roleId u = Some id) (User_set_roleId None)));
  (* Then delete the role *)
  modify (set_roles (filter (λ r, Role.id r ≠ id))).

Definition assignRoleToUser (userId : Z) (roleId : option Z) : M unit :=
  modify (set_users
    (update_where (λ u, User.id u = userId) (User_set_roleId roleId))).

(** Access requests *)

Definition getAccessRequest (id : Z) : M (option AccessRequest.t) :=
  query (λ db, head (filter (λ r, AccessRequest.id r = id) (accessRequests db))).

Definition getAccessRequestByUsername (username : string)
    : M (option AccessRequest.t) :=
  query (λ db,
    head (filter (λ r, AccessRequest.username r = username) (accessRequests db))).

(** [status] defaults to ["pending"] and [requestedAt] to the database's
    [now]; [username] is [unique]. *)
Definition createAccessRequest (now : Z) (request : InsertAccessRequest.t)
    : M AccessRequest.t :=
  λ db,
    let newRequest :=
      AccessRequest.mk (access_requests_id_seq db)
        (InsertAccessRequest.username request)
        (InsertAccessRequest.email request)
        (InsertAccessRequest.password request)
        (InsertAccessRequest.name request)
        "pending" now in
    if decide (InsertAccessRequest.username request
                 ∈ AccessRequest.username <$> accessRequests db)
    then (next_access_requests_id db,
          Throw (unique_violation "access_requests_username_unique"))
    else (set_accessRequests (λ rows, rows ++ [newRequest])
            (next_access_requests_id db),
          Return newRequest).

Definition AccessRequest_set_status (status : string) (r : AccessRequest.t)
    : AccessRequest.t :=
  AccessRequest.mk (AccessRequest.id r) (AccessRequest.username r)
    (AccessRequest.email r) (AccessRequest.password r) (AccessRequest.name r)
    status (AccessRequest.requestedAt r).

Definition updateAccessRequestStatus (id : Z) (status : string) : M unit :=
  modify (set_accessRequests
    (update_where (λ r, AccessRequest.id r = id)
       (AccessRequest_set_status status))).

(** Messages *)

Definition getMessage (id : Z) : M (option Message.t) :=
  query (λ db, head (filter (λ m, Message.id m = id) (messages db))).

Definition Message_asc_createdAt (a b : Message.t) : bool :=
  (Message.createdAt a <=? Message.createdAt b)%Z.

Definition with_sender (db : Db) (m : Message.t) : MessageWithSender.t :=
  MessageWithSender.mk m
    (with_role db <$>
       head (filter (λ u, User.id u = Message.senderId m) (users db))).

(** [ORDER BY created_at] leaves the order of messages with the same
    creation time to the database: the sort is applied to the rows as a
    scan yields them, which is some permutation of the table that may
    depend on its content. *)
Class Scan : Type := {
  scan : list Message.t → list Message.t;
  scan_Permutation : ∀ rows, scan rows ≡ₚ rows
}.

(** The scan that yields the rows as they were inserted. *)
Definition insertion_order : Scan :=
  {| scan := λ rows, rows; scan_Permutation := λ rows, reflexivity rows |}.

Definition getAllMessages `{Scan} : M (list MessageWithSender.t) :=
  query (λ db,
    with_sender db <$> order_by Message_asc_createdAt (scan (messages db))).

Definition Message_set_isDeleted (isDeleted : bool) (m : Message.t)
    : Message.t :=
  Message.mk (Message.id m) (Message.senderId m) (Message.content m)
    (Message.messageType m) (Message.mediaUrl m) isDeleted
    (Message.createdAt m).

Definition deleteMessage (id : Z) : M unit :=
  modify (set_messages
    (update_where (λ m, Message.id m = id) (Message_set_isDeleted true))).

(** Tasks *)

Definition getTask (id : Z) : M (option Task.t) :=
  query (λ db, head (filter (λ t, Task.id t = id) (tasks db))).

Definition TaskPatch_is_empty (data : TaskPatch.t) : bool :=
  match TaskPatch.title data, TaskPatch.description data,
        TaskPatch.priority data, TaskPatch.status data,
        TaskPatch.assignedTo data, TaskPatch.createdBy data,
        TaskPatch.dueDate data with
  | None, None, None, None, None, None, None => true
  | _, _, _, _, _, _, _ => false
  end.

Definition TaskPatch_apply (data : TaskPatch.t) (t : Task.t) : Task.t :=
  Task.mk (Task.id t)
    (default (Task.title t) (TaskPatch.title data))
    (default (Task.description t) (TaskPatch.description data))
    (default (Task.priority t) (TaskPatch.priority data))
    (default (Task.status t) (TaskPatch.status data))
    (default (Task.assignedTo t) (TaskPatch.assignedTo data))
    (default (Task.createdBy t) (TaskPatch.createdBy data))
    (default (Task.dueDate t) (TaskPatch.dueDate data))
    (Task.createdAt t).

(** [assigned_to] and [created_by] reference [users.id]: a user id that the
    update writes must exist. *)
Definition TaskPatch_references_ok (db : Db) (data : TaskPatch.t) : Prop :=
  match TaskPatch.createdBy data with
  | Some u => u ∈ User.id <$> users db
  | None => True
  end ∧
  match TaskPatch.assignedTo data with
  | Some (Some u) => u ∈ User.id <$> users db
  | _ => True
  end.

Global Instance TaskPatch_references_ok_dec db data :
  Decision (TaskPatch_references_ok db data).
Proof. unfold TaskPatch_references_ok. repeat case_match; apply _. Defined.

(** The query builder refuses an update without any defined value. The
    one caller passes the JSON body of the request, in which a due date
    that is not [null] is a string or a number and never a [Date]: the
    timestamp column cannot encode it, and the query is not sent. The
    references are checked on the rows that are written. *)
Definition updateTask (id : Z) (data : TaskPatch.t) : M (option Task.t) :=
  if TaskPatch_is_empty data then throw (Error "No values to set")
  else if TaskPatch.dueDate data is Some (Some _)
  then throw (TypeError "value.toISOString is not a function")
  else
    λ db,
      let updated :=
        returning (λ t, Task.id t = id) (TaskPatch_apply data) (tasks db) in
      if decide (updated = [] ∨ TaskPatch_references_ok db data)
      then (set_tasks (update_where (λ t, Task.id t = id)
                         (TaskPatch_apply data)) db,
            Return (head updated))
      else (db, Throw (foreign_key_violation "tasks"
                         (tasks_foreign_key (mjoin (TaskPatch.assignedTo data))
                            (User.id <$> users db)))).

(** Attendance *)

Definition getTodayAttendance (userId : Z) (date : string)
    : M (option Attendance.t) :=
  query (λ db,
    head (filter (λ a, Attendance.userId a = userId ∧ Attendance.date a = date)
            (attendance db))).

(** [user_id] references [users.id]. *)
Definition createAttendance (record : InsertAttendance.t) : M Attendance.t :=
  λ db,
    let newRecord :=
      Attendance.mk (attendance_id_seq db) (InsertAttendance.userId record)
        (InsertAttendance.clockIn record) (InsertAttendance.clockOut record)
        (InsertAttendance.date record) in
    if decide (InsertAttendance.userId record ∈ User.id <$> users db)
    then (set_attendance (λ rows, rows ++ [newRecord]) (next_attendance_id db),
          Return newRecord)
    else (next_attendance_id db,
          Throw (foreign_key_violation "attendance"
                   "attendance_user_id_users_id_fk")).

Definition Attendance_set_clockOut (clockOut : option Z) (a : Attendance.t)
    : Attendance.t :=
  Attendance.mk (Attendance.id a) (Attendance.userId a) (Attendance.clockIn a)
    clockOut (Attendance.date a).

(** The one caller passes [{ clockOut }] and nothing else. *)
Definition updateAttendance (id : Z) (clockOut : option Z)
    : M (option Attendance.t) :=
  λ db,
    (set_attendance (update_where (λ a, Attendance.id a = id)
                       (Attendance_set_clockOut clockOut)) db,
     Return (head (returning (λ a, Attendance.id a = id)
                     (Attendance_set_clockOut clockOut) (attendance db)))).

(** ** HTTP responses *)

(** JSON values, for the one response that is built by object
    destructuring. *)
Inductive Value : Type :=
  | VNull
  | VBool (b : bool)
  | VNumber (z : Z)
  | VString (s : string)
  | VObject (fields : gmap string Value).

Inductive Body : Type :=
  | Send (text : string)
  | Default_error_page (err : Exception)
  | Json_success
  | Json_AccessRequest (request : AccessRequest.t)
  | Json_UserWithRole (user : option UserWithRole.t)
  | Json_Task (task : option Task.t)
  | Json_Attendance (record : option Attendance.t)
  | Json_objects (values : list (gmap string Value)).

Record Response : Type := mkResponse {
  status : Z;
  body : Body
}.

Definition Handler : Type := Db → Db * Response.

(** The [try { ... } catch (error) { res.status(500).send(error.message) }]
    around every route body. *)
Definition try_catch (route : M Response) : Handler :=
  λ db, match route db with
        | (db', Return res) => (db', res)
        | (db', Throw e) => (db', mkResponse 500 (Send (message_of e)))
        end.

Definition lift {A} (c : Completion A) : M A := λ db, (db, c).

(** [new Date()], as far as the routes look at it. *)
Record Date : Type := mkDate {
  getTime : Z;
  toISOString : string
}.

(** ** auth.ts: sessions and the local strategy *)

(** [passport.deserializeUser]: the session holds a user id; [req.user] is
    that user's current row, if there is one. *)
Definition deserializeUser (session : option Z) (db : Db) : option User.t :=
  id ← session; head (filter (λ u, User.id u = id) (users db)).

Inductive Verified : Type :=
  | done_user (user : User.t)
  | done_false (message : string)
  | done_error (err : Exception).

Section Routes.
Context `{K : Scrypt}.

Definition ADMIN_USERNAME : string := "grovefanreal".
Definition ADMIN_PASSWORD : string := "Grovefan@2207".

Definition initializeAdmin (random : Buffer) : M unit :=
  await existingAdmin ← getUserByUsername ADMIN_USERNAME;
  if existingAdmin is Some _ then ret tt
  else
    let hashedPassword := hashPassword random ADMIN_PASSWORD in
    await _ ← createUser
      (InsertUser.mk ADMIN_USERNAME hashedPassword "admin@grovefan.com" "Admin"
         true true None None);
    ret tt.

(** The verify callback of [LocalStrategy]. *)
Definition LocalStrategy (username password : string) (db : Db) : Verified :=
  let attempt : M Verified :=
    await user ← getUserByUsername username;
    match user with
    | None => ret (done_false "Invalid credentials")
    | Some user =>
        (* Check if user is approved (admin is always approved) *)
        if negb (User.isApproved user) && negb (User.isAdmin user)
        then ret (done_false "Account pending approval")
        else
          await isValid ← lift (comparePasswords password (User.password user));
          if negb isValid then ret (done_false "Invalid credentials")
          else ret (done_user user)
    end in
  match attempt db with
  | (_, Return v) => v
  | (_, Throw err) => done_error err
  end.

(** [POST /api/login]: the response and the user id the session is bound
    to, if a session is established. The strategy fails on an empty user
    name or password before it calls the verify callback. An error goes to
    [next(err)], which no route handles: the framework answers 500 with
    its own page. *)
Definition post_login (username password : string) (db : Db)
    : Response * option Z :=
  if negb (truthy username) || negb (truthy password)
  then (mkResponse 401 (Send "Missing credentials"), None)
  else
    match LocalStrategy username password db with
    | done_error err => (mkResponse 500 (Default_error_page err), None)
    | done_false message => (mkResponse 401 (Send message), None)
    | done_user user =>
        (mkResponse 200
           (Json_UserWithRole (with_role db <$>
              head (filter (λ u, User.id u = User.id user) (users db)))),
         Some (User.id user))
    end.

(** ** server/routes.ts *)

Definition requireAuth (session : option Z) (next : User.t → Handler)
    : Handler :=
  λ db, match deserializeUser session db with
        | None => (db, mkResponse 401 (Send "Unauthorized"))
        | Some user => next user db
        end.

Definition requireAdmin (session : option Z) (next : User.t → Handler)
    : Handler :=
  λ db, match deserializeUser session db with
        | Some user =>
            if User.isAdmin user then next user db
            else (db, mkResponse 403 (Send "Forbidden"))
        | None => (db, mkResponse 403 (Send "Forbidden"))
        end.

(** [if (s)] on a string. *)
(** Access requests *)

Definition post_access_requests (random : Buffer) (now : Z)
    (body : InsertAccessRequest.t) : Handler :=
  try_catch (
    let username := InsertAccessRequest.username body in
    (* Check if username already exists *)
    await existingUser ← getUserByUsername username;
    if existingUser is Some _
    then ret (mkResponse 400 (Send "Username already taken"))
    else
      (* Check if request already exists *)
      await existingRequest ← getAccessRequestByUsername username;
      if existingRequest is Some _
      then ret (mkResponse 400 (Send "Access request already submitted"))
      else
        let hashedPassword :=
          hashPassword random (InsertAccessRequest.password body) in
        await request ← createAccessRequest now
          (InsertAccessRequest.mk username (InsertAccessRequest.email body)
             (InsertAccessRequest.name body) hashedPassword);
        ret (mkResponse 201 (Json_AccessRequest request))).

Definition post_access_requests_approve (session : option Z) (requestId : Z)
    : Handler :=
  requireAdmin session (λ _, try_catch (
    await request ← getAccessRequest requestId;
    match request with
    | None => ret (mkResponse 404 (Send "Request not found"))
    | Some request =>
        if decide (AccessRequest.status request ≠ "pending")
        then ret (mkResponse 400 (Send "Request already processed"))
        else
          (* Create user from request *)
          await _ ← createUser
            (InsertUser.mk (AccessRequest.username request)
               (AccessRequest.password request) (* Already hashed *)
               (AccessRequest.email request) (AccessRequest.name request)
               false true None None);
          (* Update request status *)
          await _ ← updateAccessRequestStatus requestId "approved";
          (* Send email notification *)
          await _ ← (if truthy (AccessRequest.email request)
                     then modify (emit (AccessApprovedEmail
                            (AccessRequest.email request)
                            (AccessRequest.username request)))
                     else ret tt);
          ret (mkResponse 200 Json_success)
    end)).

Definition post_access_requests_reject (session : option Z) (requestId : Z)
    : Handler :=
  requireAdmin session (λ _, try_catch (
    await request ← getAccessRequest requestId;
    match request with
    | None => ret (mkResponse 404 (Send "Request not found"))
    | Some request =>
        await _ ← updateAccessRequestStatus requestId "rejected";
        await _ ← (if truthy (AccessRequest.email request)
                   then modify (emit (AccessRejectedEmail
                          (AccessRequest.email request)
                          (AccessRequest.username request)))
                   else ret tt);
        ret (mkResponse 200 Json_success)
    end)).

(** Users *)

Definition nullable {A} (f : A → Value) (x : option A) : Value :=
  match x with Some a => f a | None => VNull end.

Definition Role_toObject (r : Role.t) : gmap string Value :=
  list_to_map
    [("id", VNumber (Role.id r)); ("name", VString (Role.name r));
     ("color", VString (Role.color r))].

Definition UserWithRole_toObject (x : UserWithRole.t) : gmap string Value :=
  let u := UserWithRole.user x in
  list_to_map
    [("id", VNumber (User.id u));
     ("username", VString (User.username u));
     ("password", VString (User.password u));
     ("email", VString (User.email u));
     ("name", VString (User.name u));
     ("avatar", nullable VString (User.avatar u));
     ("isAdmin", VBool (User.isAdmin u));
     ("roleId", nullable VNumber (User.roleId u));
     ("isApproved", VBool (User.isApproved u));
     ("role", nullable (λ r, VObject (Role_toObject r)) (UserWithRole.role x))].

(** [({ password, ...user }) => user]. *)
Definition omit_password (o : gmap string Value) : gmap string Value :=
  delete "password" o.

Definition get_users (session : option Z) : Handler :=
  requireAuth session (λ _, try_catch (
    await users ← getAllUsers;
    (* Filter out passwords *)
    let safeUsers := (omit_password ∘ UserWithRole_toObject) <$> users in
    ret (mkResponse 200 (Json_objects safeUsers)))).

Definition patch_users_role (session : option Z) (userId : Z)
    (roleId : option Z) : Handler :=
  requireAdmin session (λ _, try_catch (
    await _ ← assignRoleToUser userId roleId;
    ret (mkResponse 200 Json_success))).

(** [file] is the stored name of an upload that passed the filter. *)
Definition patch_user_profile (session : option Z) (name email : option string)
    (file : option string) : Handler :=
  requireAuth session (λ user, try_catch (
    let userId := User.id user in
    let updateData :=
      UserPatch.mk None email name
        (if file is Some filename then Some (Some ("/uploads/" +:+ filename))
         else None) in
    await updated ← updateUser userId updateData;
    if updated is None then ret (mkResponse 404 (Send "User not found"))
    else
      await userWithRole ← getUserWithRole userId;
      ret (mkResponse 200 (Json_UserWithRole userWithRole)))).

Definition post_user_change_password (session : option Z) (random : Buffer)
    (oldPassword newPassword : string) : Handler :=
  requireAuth session (λ user, try_catch (
    let userId := User.id user in
    await user ← getUser userId;
    match user with
    | None => ret (mkResponse 404 (Send "User not found"))
    | Some user =>
        await isValid ← lift (comparePasswords oldPassword (User.password user));
        if negb isValid
        then ret (mkResponse 400 (Send "Current password is incorrect"))
        else
          let hashedPassword := hashPassword random newPassword in
          await _ ← updateUser userId
            (UserPatch.mk (Some hashedPassword) None None None);
          ret (mkResponse 200 Json_success)
    end)).

(** Roles *)

Definition delete_roles (session : option Z) (roleId : Z) : Handler :=
  requireAdmin session (λ _, try_catch (
    await _ ← deleteRole roleId;
    ret (mkResponse 200 Json_success))).

(** Messages *)

Definition delete_messages (session : option Z) (messageId : Z) : Handler :=
  requireAuth session (λ user, try_catch (
    await message ← getMessage messageId;
    match message with
    | None => ret (mkResponse 404 (Send "Message not found"))
    | Some message =>
        (* Only allow deleting own messages or admin *)
        if bool_decide (Message.senderId message ≠ User.id user)
           && negb (User.isAdmin user)
        then ret (mkResponse 403 (Send "Forbidden"))
        else
          await _ ← deleteMessage messageId;
          (* Broadcast to all connected clients *)
          await _ ← modify (emit (Broadcast_delete_message messageId));
          ret (mkResponse 200 Json_success)
    end)).

(** Tasks *)

Definition patch_tasks (session : option Z) (taskId : Z) (body : TaskPatch.t)
    : Handler :=
  requireAuth session (λ user, try_catch (
    await task ← getTask taskId;
    match task with
    | None => ret (mkResponse 404 (Send "Task not found"))
    | Some task =>
        (* Only allow updating if admin or assignee *)
        if bool_decide (Task.assignedTo task ≠ Some (User.id user))
           && negb (User.isAdmin user)
        then ret (mkResponse 403 (Send "Forbidden"))
        else
          await updated ← updateTask taskId body;
          ret (mkResponse 200 (Json_Task updated))
    end)).

(** Attendance *)

(** [date.toISOString().split("T")[0]]. *)
Definition isoDay (d : Date) : string :=
  match split "T" (toISOString d) with
  | day :: _ => day
  | [] => EmptyString
  end.

(** [now] is the first [new Date()] of the route, [now'] the second. *)
Definition post_attendance_clock_in (session : option Z) (now now' : Date)
    : Handler :=
  requireAuth session (λ user, try_catch (
    let today := isoDay now in
    await existing ← getTodayAttendance (User.id user) today;
    if existing is Some _
    then ret (mkResponse 400 (Send "Already clocked in today"))
    else
      await record ← createAttendance
        (InsertAttendance.mk (User.id user) (getTime now') None today);
      ret (mkResponse 201 (Json_Attendance (Some record))))).

Definition post_attendance_clock_out (session : option Z) (now now' : Date)
    : Handler :=
  requireAuth session (λ user, try_catch (
    let today := isoDay now in
    await existing ← getTodayAttendance (User.id user) today;
    match existing with
    | None => ret (mkResponse 400 (Send "Not clocked in today"))
    | Some existing =>
        if Attendance.clockOut existing is Some _
        then ret (mkResponse 400 (Send "Already clocked out today"))
        else
          await updated ← updateAttendance (Attendance.id existing)
            (Some (getTime now'));
          ret (mkResponse 200 (Json_Attendance updated))
    end)).

End Routes.

(** ** The server as a transition system

    One constructor per modelled route that can write to the database, with
    what the route reads from the request and from its environment. *)

Inductive Request : Type :=
  | POST_access_requests (random : Buffer) (now : Z)
      (body : InsertAccessRequest.t)
  | POST_access_requests_approve (session : option Z) (requestId : Z)
  | POST_access_requests_reject (session : option Z) (requestId : Z)
  | PATCH_users_role (session : option Z) (userId : Z) (roleId : option Z)
  | PATCH_user_profile (session : option Z) (name email : option string)
      (file : option string)
  | POST_user_change_password (session : option Z) (random : Buffer)
      (oldPassword newPassword : string)
  | DELETE_roles (session : option Z) (roleId : Z)
  | DELETE_messages (session : option Z) (messageId : Z)
  | PATCH_tasks (session : option Z) (taskId : Z) (body : TaskPatch.t)
  | POST_attendance_clock_in (session : option Z) (now now' : Date)
  | POST_attendance_clock_out (session : option Z) (now now' : Date).

Section Server.
Context `{K : Scrypt}.

Definition handle (r : Request) : Handler :=
  match r with
  | POST_access_requests random now body =>
      post_access_requests random now body
  | POST_access_requests_approve session requestId =>
      post_access_requests_approve session requestId
  | POST_access_requests_reject session requestId =>
      post_access_requests_reject session requestId
  | PATCH_users_role session userId roleId =>
      patch_users_role session userId roleId
  | PATCH_user_profile session name email file =>
      patch_user_profile session name email file
  | POST_user_change_password session random oldPassword newPassword =>
      post_user_change_password session random oldPassword newPassword
  | DELETE_roles session roleId => delete_roles session roleId
  | DELETE_messages session messageId => delete_messages session messageId
  | PATCH_tasks session taskId body => patch_tasks session taskId body
  | POST_attendance_clock_in session now now' =>
      post_attendance_clock_in session now now'
  | POST_attendance_clock_out session now now' =>
      post_attendance_clock_out session now now'
  end.

(** The states the server can be in: [registerRoutes] first runs
    [initializeAdmin], on an empty database or on the one a previous run
    left, and then requests are served one after the other. The routes that
    are not modelled (creating roles, messages, tasks and work reports,
    reviewing reports) write neither to [users] nor to [access_requests]. *)
Inductive reachable : Db → Prop :=
  | reachable_start random :
      reachable (exec (initializeAdmin random) emptyDb)
  | reachable_restart db random :
      reachable db → reachable (exec (initializeAdmin random) db)
  | reachable_handle db r :
      reachable db → reachable (fst (handle r db))
  | reachable_other_tables db db' :
      reachable db →
      users db' = users db →
      accessRequests db' = accessRequests db →
      reachable db'.

End Server.

(** ** Vocabulary of the properties *)

(** The user holds the role [id]. *)
Definition holds_role (id : Z) (u : User.t) : Prop := User.roleId u = Some id.

Global Instance holds_role_dec id u : Decision (holds_role id u).
Proof. unfold holds_role. apply _. Defined.



(** The object that the user list is expected to hold for one user: every
    key of the row and its role, but not [password]. *)
Definition SafeUser_toObject (x : UserWithRole.t) : gmap string Value :=
  let u := UserWithRole.user x in
  list_to_map
    [("id", VNumber (User.id u));
     ("username", VString (User.username u));
     ("email", VString (User.email u));
     ("name", VString (User.name u));
     ("avatar", nullable VString (User.avatar u));
     ("isAdmin", VBool (User.isAdmin u));
     ("roleId", nullable VNumber (User.roleId u));
     ("isApproved", VBool (User.isApproved u));
     ("role", nullable (λ r, VObject (Role_toObject r)) (UserWithRole.role x))].

(** No [password] key at the top of a value. *)
Definition password_free (v : Value) : Prop :=
  match v with
  | VObject fields => fields !! "password" = None
  | _ => True
  end.

(** A stored value is malformed for the check when it has no ["."]
    separator, or when the part before the first ["."] does not decode to
    the 64 bytes of a derived key (too short, too long, or cut short by a
    character that is not hexadecimal). *)
Definition malformed (stored : string) : Prop :=
  match split "." stored with
  | hashed :: _ :: _ => length (Buffer_from_hex hashed) ≠ 64
  | _ => True
  end.

Global Instance malformed_dec stored : Decision (malformed stored).
Proof. unfold malformed. repeat case_match; apply _. Defined.

(** ** Accounts and the approval workflow *)

(** What the approval workflow depends on: the user names in use and the
    table of access requests. *)
Definition usernames (db : Db) : list string := User.username <$> users db.

Definition same_accounts (db db' : Db) : Prop :=
  usernames db' = usernames db ∧ accessRequests db' = accessRequests db.

(** What every reachable state satisfies: the names of the access requests
    are pairwise different, no pending request carries the name of a user,
    and the admin account exists. *)
Record account_invariant (db : Db) : Prop := {
  unique_request_names :
    NoDup (AccessRequest.username <$> accessRequests db);
  pending_names_free :
    ∀ r, r ∈ accessRequests db →
         AccessRequest.status r = "pending" →
         AccessRequest.username r ∉ usernames db;
  admin_exists : ADMIN_USERNAME ∈ usernames db
}.

(** The database after a successful approval of [request]. *)
Definition approved (requestId : Z) (request : AccessRequest.t) (db : Db) : Db :=
  let newUser :=
    User.mk (users_id_seq db) (AccessRequest.username request)
      (AccessRequest.password request) (AccessRequest.email request)
      (AccessRequest.name request) None false None true in
  let written :=
    set_accessRequests
      (update_where (λ r, AccessRequest.id r = requestId)
         (AccessRequest_set_status "approved"))
      (set_users (λ rows, rows ++ [newUser]) (next_users_id db)) in
  if truthy (AccessRequest.email request)
  then emit (AccessApprovedEmail (AccessRequest.email request)
               (AccessRequest.username request)) written
  else written.

(** The caller's session belongs to an admin. *)
Definition admin_session (session : option Z) (db : Db) : bool :=
  match deserializeUser session db with
  | Some user => User.isAdmin user
  | None => false
  end.

(** ** Example data *)

Definition example_admin : User.t :=
  User.mk 1 "grovefanreal" "00.00" "admin@grovefan.com" "Admin" None true None true.
Definition example_staff : User.t :=
  User.mk 2 "u1" "00.00" "u1@example.com" "U One" None false None true.
Definition example_task : Task.t :=
  Task.mk 1 "Ship report" None "high" "pending" (Some 2%Z) 1 None 1000.
Definition example_db : Db :=
  mkDb [example_admin; example_staff] [] [] [] [example_task] [] 3 1 1 [].
(** A body that an assignee can send: it names no [status]. *)
Definition retitle : TaskPatch.t :=
  TaskPatch.mk (Some "Not my job") None None None (Some None) (Some 2%Z) None.

Definition example_rejected : AccessRequest.t :=
  AccessRequest.mk 1 "bob" "bob@example.com" "00.00" "Bob" "rejected" 500.
Definition example_db_rejected : Db :=
  mkDb [example_admin] [] [example_rejected] [] [] [] 2 2 1 [].

Definition example_request_body : InsertAccessRequest.t :=
  InsertAccessRequest.mk "u2" "u2@example.com" "U Two" "hunter2".

(** The first run on an empty database, then one access request. *)
Definition example_db_pending : Db :=
  fst (@handle toyScrypt (POST_access_requests [x01; x02] 500 example_request_body)
         (exec (@initializeAdmin toyScrypt [x0a; x0b]) emptyDb)).

Definition example_now : Date := mkDate 1767607200000 "2026-01-05T10:00:00.000Z".

Definition example_db_clocked_out : Db :=
  mkDb [example_admin; example_staff] [] [] [] [] 
    [Attendance.mk 1 2 1767600000000 (Some 1767603600000%Z) "2026-01-05"]
    3 1 2 [].

Definition example_pending_user : User.t :=
  User.mk 3 "u3" (@hashPassword toyScrypt [x01] "pw") "u3@example.com" "U3"
    None false None false.

Definition example_db_with_pending_user : Db :=
  set_users (λ rows, rows ++ [example_pending_user]) example_db.

(** ** Further vocabulary *)

(** The session a request is sent with; the access-request form is the one
    modelled route that takes none. *)
Definition session_of (r : Request) : option (option Z) :=
  match r with
  | POST_access_requests _ _ _ => None
  | POST_access_requests_approve session _
  | POST_access_requests_reject session _
  | PATCH_users_role session _ _
  | PATCH_user_profile session _ _ _
  | POST_user_change_password session _ _ _
  | DELETE_roles session _
  | DELETE_messages session _
  | PATCH_tasks session _ _
  | POST_attendance_clock_in session _ _
  | POST_attendance_clock_out session _ _ => Some session
  end.

(** The routes registered behind [requireAdmin]. *)
Definition admin_only (r : Request) : bool :=
  match r with
  | POST_access_requests_approve _ _
  | POST_access_requests_reject _ _
  | PATCH_users_role _ _ _
  | DELETE_roles _ _ => true
  | _ => false
  end.

(** An approved member of staff whose stored password was produced by
    [hashPassword]. *)
Definition example_member : User.t :=
  User.mk 4 "u4" (@hashPassword toyScrypt [x07; x08] "correct horse")
    "u4@example.com" "U Four" None false None true.

Definition example_db_member : Db :=
  set_users (λ rows, rows ++ [example_member]) example_db.


(** [u'] is the account [u]: the same id, user name, password, flags and
    role reference. *)
Definition same_account (u u' : User.t) : Prop :=
  User.id u' = User.id u ∧
  User.username u' = User.username u ∧
  User.password u' = User.password u ∧
  User.isAdmin u' = User.isAdmin u ∧
  User.isApproved u' = User.isApproved u ∧
  User.roleId u' = User.roleId u.

(** ** Serving requests in sequence *)

(** The database after the requests [rs] were served, one after the other,
    from [db]. *)
Definition serve `{K : Scrypt} (rs : list Request) (db : Db) : Db :=
  foldl (λ db r, fst (handle r db)) db rs.

(** The database after the first start of the server. *)
Definition started `{K : Scrypt} (random : Buffer) : Db :=
  exec (initializeAdmin random) emptyDb.

(** The rows of a table have pairwise different ids, all below the next
    value of the table's sequence. *)
Definition ids_below {A} (id : A → Z) (rows : list A) (seq : Z) : Prop :=
  NoDup (id <$> rows) ∧ Forall (λ r, (id r < seq)%Z) rows.

Record keys_unique (db : Db) : Prop := {
  user_ids_unique : ids_below User.id (users db) (users_id_seq db);
  user_names_unique : NoDup (User.username <$> users db);
  request_ids_unique :
    ids_below AccessRequest.id (accessRequests db) (access_requests_id_seq db);
  attendance_ids_unique :
    ids_below Attendance.id (attendance db) (attendance_id_seq db);
  attendance_days_unique :
    NoDup ((λ a, (Attendance.userId a, Attendance.date a)) <$> attendance db)
}.

(** ** Further routes of auth.ts and routes.ts *)

(** [GET /api/user]. The route has no [catch]; the read it awaits does not
    reject. *)
Definition get_user (session : option Z) : Handler :=
  λ db, match deserializeUser session db with
        | None => (db, mkResponse 401 (Send "Unauthorized"))
        | Some user =>
            match getUserWithRole (User.id user) db with
            | (db', Return userWithRole) =>
                (db', mkResponse 200 (Json_UserWithRole userWithRole))
            | (db', Throw e) => (db', mkResponse 500 (Default_error_page e))
            end
        end.

(** [POST /api/logout]: the response, and the session after [req.logout]. *)
Definition post_logout (session : option Z) : Response * option Z :=
  (mkResponse 200 (Send "OK"), None).

(** [GET /api/attendance/today]; [res.json(record || null)]. *)
Definition get_attendance_today (session : option Z) (now : Date) : Handler :=
  requireAuth session (λ user, try_catch (
    let today := isoDay now in
    await record ← getTodayAttendance (User.id user) today;
    ret (mkResponse 200 (Json_Attendance record)))).

(** One start of the server, one access request, and its approval by the
    admin. *)
Definition example_requests : list Request :=
  [POST_access_requests [x01; x02] 500 example_request_body;
   POST_access_requests_approve (Some 1%Z) 1].

Definition example_db_served : Db :=
  @serve toyScrypt example_requests (@started toyScrypt [x0a; x0b]).

(** ** The rest of the schema *)

Module WorkReport.
Record t : Type := mk {
  id : Z;
  userId : Z;
  title : string;
  content : string;
  status : string;
  createdAt : Z
}.
End WorkReport.

Module InsertWorkReport.
Record t : Type := mk {
  userId : Z;
  title : string;
  content : string
}.
End InsertWorkReport.

Module InsertRole.
Record t : Type := mk {
  name : string;
  color : string
}.
End InsertRole.

Module InsertMessage.
Record t : Type := mk {
  senderId : Z;
  content : option string;
  messageType : string;
  mediaUrl : option string
}.
End InsertMessage.

(** [dueDate] is [null] or a [Date]; a [Date] whose time value is [None]
    is an Invalid Date. *)
Module InsertTask.
Record t : Type := mk {
  title : string;
  description : option string;
  priority : string;
  status : string;
  assignedTo : option Z;
  createdBy : Z;
  dueDate : option (option Z)
}.
End InsertTask.

(** The joined rows of the relational queries; a missing relation is
    [null]. *)
Module TaskWithUsers.
Record t : Type := mk {
  task : Task.t;
  assignee : option UserWithRole.t;
  creator : option UserWithRole.t
}.
End TaskWithUsers.

Module AttendanceWithUser.
Record t : Type := mk {
  record : Attendance.t;
  user : option UserWithRole.t
}.
End AttendanceWithUser.

Module WorkReportWithUser.
Record t : Type := mk {
  report : WorkReport.t;
  user : option UserWithRole.t
}.
End WorkReportWithUser.

Global Instance WorkReport_eq_dec : EqDecision WorkReport.t.
Proof. solve_decision. Defined.

(** ** storage.ts: the listings over the tables above *)

Definition find_user_with_role (db : Db) (id : Z) : option UserWithRole.t :=
  with_role db <$> head (filter (λ u, User.id u = id) (users db)).

Definition Task_desc_createdAt (a b : Task.t) : bool :=
  (Task.createdAt b <=? Task.createdAt a)%Z.

Definition with_users (db : Db) (t : Task.t) : TaskWithUsers.t :=
  TaskWithUsers.mk t
    (u ← Task.assignedTo t; find_user_with_role db u)
    (find_user_with_role db (Task.createdBy t)).

Definition getAllTasks : M (list TaskWithUsers.t) :=
  query (λ db, with_users db <$> order_by Task_desc_createdAt (tasks db)).

Definition getTasksByUser (userId : Z) : M (list TaskWithUsers.t) :=
  query (λ db,
    with_users db <$>
      order_by Task_desc_createdAt
        (filter (λ t, Task.assignedTo t = Some userId) (tasks db))).

Definition Attendance_desc_clockIn (a b : Attendance.t) : bool :=
  (Attendance.clockIn b <=? Attendance.clockIn a)%Z.

Definition with_user (db : Db) (a : Attendance.t) : AttendanceWithUser.t :=
  AttendanceWithUser.mk a (find_user_with_role db (Attendance.userId a)).

Definition getAllAttendance : M (list AttendanceWithUser.t) :=
  query (λ db, with_user db <$> order_by Attendance_desc_clockIn (attendance db)).

Definition getUserAttendance (userId : Z) : M (list AttendanceWithUser.t) :=
  query (λ db,
    with_user db <$>
      order_by Attendance_desc_clockIn
        (filter (λ a, Attendance.userId a = userId) (attendance db))).

Definition getAdmins : M (list User.t) :=
  query (λ db, filter (λ u, User.isAdmin u = true) (users db)).

(** ** Typed answers

    The routes below answer with a text or with a JSON value of the type
    the route produces. *)

Inductive Reply (A : Type) : Type :=
  | reply_send (status : Z) (text : string)
  | reply_json (status : Z) (value : A).
Arguments reply_send {A} status text.
Arguments reply_json {A} status value.

(** The middleware and the [try]/[catch] of a route, over a state [S] that
    holds the database. *)
Section TypedRoutes.
Context {S A : Type} (db_of : S → Db).

Definition requireAuth_in (session : option Z)
    (next : User.t → S → S * Reply A) : S → S * Reply A :=
  λ s, match deserializeUser session (db_of s) with
       | None => (s, reply_send 401 "Unauthorized")
       | Some user => next user s
       end.

Definition requireAdmin_in (session : option Z)
    (next : User.t → S → S * Reply A) : S → S * Reply A :=
  λ s, match deserializeUser session (db_of s) with
       | Some user =>
           if User.isAdmin user then next user s
           else (s, reply_send 403 "Forbidden")
       | None => (s, reply_send 403 "Forbidden")
       end.

Definition try_catch_in (route : S → S * Completion (Reply A))
    : S → S * Reply A :=
  λ s, match route s with
       | (s', Return res) => (s', res)
       | (s', Throw e) => (s', reply_send 500 (message_of e))
       end.

End TypedRoutes.

(** ** routes.ts: the listings *)

(** [GET /api/tasks]; [my] is the query parameter of that name. *)
Definition get_tasks (session : option Z) (my : option string)
    : Db → Db * Reply (list TaskWithUsers.t) :=
  requireAuth_in id session (λ user, try_catch_in (
    if decide (my = Some "my")
    then
      (* Get only tasks assigned to the current user *)
      await tasks ← getTasksByUser (User.id user);
      ret (reply_json 200 tasks)
    else if User.isAdmin user
    then
      (* Admin sees all tasks *)
      await tasks ← getAllTasks;
      ret (reply_json 200 tasks)
    else
      (* Regular users see their assigned tasks *)
      await tasks ← getTasksByUser (User.id user);
      ret (reply_json 200 tasks))).

(** [GET /api/attendance]. *)
Definition get_attendance (session : option Z)
    : Db → Db * Reply (list AttendanceWithUser.t) :=
  requireAuth_in id session (λ user, try_catch_in (
    if User.isAdmin user
    then
      await records ← getAllAttendance;
      ret (reply_json 200 records)
    else
      await records ← getUserAttendance (User.id user);
      ret (reply_json 200 records))).

(** ** The whole store

    The database together with the work reports, the identity sequences of
    the remaining tables and the notifications issued so far. *)

Inductive Notice : Type :=
  | TaskAssignedEmail (email username taskTitle taskDescription : string)
      (dueDate : option string)
  | ReportSubmittedEmail (adminEmail submitterName reportTitle
                          reportContent : string)
  | Broadcast_new_message (message : Message.t).

Record Store : Type := mkStore {
  database : Db;
  workReports : list WorkReport.t;
  roles_id_seq : Z;
  messages_id_seq : Z;
  tasks_id_seq : Z;
  work_reports_id_seq : Z;
  notices : list Notice
}.

Definition set_database (f : Db → Db) (s : Store) : Store :=
  mkStore (f (database s)) (workReports s) (roles_id_seq s) (messages_id_seq s)
          (tasks_id_seq s) (work_reports_id_seq s) (notices s).

Definition set_workReports (f : list WorkReport.t → list WorkReport.t)
    (s : Store) : Store :=
  mkStore (database s) (f (workReports s)) (roles_id_seq s) (messages_id_seq s)
          (tasks_id_seq s) (work_reports_id_seq s) (notices s).

Definition next_roles_id (s : Store) : Store :=
  mkStore (database s) (workReports s) (roles_id_seq s + 1) (messages_id_seq s)
          (tasks_id_seq s) (work_reports_id_seq s) (notices s).

Definition next_messages_id (s : Store) : Store :=
  mkStore (database s) (workReports s) (roles_id_seq s) (messages_id_seq s + 1)
          (tasks_id_seq s) (work_reports_id_seq s) (notices s).

Definition next_tasks_id (s : Store) : Store :=
  mkStore (database s) (workReports s) (roles_id_seq s) (messages_id_seq s)
          (tasks_id_seq s + 1) (work_reports_id_seq s) (notices s).

Definition next_work_reports_id (s : Store) : Store :=
  mkStore (database s) (workReports s) (roles_id_seq s) (messages_id_seq s)
          (tasks_id_seq s) (work_reports_id_seq s + 1) (notices s).

Definition notify (n : Notice) (s : Store) : Store :=
  mkStore (database s) (workReports s) (roles_id_seq s) (messages_id_seq s)
          (tasks_id_seq s) (work_reports_id_seq s) (notices s ++ [n]).

(** Asynchronous computations over the store; a computation over the
    database runs on the store's database. *)
Definition Async (A : Type) : Type := Store → Store * Completion A.

Definition ret_in {A} (a : A) : Async A := λ s, (s, Return a).

Definition bind_in {A B} (m : Async A) (k : A → Async B) : Async B :=
  λ s, match m s with
       | (s', Return a) => k a s'
       | (s', Throw e) => (s', Throw e)
       end.

Definition in_database {A} (m : M A) : Async A :=
  λ s, match m (database s) with
       | (db', c) => (set_database (λ _, db') s, c)
       end.

Declare Scope store_scope.
Delimit Scope store_scope with store.
Notation "'await' x ← m ; k" := (bind_in m (λ x, k))
  (at level 10, x name, m at level 100, k at level 200) : store_scope.

(** [for (const x of xs) { ... }]. *)
Fixpoint for_of {A} (xs : list A) (body : A → Async unit) : Async unit :=
  match xs with
  | [] => ret_in tt
  | x :: xs' => bind_in (body x) (λ _, for_of xs' body)
  end.

(** ** storage.ts: the inserts and the work reports *)

(** [name] is [unique]. *)
Definition createRole (role : InsertRole.t) : Async Role.t :=
  λ s,
    let newRole :=
      Role.mk (roles_id_seq s) (InsertRole.name role) (InsertRole.color role) in
    if decide (InsertRole.name role ∈ Role.name <$> roles (database s))
    then (next_roles_id s,
          Throw (unique_violation "roles_name_unique"))
    else (set_database (set_roles (λ rows, rows ++ [newRole])) (next_roles_id s),
          Return newRole).

(** [sender_id] references [users.id]; [isDeleted] defaults to [false] and
    [createdAt] to the database's [now]. *)
Definition createMessage (now : Z) (message : InsertMessage.t)
    : Async Message.t :=
  λ s,
    let newMessage :=
      Message.mk (messages_id_seq s) (InsertMessage.senderId message)
        (InsertMessage.content message) (InsertMessage.messageType message)
        (InsertMessage.mediaUrl message) false now in
    if decide (InsertMessage.senderId message ∈ User.id <$> users (database s))
    then (set_database (set_messages (λ rows, rows ++ [newMessage]))
            (next_messages_id s),
          Return newMessage)
    else (next_messages_id s,
          Throw (foreign_key_violation "messages"
                   "messages_sender_id_users_id_fk")).

Definition InsertTask_references_ok (db : Db) (task : InsertTask.t) : Prop :=
  InsertTask.createdBy task ∈ User.id <$> users db ∧
  match InsertTask.assignedTo task with
  | Some u => u ∈ User.id <$> users db
  | None => True
  end.

Global Instance InsertTask_references_ok_dec db task :
  Decision (InsertTask_references_ok db task).
Proof. unfold InsertTask_references_ok. repeat case_match; apply _. Defined.

(** [assigned_to] and [created_by] reference [users.id]; [createdAt]
    defaults to the database's [now]. An Invalid Date cannot be written as
    a timestamp: the query is not sent. *)
Definition createTask (now : Z) (task : InsertTask.t) : Async Task.t :=
  λ s,
    match InsertTask.dueDate task with
    | Some None => (s, Throw (RangeError "Invalid time value"))
    | dueDate =>
        let newTask :=
          Task.mk (tasks_id_seq s) (InsertTask.title task)
            (InsertTask.description task) (InsertTask.priority task)
            (InsertTask.status task) (InsertTask.assignedTo task)
            (InsertTask.createdBy task) (mjoin dueDate) now in
        if decide (InsertTask_references_ok (database s) task)
        then (set_database (set_tasks (λ rows, rows ++ [newTask]))
                (next_tasks_id s),
              Return newTask)
        else (next_tasks_id s,
              Throw (foreign_key_violation "tasks"
                       (tasks_foreign_key (InsertTask.assignedTo task)
                          (User.id <$> users (database s)))))
    end.

Definition WorkReport_desc_createdAt (a b : WorkReport.t) : bool :=
  (WorkReport.createdAt b <=? WorkReport.createdAt a)%Z.

Definition with_reporter (s : Store) (r : WorkReport.t) : WorkReportWithUser.t :=
  WorkReportWithUser.mk r (find_user_with_role (database s) (WorkReport.userId r)).

Definition getAllWorkReports : Async (list WorkReportWithUser.t) :=
  λ s, (s, Return (with_reporter s
                     <$> order_by WorkReport_desc_createdAt (workReports s))).

Definition getUserWorkReports (userId : Z) : Async (list WorkReportWithUser.t) :=
  λ s, (s, Return (with_reporter s
                     <$> order_by WorkReport_desc_createdAt
                           (filter (λ r, WorkReport.userId r = userId)
                              (workReports s)))).

(** [user_id] references [users.id]; [status] defaults to ["pending"] and
    [createdAt] to the database's [now]. *)
Definition createWorkReport (now : Z) (report : InsertWorkReport.t)
    : Async WorkReport.t :=
  λ s,
    let newReport :=
      WorkReport.mk (work_reports_id_seq s) (InsertWorkReport.userId report)
        (InsertWorkReport.title report) (InsertWorkReport.content report)
        "pending" now in
    if decide (InsertWorkReport.userId report ∈ User.id <$> users (database s))
    then (set_workReports (λ rows, rows ++ [newReport]) (next_work_reports_id s),
          Return newReport)
    else (next_work_reports_id s,
          Throw (foreign_key_violation "work_reports"
                   "work_reports_user_id_users_id_fk")).

Definition WorkReport_set_status (status : string) (r : WorkReport.t)
    : WorkReport.t :=
  WorkReport.mk (WorkReport.id r) (WorkReport.userId r) (WorkReport.title r)
    (WorkReport.content r) status (WorkReport.createdAt r).

(** The route passes the [status] of the request body, which may be
    absent ([None]); the query builder refuses an update without any
    defined value. *)
Definition updateWorkReportStatus (id : Z) (status : option string)
    : Async unit :=
  match status with
  | None => λ s, (s, Throw (Error "No values to set"))
  | Some status =>
      λ s, (set_workReports
              (update_where (λ r, WorkReport.id r = id)
                 (WorkReport_set_status status)) s,
            Return tt)
  end.

(** ** routes.ts: the routes over the whole store *)

(** [x || null] and [x || d] on an optional string, [x || null] on an
    optional number. *)
Definition or_null (x : option string) : option string :=
  match x with
  | Some s => if truthy s then Some s else None
  | None => None
  end.

Definition or_else (d : string) (x : option string) : string :=
  default d (or_null x).

Definition id_or_null (x : option Z) : option Z :=
  match x with
  | Some z => if decide (z = 0%Z) then None else Some z
  | None => None
  end.

(** [POST /api/roles]. *)
Definition post_roles (session : option Z) (name color : string)
    : Store → Store * Reply Role.t :=
  requireAdmin_in database session (λ _, try_catch_in (
    await role ← createRole (InsertRole.mk name color);
    ret_in (reply_json 201 role))%store).

(** [POST /api/messages]; [file] is the name under which the upload was
    stored, if there was one. *)
Definition post_messages (session : option Z) (now : Z)
    (content messageType : option string) (file : option string)
    : Store → Store * Reply Message.t :=
  requireAuth_in database session (λ user, try_catch_in (
    let senderId := User.id user in
    let mediaUrl :=
      if file is Some filename then Some ("/uploads/" +:+ filename) else None in
    await message ← createMessage now
      (InsertMessage.mk senderId (or_null content) (or_else "text" messageType)
         mediaUrl);
    (* Broadcast to all connected clients *)
    await _ ← (λ s, (notify (Broadcast_new_message message) s, Return tt));
    ret_in (reply_json 201 message))%store).

(** The body of [POST /api/tasks]. *)
Module TaskBody.
Record t : Type := mk {
  title : string;
  description : option string;
  priority : option string;
  assignedTo : option Z;
  dueDate : option string
}.
End TaskBody.

(** [POST /api/tasks]; [Date_parse] is the time value that [new Date(s)]
    has for a string, [None] for an Invalid Date. *)
Definition post_tasks (session : option Z) (Date_parse : string → option Z)
    (now : Z) (body : TaskBody.t) : Store → Store * Reply Task.t :=
  requireAdmin_in database session (λ user, try_catch_in (
    let title := TaskBody.title body in
    let description := TaskBody.description body in
    let assignedTo := id_or_null (TaskBody.assignedTo body) in
    let dueDate := TaskBody.dueDate body in
    await task ← createTask now
      (InsertTask.mk title (or_null description)
         (or_else "medium" (TaskBody.priority body)) "pending" assignedTo
         (User.id user) (Date_parse <$> or_null dueDate));
    (* Send email notification to assigned user *)
    await _ ← match assignedTo with
      | Some assignedTo =>
          await assignedUser ← in_database (getUser assignedTo);
          match assignedUser with
          | Some assignedUser =>
              if truthy (User.email assignedUser)
              then λ s,
                (notify (TaskAssignedEmail (User.email assignedUser)
                           (or_else (User.username assignedUser)
                              (Some (User.name assignedUser)))
                           title (or_else EmptyString description) dueDate) s,
                 Return tt)
              else ret_in tt
          | None => ret_in tt
          end
      | None => ret_in tt
      end;
    ret_in (reply_json 201 task))%store).

(** [GET /api/reports]. *)
Definition get_reports (session : option Z)
    : Store → Store * Reply (list WorkReportWithUser.t) :=
  requireAuth_in database session (λ user, try_catch_in (
    if User.isAdmin user
    then
      await reports ← getAllWorkReports;
      ret_in (reply_json 200 reports)
    else
      await reports ← getUserWorkReports (User.id user);
      ret_in (reply_json 200 reports))%store).

Definition is_pending (r : WorkReportWithUser.t) : Prop :=
  WorkReport.status (WorkReportWithUser.report r) = "pending".

(** [GET /api/reports/stats]: the answer is [{ pendingCount }]. *)
Definition get_reports_stats (session : option Z)
    : Store → Store * Reply nat :=
  requireAuth_in database session (λ user, try_catch_in (
    if User.isAdmin user
    then
      await reports ← getAllWorkReports;
      let pendingCount := length (filter is_pending reports) in
      ret_in (reply_json 200 pendingCount)
    else
      await reports ← getUserWorkReports (User.id user);
      let pendingCount := length (filter is_pending reports) in
      ret_in (reply_json 200 pendingCount))%store).

(** [POST /api/reports]. *)
Definition post_reports (session : option Z) (now : Z) (title content : string)
    : Store → Store * Reply WorkReport.t :=
  requireAuth_in database session (λ user, try_catch_in (
    await report ← createWorkReport now
      (InsertWorkReport.mk (User.id user) title content);
    (* Send email notification to admin *)
    await admins ← in_database getAdmins;
    let submitter := user in
    await _ ← for_of admins (λ admin,
      if truthy (User.email admin)
      then λ s,
        (notify (ReportSubmittedEmail (User.email admin)
                   (or_else (User.username submitter)
                      (Some (User.name submitter)))
                   title content) s,
         Return tt)
      else ret_in tt);
    ret_in (reply_json 201 report))%store).

(** [PATCH /api/reports/:id]; the answer is [{ success: true }]. *)
Definition patch_reports (session : option Z) (reportId : Z)
    (status : option string) : Store → Store * Reply unit :=
  requireAdmin_in database session (λ _, try_catch_in (
    await _ ← updateWorkReportStatus reportId status;
    ret_in (reply_json 200 tt))%store).

(** ** The server over the whole store *)

Inductive Call : Type :=
  | on_database (r : Request)
  | POST_roles (session : option Z) (name color : string)
  | POST_messages (session : option Z) (now : Z)
      (content messageType : option string) (file : option string)
  | POST_tasks (session : option Z) (Date_parse : string → option Z) (now : Z)
      (body : TaskBody.t)
  | POST_reports (session : option Z) (now : Z) (title content : string)
  | PATCH_reports (session : option Z) (reportId : Z) (status : option string).

Definition perform `{K : Scrypt} (c : Call) (s : Store) : Store :=
  match c with
  | on_database r => set_database (λ db, fst (handle r db)) s
  | POST_roles session name color => fst (post_roles session name color s)
  | POST_messages session now content messageType file =>
      fst (post_messages session now content messageType file s)
  | POST_tasks session Date_parse now body =>
      fst (post_tasks session Date_parse now body s)
  | POST_reports session now title content =>
      fst (post_reports session now title content s)
  | PATCH_reports session reportId status =>
      fst (patch_reports session reportId status s)
  end.

Definition run `{K : Scrypt} (cs : list Call) (s : Store) : Store :=
  foldl (λ s c, perform c s) s cs.

(** [registerRoutes] on empty tables. *)
Definition booted `{K : Scrypt} (random : Buffer) : Store :=
  mkStore (started random) [] 1 1 1 1 [].

(** ** Integrity of the store

    The identity columns and [roles.name] are keys, and every reference to
    [users.id] points at a user. *)

Definition user_ids (db : Db) : list Z := User.id <$> users db.

Record integrity (s : Store) : Prop := {
  database_keys : keys_unique (database s);
  role_ids_unique :
    ids_below Role.id (roles (database s)) (roles_id_seq s);
  role_names_unique : NoDup (Role.name <$> roles (database s));
  message_ids_unique :
    ids_below Message.id (messages (database s)) (messages_id_seq s);
  task_ids_unique :
    ids_below Task.id (tasks (database s)) (tasks_id_seq s);
  report_ids_unique :
    ids_below WorkReport.id (workReports s) (work_reports_id_seq s);
  message_senders_exist :
    Forall (λ m, Message.senderId m ∈ user_ids (database s))
      (messages (database s));
  task_users_exist :
    Forall (λ t, Task.createdBy t ∈ user_ids (database s)
                 ∧ ∀ u, Task.assignedTo t = Some u → u ∈ user_ids (database s))
      (tasks (database s));
  attendance_users_exist :
    Forall (λ a, Attendance.userId a ∈ user_ids (database s))
      (attendance (database s));
  report_users_exist :
    Forall (λ r, WorkReport.userId r ∈ user_ids (database s)) (workReports s)
}.

(** The mail that [POST /api/tasks] sends to the assignee [u]. *)
Definition TaskAssigned_mail (data : TaskBody.t) (u : User.t) : Notice :=
  TaskAssignedEmail (User.email u)
    (or_else (User.username u) (Some (User.name u)))
    (TaskBody.title data) (or_else EmptyString (TaskBody.description data))
    (TaskBody.dueDate data).

(** [{ status }], the body that the tasks page sends. *)
Definition status_only (status : string) : TaskPatch.t :=
  TaskPatch.mk None None None (Some status) None None None.

(** A store with the admin (id 1) and one approved member (id 2), and a
    task for that member. *)
Definition example_store : Store :=
  @run toyScrypt (on_database <$> example_requests) (@booted toyScrypt [x0a; x0b]).

Definition example_task_body : TaskBody.t :=
  TaskBody.mk "Inventory" (Some EmptyString) None (Some 2%Z) None.

(** The work reports that [user] may see, and how many of them are
    pending. *)
Definition may_see (user : User.t) (r : WorkReport.t) : Prop :=
  User.isAdmin user = true ∨ WorkReport.userId r = User.id user.

Global Instance may_see_dec user r : Decision (may_see user r).
Proof. unfold may_see. apply _. Defined.

Definition pending_for (user : User.t) (rows : list WorkReport.t) : nat :=
  length (filter (λ r, WorkReport.status r = "pending")
            (filter (may_see user) rows)).

(** The mail that [POST /api/reports] sends to [admin]. *)
Definition ReportSubmitted_mail (submitter : User.t) (title content : string)
    (admin : User.t) : Notice :=
  ReportSubmittedEmail (User.email admin)
    (or_else (User.username submitter) (Some (User.name submitter)))
    title content.

(** ** routes.ts: the WebSocket clients

    [clients] is a [Set<WebSocket>]: its elements in insertion order, a
    socket being named by a number. *)

Inductive ReadyState : Type := CONNECTING | OPEN | CLOSING | CLOSED.

Global Instance ReadyState_eq_dec : EqDecision ReadyState.
Proof. solve_decision. Defined.

Definition Set_add (ws : nat) (clients : list nat) : list nat :=
  if decide (ws ∈ clients) then clients else clients ++ [ws].

Definition Set_delete (ws : nat) (clients : list nat) : list nat :=
  filter (λ client, client ≠ ws) clients.

(** [broadcastMessage]: the sockets that [message], the serialised
    [{ type, data }], is sent to, in the order of the sends. *)
Definition broadcastMessage (readyState : nat → ReadyState) (message : string)
    (clients : list nat) : list (nat * string) :=
  (λ client, (client, message))
    <$> filter (λ client, readyState client = OPEN) clients.

(** The events of the WebSocket server and of its sockets. *)
Inductive SocketEvent : Type :=
  | on_connection (ws : nat)
  | on_close (ws : nat)
  | on_error (ws : nat).

Definition socket_of (e : SocketEvent) : nat :=
  match e with
  | on_connection ws | on_close ws | on_error ws => ws
  end.

Definition on_event (clients : list nat) (e : SocketEvent) : list nat :=
  match e with
  | on_connection ws => Set_add ws clients
  | on_close ws => Set_delete ws clients
  | on_error ws => Set_delete ws clients
  end.

(** * Properties *)

(** ** Hexadecimal encoding and [split] *)

Lemma hexDigit_not_dot (n : N) : hexDigit n ≠ "."%char.
Proof. unfold hexDigit. repeat case_match; discriminate. Qed.

Lemma hex_pair_decodes (b : byte) :
  hexValue (hexDigit (Byte.to_N b / 16)) = Some (Byte.to_N b / 16)%N ∧
  hexValue (hexDigit (Byte.to_N b mod 16)) = Some (Byte.to_N b mod 16)%N ∧
  Byte.of_N (16 * (Byte.to_N b / 16) + Byte.to_N b mod 16) = Some b.
Proof. destruct b; vm_compute; auto. Qed.

Lemma Buffer_from_hex_toString_hex (buf : Buffer) :
  Buffer_from_hex (toString_hex buf) = buf.
Proof.
  induction buf as [|b buf IH]; [reflexivity|].
  destruct (hex_pair_decodes b) as (Hhi & Hlo & Hb).
  cbn [toString_hex Buffer_from_hex].
  rewrite Hhi, Hlo, Hb, IH. reflexivity.
Qed.

Lemma toString_hex_inj (a b : Buffer) :
  toString_hex a = toString_hex b → a = b.
Proof.
  intros H. rewrite <- (Buffer_from_hex_toString_hex a), H.
  apply Buffer_from_hex_toString_hex.
Qed.

Lemma split_no_separator_hex (buf : Buffer) :
  split "." (toString_hex buf) = [toString_hex buf].
Proof.
  induction buf as [|b buf IH]; [reflexivity|].
  cbn [toString_hex split].
  rewrite !decide_False by apply hexDigit_not_dot.
  rewrite IH. reflexivity.
Qed.

Lemma append_String (c : ascii) (s t : string) :
  String c s +:+ t = String c (s +:+ t).
Proof. reflexivity. Qed.

Lemma split_hex_dot (buf : Buffer) (rest : string) :
  split "." (toString_hex buf +:+ String "." rest)
  = toString_hex buf :: split "." rest.
Proof.
  induction buf as [|b buf IH].
  - change (split "." (String "." rest) = EmptyString :: split "." rest).
    cbn [split]. rewrite decide_True by reflexivity. reflexivity.
  - cbn [toString_hex]. rewrite !append_String. cbn [split].
    rewrite !decide_False by apply hexDigit_not_dot.
    rewrite IH. reflexivity.
Qed.

Lemma split_nonempty (sep : ascii) (s : string) : split sep s ≠ [].
Proof.
  induction s as [|c s IH]; cbn; [discriminate|].
  case_decide; [discriminate|]. destruct (split sep s); discriminate.
Qed.

Lemma timingSafeEqual_same_length (a b : Buffer) :
  length a = length b → timingSafeEqual a b = Return (bool_decide (a = b)).
Proof. intros H. unfold timingSafeEqual. rewrite decide_True; done. Qed.

Lemma timingSafeEqual_throws (a b : Buffer) :
  length a ≠ length b →
  timingSafeEqual a b = Throw ERR_CRYPTO_TIMING_SAFE_EQUAL_LENGTH.
Proof. intros H. unfold timingSafeEqual. rewrite decide_False; done. Qed.

(** ** Running route bodies *)

Lemma eval_query {A} (f : Db → A) (db : Db) : eval (query f) db = Return (f db).
Proof. reflexivity. Qed.

Lemma bind_query {A B} (f : Db → A) (k : A → M B) (db : Db) :
  bind (query f) k db = k (f db) db.
Proof. reflexivity. Qed.

Lemma bind_modify {B} (f : Db → Db) (k : unit → M B) (db : Db) :
  bind (modify f) k db = k tt (f db).
Proof. reflexivity. Qed.

Lemma bind_ret {A B} (a : A) (k : A → M B) (db : Db) :
  bind (ret a) k db = k a db.
Proof. reflexivity. Qed.

Lemma bind_lift {A B} (c : Completion A) (k : A → M B) (db : Db) :
  bind (lift c) k db
  = match c with Return a => k a db | Throw e => (db, Throw e) end.
Proof. destruct c; reflexivity. Qed.

Lemma eval_found {A} (f : Db → option A) (db : Db) (x : A) :
  eval (query f) db = Return (Some x) → f db = Some x.
Proof. intros [= H]. exact H. Qed.

Lemma eval_missing {A} (f : Db → option A) (db : Db) :
  eval (query f) db = Return None → f db = None.
Proof. intros [= H]. exact H. Qed.

(** ** SQL updates on a table *)

Section Tables.
Context {A : Type} (P : A → Prop) `{∀ x, Decision (P x)} (set : A → A).

Lemma length_update_where (rows : list A) :
  length (update_where P set rows) = length rows.
Proof. unfold update_where. apply length_fmap. Qed.

Lemma update_where_lookup (rows : list A) (i : nat) :
  update_where P set rows !! i
  = (λ r, if decide (P r) then set r else r) <$> rows !! i.
Proof. unfold update_where. apply list_lookup_fmap. Qed.

Lemma elem_of_update_where (rows : list A) (x : A) :
  x ∈ update_where P set rows ↔
  ∃ r, r ∈ rows ∧ x = if decide (P r) then set r else r.
Proof.
  unfold update_where. rewrite list_elem_of_fmap.
  split; intros (r & ? & ?); exists r; auto.
Qed.

Lemma update_where_key {B} (key : A → B) (rows : list A) :
  (∀ r, key (set r) = key r) →
  key <$> update_where P set rows = key <$> rows.
Proof.
  intros Hkey. unfold update_where. rewrite <- list_fmap_compose.
  apply list_fmap_ext. intros _ r _. cbn. case_decide; auto.
Qed.

Lemma filter_update_where_gone (rows : list A) :
  (∀ r, ¬ P (set r)) → filter P (update_where P set rows) = [].
Proof.
  intros Hset. unfold update_where.
  induction rows as [|r rows IH]; [reflexivity|]. rewrite fmap_cons.
  rewrite filter_cons_False; [exact IH|]. case_decide; auto.
Qed.

End Tables.

(** ** [ORDER BY] *)

Section Ordering.
Context {A : Type} (le : A → A → bool).

Lemma insert_by_fmap (f : A → A) (x : A) (l : list A) :
  (∀ a b, le (f a) (f b) = le a b) →
  insert_by le (f x) (f <$> l) = f <$> insert_by le x l.
Proof.
  intros Hle. induction l as [|y l IH]; [reflexivity|].
  cbn. rewrite Hle. destruct (le x y); [reflexivity|].
  cbn. f_equal. exact IH.
Qed.

Lemma order_by_fmap (f : A → A) (l : list A) :
  (∀ a b, le (f a) (f b) = le a b) →
  order_by le (f <$> l) = f <$> order_by le l.
Proof.
  intros Hle. induction l as [|x l IH]; [reflexivity|].
  cbn. rewrite IH. by apply insert_by_fmap.
Qed.

Lemma insert_by_Permutation (x : A) (l : list A) : insert_by le x l ≡ₚ x :: l.
Proof.
  induction l as [|y l IH]; [reflexivity|].
  cbn. destruct (le x y); [reflexivity|].
  rewrite IH. apply Permutation_swap.
Qed.

Lemma order_by_Permutation (l : list A) : order_by le l ≡ₚ l.
Proof.
  induction l as [|x l IH]; [reflexivity|].
  cbn. rewrite insert_by_Permutation. by f_equiv.
Qed.

Lemma length_order_by (l : list A) : length (order_by le l) = length l.
Proof. apply Permutation_length, order_by_Permutation. Qed.

End Ordering.

(** ** Credential store *)

Section HashingProperties.
Context `{K : Scrypt}.

Lemma split_hashPassword (random : Buffer) (password : string) :
  split "." (hashPassword random password)
  = [toString_hex (scrypt password (toString_hex random) 64);
     toString_hex random].
Proof.
  unfold hashPassword. cbn zeta.
  change ("." +:+ toString_hex random) with (String "." (toString_hex random)).
  rewrite split_hex_dot, split_no_separator_hex. reflexivity.
Qed.

(** What the check computes on a value that [hashPassword] produced. *)
Lemma comparePasswords_hashPassword (random : Buffer) (password supplied : string) :
  comparePasswords supplied (hashPassword random password)
  = Return (bool_decide (scrypt password (toString_hex random) 64
                         = scrypt supplied (toString_hex random) 64)).
Proof.
  unfold comparePasswords. rewrite split_hashPassword. cbn zeta.
  rewrite Buffer_from_hex_toString_hex.
  apply timingSafeEqual_same_length. rewrite !scrypt_keylen. reflexivity.
Qed.

End HashingProperties.

(** *** A 64-byte key cannot separate all passwords *)

Global Program Instance byte_finite : Finite byte := {| enum := all_bytes |}.
Next Obligation. apply (bool_decide_unpack _). vm_compute. exact I. Qed.
Next Obligation. intros b. apply (bool_decide_unpack _). destruct b; vm_compute; exact I. Qed.

Lemma byte_card : card byte = 256.
Proof. reflexivity. Qed.

(** Among the hexadecimal passwords of 130 characters, two different ones
    derive the same key, whatever the key derivation and the salt. *)
Lemma scrypt_collision `{K : Scrypt} (salt : string) :
  ∃ password other : string,
    other ≠ password ∧ scrypt password salt 64 = scrypt other salt 64.
Proof.
  pose (f := λ x : { l : list byte | length l = 65 },
          (scrypt (toString_hex (`x)) salt 64 ↾ scrypt_keylen _ salt 64)
            : { l : list byte | length l = 64 }).
  destruct (finite_pigeonhole f) as (x1 & x2 & Hne & Heq).
  - rewrite !list_card, byte_card.
    apply Nat.pow_lt_mono_r; lia.
  - exists (toString_hex (`x1)), (toString_hex (`x2)). split.
    + intros Hhex. apply Hne. apply (sig_eq_pi _). symmetry.
      apply toString_hex_inj, Hhex.
    + apply (f_equal proj1_sig) in Heq. exact Heq.
Qed.

Section CredentialClaims.
Context `{K : Scrypt}.

(** For every password and salt, checking the original password against
    the value [hashPassword] stored for it returns [true]; checking any
    other candidate returns [false] exactly when the key derived from the
    candidate under the stored salt differs from the stored key. Whether
    the keys of two given passwords differ is a matter of [scrypt]
    alone. *)
Lemma comparePasswords_accepts_original_and_rejects_other_keys
    (random : Buffer) (password : string) :
  comparePasswords password (hashPassword random password) = Return true ∧
  ∀ other : string,
    comparePasswords other (hashPassword random password) = Return false
    ↔ scrypt other (toString_hex random) 64
      ≠ scrypt password (toString_hex random) 64.
Proof.
  split.
  - rewrite comparePasswords_hashPassword. rewrite bool_decide_true; done.
  - intros other. rewrite comparePasswords_hashPassword. split.
    + intros [= Hb] Heq. apply bool_decide_eq_false in Hb. auto.
    + intros Hne. rewrite bool_decide_false; [done|]. intros Heq. auto.
Qed.

End CredentialClaims.

(** No key derivation with a 64-byte result makes [comparePasswords]
    return [false] on every password that differs from the original: by
    counting, some two passwords of 130 characters share their key. The
    argument names no such pair. *)
Lemma no_scrypt_rejects_every_other_password :
  ¬ ∃ K : Scrypt, ∀ (random : Buffer) (password other : string),
      other ≠ password →
      comparePasswords other (hashPassword random password) = Return false.
Proof.
  intros [K Hall].
  destruct (scrypt_collision (toString_hex [])) as (password & other & Hne & Hkey).
  specialize (Hall [] password other Hne).
  rewrite comparePasswords_hashPassword in Hall.
  rewrite bool_decide_true in Hall by exact Hkey. discriminate.
Qed.

(** *** Malformed stored values *)

Section MalformedCredentials.
Context `{K : Scrypt}.

Lemma comparePasswords_no_separator (supplied stored hashed : string) :
  split "." stored = [hashed] →
  comparePasswords supplied stored = Throw ERR_INVALID_ARG_TYPE.
Proof. intros H. unfold comparePasswords. rewrite H. reflexivity. Qed.

Lemma comparePasswords_wrong_length
    (supplied stored hashed salt : string) (rest : list string) :
  split "." stored = hashed :: salt :: rest →
  length (Buffer_from_hex hashed) ≠ 64 →
  comparePasswords supplied stored = Throw ERR_CRYPTO_TIMING_SAFE_EQUAL_LENGTH.
Proof.
  intros H Hlen. unfold comparePasswords. rewrite H. cbn zeta.
  apply timingSafeEqual_throws. rewrite scrypt_keylen. exact Hlen.
Qed.

Lemma comparePasswords_malformed_throws (supplied stored : string) :
  malformed stored → ∃ e, comparePasswords supplied stored = Throw e.
Proof.
  unfold malformed.
  destruct (split "." stored) as [|hashed [|salt rest]] eqn:Hsplit.
  - intros _. exists ERR_INVALID_ARG_TYPE.
    unfold comparePasswords. rewrite Hsplit. reflexivity.
  - intros _. exists ERR_INVALID_ARG_TYPE.
    eapply comparePasswords_no_separator, Hsplit.
  - intros Hlen. exists ERR_CRYPTO_TIMING_SAFE_EQUAL_LENGTH.
    eapply comparePasswords_wrong_length; eauto.
Qed.

Lemma comparePasswords_well_formed_returns (supplied stored : string) :
  ¬ malformed stored → ∃ b, comparePasswords supplied stored = Return b.
Proof.
  unfold malformed, comparePasswords.
  destruct (split "." stored) as [|hashed [|salt rest]]; [done|done|].
  intros Hlen. apply dec_stable in Hlen. cbn zeta.
  rewrite timingSafeEqual_same_length; [eauto|].
  rewrite scrypt_keylen. exact Hlen.
Qed.

(** C2 (as amended): on a malformed stored value [comparePasswords] throws
    for every candidate password, and it throws on no other stored value;
    it returns neither [false] nor [true] there. *)
Theorem comparePasswords_throws_iff_malformed (supplied stored : string) :
  (∃ e, comparePasswords supplied stored = Throw e) ↔ malformed stored.
Proof.
  split.
  - intros [e He]. destruct (decide (malformed stored)) as [|Hwf]; [done|].
    destruct (comparePasswords_well_formed_returns supplied stored Hwf) as [b Hb].
    congruence.
  - apply comparePasswords_malformed_throws.
Qed.

(** With a user name and a password the login is what the verify callback
    decides; without one of them it is refused before the callback runs. *)
Lemma post_login_present (username password : string) (db : Db) :
  truthy username = true →
  truthy password = true →
  post_login username password db
  = match LocalStrategy username password db with
    | done_error err => (mkResponse 500 (Default_error_page err), None)
    | done_false message => (mkResponse 401 (Send message), None)
    | done_user user =>
        (mkResponse 200
           (Json_UserWithRole (with_role db <$>
              head (filter (λ u, User.id u = User.id user) (users db)))),
         Some (User.id user))
    end.
Proof. intros Hname Hpw. unfold post_login. by rewrite Hname, Hpw. Qed.

Lemma post_login_missing (username password : string) (db : Db) :
  truthy username = false ∨ truthy password = false →
  post_login username password db
  = (mkResponse 401 (Send "Missing credentials"), None).
Proof.
  intros Hmissing. unfold post_login.
  destruct Hmissing as [->| ->]; [reflexivity|].
  by destruct (truthy username).
Qed.

(** The strategy turns the exception into [done(err)]: the login answers
    500 and binds no session. *)
Lemma post_login_malformed_password (username password : string) (db : Db)
    (user : User.t) :
  truthy username = true →
  truthy password = true →
  eval (getUserByUsername username) db = Return (Some user) →
  User.isApproved user || User.isAdmin user = true →
  malformed (User.password user) →
  ∃ err, post_login username password db
         = (mkResponse 500 (Default_error_page err), None).
Proof.
  intros Hname Hpw Huser Hok Hbad.
  apply (comparePasswords_malformed_throws password) in Hbad as [err Herr].
  exists err. rewrite post_login_present by done. unfold LocalStrategy.
  unfold eval, getUserByUsername, query in Huser. cbn in Huser.
  injection Huser as Huser.
  unfold bind, getUserByUsername, query, lift. cbn. rewrite Huser.
  destruct (User.isApproved user), (User.isAdmin user); try discriminate;
    cbn; rewrite Herr; reflexivity.
Qed.

End MalformedCredentials.

(** C2 as stated fails: with no separator, with content that is not
    hexadecimal, and with a hash part of another length, the check throws
    instead of returning [false]. *)
Lemma comparePasswords_throws_on_malformed_examples :
  (∀ K : Scrypt, @comparePasswords K "secret" "deadbeef"
                 = Throw ERR_INVALID_ARG_TYPE) ∧
  (∀ K : Scrypt, @comparePasswords K "secret" "zz.00ff"
                 = Throw ERR_CRYPTO_TIMING_SAFE_EQUAL_LENGTH) ∧
  (∀ K : Scrypt, @comparePasswords K "secret" "deadbeef.00ff"
                 = Throw ERR_CRYPTO_TIMING_SAFE_EQUAL_LENGTH).
Proof.
  split; [|split]; intros K.
  - eapply comparePasswords_no_separator. reflexivity.
  - eapply comparePasswords_wrong_length; [reflexivity|]. vm_compute. lia.
  - eapply comparePasswords_wrong_length; [reflexivity|]. vm_compute. lia.
Qed.

(** ** Login *)

Section Login.
Context `{K : Scrypt}.

Lemma post_login_pending (username password : string) (db : Db) (user : User.t) :
  eval (getUserByUsername username) db = Return (Some user) →
  User.isApproved user = false →
  User.isAdmin user = false →
  post_login username password db
  = (mkResponse 401
       (Send (if truthy username && truthy password
              then "Account pending approval" else "Missing credentials")),
     None).
Proof.
  intros Huser%eval_found Happ Hadm.
  unfold post_login, LocalStrategy, getUserByUsername.
  rewrite bind_query, Huser, Happ, Hadm.
  by destruct (truthy username), (truthy password).
Qed.

Lemma post_login_session (username password : string) (db : Db)
    (res : Response) (id : Z) :
  post_login username password db = (res, Some id) →
  ∃ user,
    eval (getUserByUsername username) db = Return (Some user) ∧
    id = User.id user ∧
    (User.isApproved user = true ∨ User.isAdmin user = true) ∧
    comparePasswords password (User.password user) = Return true.
Proof.
  unfold post_login, LocalStrategy, getUserByUsername.
  destruct (negb (truthy username) || negb (truthy password));
    [discriminate|].
  rewrite bind_query, eval_query.
  destruct (head _) as [user|]; [|discriminate].
  destruct (User.isApproved user) eqn:Happ, (User.isAdmin user) eqn:Hadm;
    cbn [negb andb]; try discriminate;
    rewrite bind_lift;
    (destruct (comparePasswords password (User.password user)) as [[]|] eqn:Hcmp;
     cbn; intros [= _ <-]; exists user; auto).
Qed.

(** C6: a user that is neither approved nor admin is refused with 401 and
    no session, whatever password is supplied: with "Account pending
    approval", or with "Missing credentials" when the user name or the
    password is empty; and whenever a login binds a session, it is to a
    user that is approved or admin. *)
Theorem login_requires_approved_or_admin (username password : string) (db : Db) :
  (∀ user,
     eval (getUserByUsername username) db = Return (Some user) →
     User.isApproved user = false →
     User.isAdmin user = false →
     post_login username password db
     = (mkResponse 401
          (Send (if truthy username && truthy password
                 then "Account pending approval" else "Missing credentials")),
        None)) ∧
  (∀ res id,
     post_login username password db = (res, Some id) →
     ∃ user,
       eval (getUserByUsername username) db = Return (Some user) ∧
       id = User.id user ∧
       (User.isApproved user = true ∨ User.isAdmin user = true)).
Proof.
  split.
  - intros user. apply post_login_pending.
  - intros res id Hlogin.
    destruct (post_login_session _ _ _ _ _ Hlogin) as (user & ? & ? & ? & _).
    eauto.
Qed.

End Login.

(** ** Tasks *)

Lemma head_returning {A} (P : A → Prop) `{∀ x, Decision (P x)} (set : A → A)
    (rows : list A) :
  head (returning P set rows) = set <$> head (filter P rows).
Proof. unfold returning. by destruct (filter P rows). Qed.

Lemma patch_tasks_forbidden session taskId body db user task :
  deserializeUser session db = Some user →
  eval (getTask taskId) db = Return (Some task) →
  Task.assignedTo task ≠ Some (User.id user) →
  User.isAdmin user = false →
  patch_tasks session taskId body db = (db, mkResponse 403 (Send "Forbidden")).
Proof.
  intros Huser Htask%eval_found Hnot Hadm.
  unfold patch_tasks, requireAuth, try_catch, getTask.
  rewrite Huser, bind_query, Htask, Hadm.
  rewrite bool_decide_true by done. reflexivity.
Qed.

Lemma patch_tasks_allowed session taskId body db user task :
  deserializeUser session db = Some user →
  eval (getTask taskId) db = Return (Some task) →
  Task.assignedTo task = Some (User.id user) ∨ User.isAdmin user = true →
  TaskPatch_is_empty body = false →
  (∀ d, TaskPatch.dueDate body ≠ Some (Some d)) →
  TaskPatch_references_ok db body →
  patch_tasks session taskId body db
  = (set_tasks (update_where (λ t, Task.id t = taskId) (TaskPatch_apply body)) db,
     mkResponse 200 (Json_Task (Some (TaskPatch_apply body task)))).
Proof.
  intros Huser Htask%eval_found Hmay Hbody Hdue Hrefs.
  unfold patch_tasks, requireAuth, try_catch, getTask.
  rewrite Huser, bind_query, Htask.
  assert (bool_decide (Task.assignedTo task ≠ Some (User.id user))
          && negb (User.isAdmin user) = false) as ->.
  { destruct Hmay as [->| ->].
    - rewrite bool_decide_false; [reflexivity|]. by intros [].
    - apply andb_false_r. }
  unfold bind, updateTask. rewrite Hbody.
  destruct (TaskPatch.dueDate body) as [[d|]|] eqn:Hd; [by destruct (Hdue d)|..].
  all: rewrite decide_True by (by right).
  all: rewrite head_returning, Htask; reflexivity.
Qed.



Lemma getTask_after_update taskId body db task :
  eval (getTask taskId) db = Return (Some task) →
  eval (getTask taskId)
    (set_tasks (update_where (λ t, Task.id t = taskId) (TaskPatch_apply body)) db)
  = Return (Some (TaskPatch_apply body task)).
Proof.
  intros Htask%eval_found. unfold getTask, eval, query.
  cbn [snd tasks set_tasks]. f_equal. unfold update_where.
  induction (tasks db) as [|t l IH]; [discriminate|].
  rewrite filter_cons in Htask. rewrite fmap_cons.
  case_decide as Ht.
  - injection Htask as ->. rewrite filter_cons_True by done. reflexivity.
  - rewrite filter_cons_False by done. by apply IH.
Qed.




(** ** Attendance *)

Lemma clock_in_conflict session now now' db user existing :
  deserializeUser session db = Some user →
  eval (getTodayAttendance (User.id user) (isoDay now)) db
    = Return (Some existing) →
  post_attendance_clock_in session now now' db
  = (db, mkResponse 400 (Send "Already clocked in today")).
Proof.
  intros Huser Hex%eval_found.
  unfold post_attendance_clock_in, requireAuth, try_catch, getTodayAttendance.
  rewrite Huser, bind_query. cbn zeta. rewrite Hex. reflexivity.
Qed.

Lemma clock_out_without_clock_in session now now' db user :
  deserializeUser session db = Some user →
  eval (getTodayAttendance (User.id user) (isoDay now)) db = Return None →
  post_attendance_clock_out session now now' db
  = (db, mkResponse 400 (Send "Not clocked in today")).
Proof.
  intros Huser Hex%eval_missing.
  unfold post_attendance_clock_out, requireAuth, try_catch, getTodayAttendance.
  rewrite Huser, bind_query. cbn zeta. rewrite Hex. reflexivity.
Qed.

Lemma clock_out_twice session now now' db user existing :
  deserializeUser session db = Some user →
  eval (getTodayAttendance (User.id user) (isoDay now)) db
    = Return (Some existing) →
  is_Some (Attendance.clockOut existing) →
  post_attendance_clock_out session now now' db
  = (db, mkResponse 400 (Send "Already clocked out today")).
Proof.
  intros Huser Hex%eval_found [t Ht].
  unfold post_attendance_clock_out, requireAuth, try_catch, getTodayAttendance.
  rewrite Huser, bind_query. cbn zeta. rewrite Hex, Ht. reflexivity.
Qed.

(** C4: for the authenticated user and today's date, a clock-in with a
    record already there answers 400 and creates nothing; a clock-out with
    no record answers 400; a clock-out on a record that already has a
    clock-out time answers 400 and leaves it as it is. *)
Theorem attendance_transition_guards session now now' db user :
  deserializeUser session db = Some user →
  (∀ existing,
     eval (getTodayAttendance (User.id user) (isoDay now)) db
       = Return (Some existing) →
     post_attendance_clock_in session now now' db
     = (db, mkResponse 400 (Send "Already clocked in today"))) ∧
  (eval (getTodayAttendance (User.id user) (isoDay now)) db = Return None →
   post_attendance_clock_out session now now' db
   = (db, mkResponse 400 (Send "Not clocked in today"))) ∧
  (∀ existing,
     eval (getTodayAttendance (User.id user) (isoDay now)) db
       = Return (Some existing) →
     is_Some (Attendance.clockOut existing) →
     post_attendance_clock_out session now now' db
     = (db, mkResponse 400 (Send "Already clocked out today"))).
Proof.
  intros Huser. split; [|split].
  - intros existing. by apply clock_in_conflict.
  - by apply clock_out_without_clock_in.
  - intros existing. by apply clock_out_twice.
Qed.

Lemma deserializeUser_elem_of session db user :
  deserializeUser session db = Some user → user ∈ users db.
Proof.
  unfold deserializeUser. destruct session as [id|]; [|done]. cbn.
  intros H%head_Some_elem_of. by apply list_elem_of_filter in H as [_ ?].
Qed.

(** The two transitions that the guards leave open. *)
Lemma clock_in_from_absent session now now' db user :
  deserializeUser session db = Some user →
  eval (getTodayAttendance (User.id user) (isoDay now)) db = Return None →
  let record :=
    Attendance.mk (attendance_id_seq db) (User.id user) (getTime now') None
      (isoDay now) in
  let db' := fst (post_attendance_clock_in session now now' db) in
  post_attendance_clock_in session now now' db
  = (db', mkResponse 201 (Json_Attendance (Some record))) ∧
  attendance db' = attendance db ++ [record] ∧
  eval (getTodayAttendance (User.id user) (isoDay now)) db'
  = Return (Some record).
Proof.
  intros Huser Hex%eval_missing record db'. subst db'.
  pose proof (deserializeUser_elem_of _ _ _ Huser) as Hin.
  unfold post_attendance_clock_in, requireAuth, try_catch, getTodayAttendance.
  rewrite Huser, bind_query. cbn zeta. rewrite Hex.
  unfold bind, createAttendance. cbn [InsertAttendance.userId].
  rewrite decide_True by (apply list_elem_of_fmap; eauto).
  cbn. split; [reflexivity|]. split; [reflexivity|].
  unfold eval, query. cbn [snd fst attendance set_attendance next_attendance_id].
  apply head_None in Hex. rewrite filter_app, Hex.
  rewrite filter_cons_True by done. reflexivity.
Qed.

Lemma clock_out_from_clocked_in session now now' db user existing :
  deserializeUser session db = Some user →
  eval (getTodayAttendance (User.id user) (isoDay now)) db
    = Return (Some existing) →
  Attendance.clockOut existing = None →
  let db' := fst (post_attendance_clock_out session now now' db) in
  status (snd (post_attendance_clock_out session now now' db)) = 200%Z ∧
  eval (getTodayAttendance (User.id user) (isoDay now)) db'
  = Return (Some (Attendance_set_clockOut (Some (getTime now')) existing)).
Proof.
  intros Huser Hex%eval_found Hout db'. subst db'.
  unfold post_attendance_clock_out, requireAuth, try_catch, getTodayAttendance.
  rewrite Huser, bind_query. cbn zeta. rewrite Hex, Hout.
  unfold bind, updateAttendance, ret. cbn [fst snd status].
  split; [reflexivity|].
  unfold eval, query. cbn [snd fst attendance set_attendance].
  f_equal. unfold update_where.
  induction (attendance db) as [|a l IH]; [discriminate|].
  rewrite filter_cons in Hex. rewrite fmap_cons.
  destruct (decide (Attendance.userId a = User.id user ∧ Attendance.date a = isoDay now)) as [Ha|Ha].
  - injection Hex as ->. rewrite decide_True by done.
    rewrite filter_cons_True by done. reflexivity.
  - rewrite filter_cons_False; [by apply IH|].
    case_decide; [|done]. destruct a; cbn in *. done.
Qed.

(** ** Access requests *)

Lemma head_filter_missing {A} (P : A → Prop) `{∀ x, Decision (P x)} (l : list A) :
  head (filter P l) = None ↔ ∀ x, x ∈ l → ¬ P x.
Proof.
  rewrite head_None. split.
  - intros Hnil x Hx HP.
    assert (x ∈ filter P l) as Hin by (apply list_elem_of_filter; auto).
    rewrite Hnil in Hin. by apply elem_of_nil in Hin.
  - intros Hall. induction l as [|y l IH]; [reflexivity|].
    rewrite filter_cons_False by (apply Hall; left).
    apply IH. intros x Hx. apply Hall. by right.
Qed.

Lemma head_filter_found {A} (P : A → Prop) `{∀ x, Decision (P x)} (l : list A)
    (x : A) :
  head (filter P l) = Some x → x ∈ l ∧ P x.
Proof.
  intros Hx%head_Some_elem_of. by apply list_elem_of_filter in Hx as [? ?].
Qed.

Lemma not_elem_of_key {A B} (key : A → B) `{EqDecision B} (l : list A) (k : B) :
  head (filter (λ x, key x = k) l) = None ↔ k ∉ key <$> l.
Proof.
  rewrite head_filter_missing, list_elem_of_fmap. split.
  - intros Hall (x & -> & Hx). by apply (Hall x).
  - intros Hno x Hx Hk. apply Hno. eauto.
Qed.

Section AccessRequests.
Context `{K : Scrypt}.

Lemma post_access_requests_username_taken random now body db user :
  eval (getUserByUsername (InsertAccessRequest.username body)) db
    = Return (Some user) →
  post_access_requests random now body db
  = (db, mkResponse 400 (Send "Username already taken")).
Proof.
  intros Huser%eval_found.
  unfold post_access_requests, try_catch, getUserByUsername. cbn zeta.
  rewrite bind_query, Huser. reflexivity.
Qed.

Lemma post_access_requests_already_submitted random now body db request :
  eval (getUserByUsername (InsertAccessRequest.username body)) db = Return None →
  eval (getAccessRequestByUsername (InsertAccessRequest.username body)) db
    = Return (Some request) →
  post_access_requests random now body db
  = (db, mkResponse 400 (Send "Access request already submitted")).
Proof.
  intros Huser%eval_missing Hreq%eval_found.
  unfold post_access_requests, try_catch, getUserByUsername,
    getAccessRequestByUsername. cbn zeta.
  rewrite bind_query, Huser, bind_query, Hreq. reflexivity.
Qed.

Lemma post_access_requests_created random now body db :
  eval (getUserByUsername (InsertAccessRequest.username body)) db = Return None →
  eval (getAccessRequestByUsername (InsertAccessRequest.username body)) db
    = Return None →
  let request :=
    AccessRequest.mk (access_requests_id_seq db)
      (InsertAccessRequest.username body) (InsertAccessRequest.email body)
      (hashPassword random (InsertAccessRequest.password body))
      (InsertAccessRequest.name body) "pending" now in
  post_access_requests random now body db
  = (set_accessRequests (λ rows, rows ++ [request]) (next_access_requests_id db),
     mkResponse 201 (Json_AccessRequest request)).
Proof.
  intros Huser%eval_missing Hreq%eval_missing request.
  unfold post_access_requests, try_catch, getUserByUsername,
    getAccessRequestByUsername. cbn zeta.
  rewrite bind_query, Huser, bind_query, Hreq.
  unfold bind, createAccessRequest. cbn [InsertAccessRequest.username].
  rewrite decide_False; [reflexivity|].
  by apply (not_elem_of_key AccessRequest.username).
Qed.

(** C9 (as amended): creating an access request answers 400 when the
    username belongs to an existing user, 400 when an access request with
    that username exists, whatever its status, and otherwise 201 with the
    request record that was persisted (status pending). *)
Theorem post_access_requests_outcomes random now body db :
  let username := InsertAccessRequest.username body in
  let request :=
    AccessRequest.mk (access_requests_id_seq db) username
      (InsertAccessRequest.email body)
      (hashPassword random (InsertAccessRequest.password body))
      (InsertAccessRequest.name body) "pending" now in
  let db' := fst (post_access_requests random now body db) in
  let res := snd (post_access_requests random now body db) in
  (username ∈ User.username <$> users db →
   res = mkResponse 400 (Send "Username already taken") ∧ db' = db) ∧
  (username ∉ User.username <$> users db →
   username ∈ AccessRequest.username <$> accessRequests db →
   res = mkResponse 400 (Send "Access request already submitted") ∧ db' = db) ∧
  (username ∉ User.username <$> users db →
   username ∉ AccessRequest.username <$> accessRequests db →
   res = mkResponse 201 (Json_AccessRequest request) ∧
   accessRequests db' = accessRequests db ++ [request] ∧
   eval (getAccessRequestByUsername username) db' = Return (Some request)).
Proof.
  intros username request db' res. subst db' res.
  split; [|split].
  - intros Hin.
    destruct (head (filter (λ u, User.username u = username) (users db)))
      as [user|] eqn:Huser.
    + erewrite post_access_requests_username_taken; [done|].
      unfold getUserByUsername. rewrite eval_query. by f_equal.
    + by apply (not_elem_of_key User.username) in Huser.
  - intros Hfree%(not_elem_of_key User.username) Hin.
    destruct (head (filter (λ r, AccessRequest.username r = username)
                      (accessRequests db))) as [r|] eqn:Hreq.
    + erewrite post_access_requests_already_submitted; [done| |].
      * unfold getUserByUsername. rewrite eval_query. by f_equal.
      * unfold getAccessRequestByUsername. rewrite eval_query. by f_equal.
    + by apply (not_elem_of_key AccessRequest.username) in Hreq.
  - intros Hfree%(not_elem_of_key User.username)
           Hnone%(not_elem_of_key AccessRequest.username).
    rewrite post_access_requests_created.
    2:{ unfold getUserByUsername. rewrite eval_query. by f_equal. }
    2:{ unfold getAccessRequestByUsername. rewrite eval_query. by f_equal. }
    cbn [fst snd accessRequests set_accessRequests next_access_requests_id].
    split; [reflexivity|]. split; [reflexivity|].
    unfold getAccessRequestByUsername, eval, query.
    cbn [snd accessRequests set_accessRequests next_access_requests_id].
    apply head_None in Hnone. rewrite filter_app, Hnone.
    rewrite filter_cons_True by done. reflexivity.
Qed.

End AccessRequests.

(** C9 as stated fails: with no user and no pending request named "bob",
    a rejected request of that name still makes the route answer 400. *)
Lemma rejected_request_blocks_username :
  ("bob" ∉ (User.username <$> users example_db_rejected)) ∧
  filter (λ r, AccessRequest.username r = "bob" ∧ AccessRequest.status r = "pending")
    (accessRequests example_db_rejected) = [] ∧
  ∀ (K : Scrypt) random now email name password,
    post_access_requests random now
      (InsertAccessRequest.mk "bob" email name password) example_db_rejected
    = (example_db_rejected,
       mkResponse 400 (Send "Access request already submitted")).
Proof.
  split; [|split].
  - apply (bool_decide_unpack _). vm_compute. exact I.
  - reflexivity.
  - intros. reflexivity.
Qed.

(** ** Reachable states *)

Lemma NoDup_fmap_elem_inj {A B} (f : A → B) (l : list A) (x y : A) :
  NoDup (f <$> l) → x ∈ l → y ∈ l → f x = f y → x = y.
Proof.
  induction l as [|a l IH]; [by intros _ ?%elem_of_nil|].
  rewrite fmap_cons, NoDup_cons. intros [Ha Hl].
  rewrite !elem_of_cons. intros [->|Hx] [->|Hy] Hf; auto.
  - exfalso. apply Ha. rewrite Hf. apply list_elem_of_fmap. eauto.
  - exfalso. apply Ha. rewrite <- Hf. apply list_elem_of_fmap. eauto.
Qed.

Ltac run_route :=
  unfold requireAuth, requireAdmin, try_catch, bind, ret, throw, query,
    modify, lift;
  repeat case_match; simplify_eq/=; try (split; reflexivity).

Section Reachable.
Context `{K : Scrypt}.

Lemma usernames_update_where (P : User.t → Prop) `{∀ u, Decision (P u)}
    (set : User.t → User.t) (db : Db) :
  (∀ u, User.username (set u) = User.username u) →
  usernames (set_users (update_where P set) db) = usernames db.
Proof. intros Hset. unfold usernames. cbn. by apply update_where_key. Qed.

Lemma patch_users_role_same_accounts session userId roleId db :
  same_accounts db (fst (patch_users_role session userId roleId db)).
Proof.
  unfold patch_users_role, assignRoleToUser. run_route.
  split; [|reflexivity]. by apply usernames_update_where.
Qed.

Lemma delete_roles_same_accounts session roleId db :
  same_accounts db (fst (delete_roles session roleId db)).
Proof.
  unfold delete_roles, deleteRole. run_route.
  split; [|reflexivity]. by apply (usernames_update_where _ _ db).
Qed.

Lemma patch_user_profile_same_accounts session name email file db :
  same_accounts db (fst (patch_user_profile session name email file db)).
Proof.
  unfold patch_user_profile, updateUser, getUserWithRole. run_route.
  all: split; [|reflexivity]; by apply usernames_update_where.
Qed.

Lemma post_user_change_password_same_accounts session random old new db :
  same_accounts db (fst (post_user_change_password session random old new db)).
Proof.
  unfold post_user_change_password, updateUser, getUser. run_route.
  all: split; [|reflexivity]; by apply usernames_update_where.
Qed.

Lemma delete_messages_same_accounts session messageId db :
  same_accounts db (fst (delete_messages session messageId db)).
Proof. unfold delete_messages, deleteMessage, getMessage. run_route. Qed.

Lemma patch_tasks_same_accounts session taskId body db :
  same_accounts db (fst (patch_tasks session taskId body db)).
Proof. unfold patch_tasks, updateTask, getTask. run_route. Qed.

Lemma post_attendance_clock_in_same_accounts session now now' db :
  same_accounts db (fst (post_attendance_clock_in session now now' db)).
Proof.
  unfold post_attendance_clock_in, createAttendance, getTodayAttendance.
  run_route.
Qed.

Lemma post_attendance_clock_out_same_accounts session now now' db :
  same_accounts db (fst (post_attendance_clock_out session now now' db)).
Proof.
  unfold post_attendance_clock_out, updateAttendance, getTodayAttendance.
  run_route.
Qed.

Lemma account_invariant_same_accounts db db' :
  same_accounts db db' → account_invariant db → account_invariant db'.
Proof.
  intros [Hnames Hreqs] [Hnd Hfree Hadm].
  split; rewrite ?Hnames, ?Hreqs; auto.
Qed.

Lemma initializeAdmin_emptyDb random :
  account_invariant (exec (initializeAdmin random) emptyDb).
Proof.
  split.
  - apply NoDup_nil_2.
  - intros r Hr. by apply elem_of_nil in Hr.
  - unfold usernames. cbn. left.
Qed.

Lemma initializeAdmin_again random db :
  account_invariant db → exec (initializeAdmin random) db = db.
Proof.
  intros [_ _ Hadm]. unfold initializeAdmin, exec, getUserByUsername.
  rewrite bind_query.
  destruct (head _) as [admin|] eqn:Hhead; [reflexivity|].
  by apply (not_elem_of_key User.username) in Hhead.
Qed.

Lemma post_access_requests_invariant random now body db :
  account_invariant db →
  account_invariant (fst (post_access_requests random now body db)).
Proof.
  intros Hinv.
  destruct (head (filter (λ u, User.username u = InsertAccessRequest.username body)
                    (users db))) as [user|] eqn:Huser.
  { erewrite post_access_requests_username_taken; [exact Hinv|].
    unfold getUserByUsername. rewrite eval_query. by f_equal. }
  destruct (head (filter (λ r, AccessRequest.username r
                               = InsertAccessRequest.username body)
                    (accessRequests db))) as [request|] eqn:Hreq.
  { erewrite post_access_requests_already_submitted; [exact Hinv| |].
    - unfold getUserByUsername. rewrite eval_query. by f_equal.
    - unfold getAccessRequestByUsername. rewrite eval_query. by f_equal. }
  rewrite post_access_requests_created.
  2:{ unfold getUserByUsername. rewrite eval_query. by f_equal. }
  2:{ unfold getAccessRequestByUsername. rewrite eval_query. by f_equal. }
  apply (not_elem_of_key User.username) in Huser as Hfree.
  apply (not_elem_of_key AccessRequest.username) in Hreq as Hnone.
  destruct Hinv as [Hnd Hpending Hadm]. split.
  - cbn. rewrite fmap_app. apply NoDup_app. split; [exact Hnd|].
    split; [|apply NoDup_singleton].
    intros name Hname [->|[]%elem_of_nil]%elem_of_cons. by apply Hnone.
  - cbn. intros r [Hr|[->|[]%elem_of_nil]%elem_of_cons]%elem_of_app Hst.
    + by apply Hpending.
    + exact Hfree.
  - exact Hadm.
Qed.

Lemma post_access_requests_reject_invariant session requestId db :
  account_invariant db →
  account_invariant (fst (post_access_requests_reject session requestId db)).
Proof.
  intros [Hnd Hpending Hadm].
  assert (account_invariant
            (set_accessRequests
               (update_where (λ r, AccessRequest.id r = requestId)
                  (AccessRequest_set_status "rejected")) db)) as Hrejected.
  { split; [| |exact Hadm].
    - cbn. by rewrite update_where_key.
    - cbn. intros r (r0 & Hr0 & ->)%elem_of_update_where.
      case_decide; [discriminate|]. by apply Hpending. }
  unfold post_access_requests_reject, updateAccessRequestStatus,
    getAccessRequest. run_route; try (by split).
  - destruct Hrejected as [? ? ?]. by split.
  - exact Hrejected.
Qed.

Lemma approve_not_admin session requestId db :
  (∀ user, deserializeUser session db = Some user → User.isAdmin user = false) →
  post_access_requests_approve session requestId db
  = (db, mkResponse 403 (Send "Forbidden")).
Proof.
  intros Hno. unfold post_access_requests_approve, requireAdmin.
  destruct (deserializeUser session db) as [user|]; [|reflexivity].
  by rewrite (Hno user).
Qed.

Lemma approve_not_pending session requestId db admin request :
  deserializeUser session db = Some admin →
  User.isAdmin admin = true →
  eval (getAccessRequest requestId) db = Return (Some request) →
  AccessRequest.status request ≠ "pending" →
  post_access_requests_approve session requestId db
  = (db, mkResponse 400 (Send "Request already processed")).
Proof.
  intros Hsession Hadmin Hreq%eval_found Hstatus.
  unfold post_access_requests_approve, requireAdmin, try_catch, getAccessRequest.
  rewrite Hsession, Hadmin, bind_query, Hreq.
  rewrite decide_True by done. reflexivity.
Qed.

Lemma approve_pending session requestId db admin request :
  deserializeUser session db = Some admin →
  User.isAdmin admin = true →
  eval (getAccessRequest requestId) db = Return (Some request) →
  AccessRequest.status request = "pending" →
  AccessRequest.username request ∉ usernames db →
  post_access_requests_approve session requestId db
  = (approved requestId request db, mkResponse 200 Json_success).
Proof.
  intros Hsession Hadmin Hreq%eval_found Hstatus Hfree.
  unfold post_access_requests_approve, requireAdmin, try_catch, getAccessRequest.
  rewrite Hsession, Hadmin, bind_query, Hreq.
  rewrite decide_False by (by intros []).
  unfold bind at 1. unfold createUser. cbn [InsertUser.username].
  rewrite decide_False by exact Hfree.
  unfold updateAccessRequestStatus. rewrite bind_modify.
  unfold approved. cbn zeta.
  destruct (truthy (AccessRequest.email request)); reflexivity.
Qed.

Lemma approve_name_taken session requestId db admin request :
  deserializeUser session db = Some admin →
  User.isAdmin admin = true →
  eval (getAccessRequest requestId) db = Return (Some request) →
  AccessRequest.status request = "pending" →
  AccessRequest.username request ∈ usernames db →
  fst (post_access_requests_approve session requestId db) = next_users_id db.
Proof.
  intros Hsession Hadmin Hreq%eval_found Hstatus Htaken.
  unfold post_access_requests_approve, requireAdmin, try_catch, getAccessRequest.
  rewrite Hsession, Hadmin, bind_query, Hreq.
  rewrite decide_False by (by intros []).
  unfold bind at 1. unfold createUser. cbn [InsertUser.username].
  rewrite decide_True by exact Htaken. reflexivity.
Qed.

Lemma approved_accounts requestId request db :
  usernames (approved requestId request db)
  = usernames db ++ [AccessRequest.username request] ∧
  accessRequests (approved requestId request db)
  = update_where (λ r, AccessRequest.id r = requestId)
      (AccessRequest_set_status "approved") (accessRequests db) ∧
  users (approved requestId request db)
  = users db ++ [User.mk (users_id_seq db) (AccessRequest.username request)
                   (AccessRequest.password request) (AccessRequest.email request)
                   (AccessRequest.name request) None false None true].
Proof.
  unfold approved, usernames. cbn zeta.
  destruct (truthy _); cbn; rewrite fmap_app; done.
Qed.

Lemma approved_invariant requestId request db :
  account_invariant db →
  head (filter (λ r, AccessRequest.id r = requestId) (accessRequests db))
    = Some request →
  account_invariant (approved requestId request db).
Proof.
  intros [Hnd Hpending Hadm] [Hin Hid]%head_filter_found.
  destruct (approved_accounts requestId request db) as (Hnames & Hreqs & _).
  split; rewrite ?Hnames, ?Hreqs.
  - by rewrite update_where_key.
  - intros r (r0 & Hr0 & ->)%elem_of_update_where.
    case_decide as Hr0id; [discriminate|]. intros Hst.
    rewrite elem_of_app, list_elem_of_singleton. intros [Hold|Hsame].
    + by apply (Hpending r0).
    + apply Hr0id.
      cut (r0 = request); [by intros ->|].
      by apply (NoDup_fmap_elem_inj AccessRequest.username (accessRequests db)).
  - apply elem_of_app. by left.
Qed.

Lemma post_access_requests_approve_invariant session requestId db :
  account_invariant db →
  account_invariant (fst (post_access_requests_approve session requestId db)).
Proof.
  intros Hinv.
  destruct (deserializeUser session db) as [user|] eqn:Hsession.
  2:{ rewrite approve_not_admin; [exact Hinv|]. intros ?; congruence. }
  destruct (User.isAdmin user) eqn:Hadmin.
  2:{ rewrite approve_not_admin; [exact Hinv|]. intros ?; congruence. }
  destruct (head (filter (λ r, AccessRequest.id r = requestId) (accessRequests db)))
    as [request|] eqn:Hreq.
  2:{ unfold post_access_requests_approve, requireAdmin, try_catch,
        getAccessRequest.
      by rewrite Hsession, Hadmin, bind_query, Hreq. }
  assert (eval (getAccessRequest requestId) db = Return (Some request)) as Heval.
  { unfold getAccessRequest. rewrite eval_query. by f_equal. }
  destruct (decide (AccessRequest.status request = "pending")) as [Hst|Hst].
  2:{ by erewrite approve_not_pending. }
  destruct (decide (AccessRequest.username request ∈ usernames db)) as [Hin|Hfree].
  - erewrite approve_name_taken by eauto.
    eapply account_invariant_same_accounts; [|exact Hinv]. by split.
  - erewrite approve_pending by eauto. by apply approved_invariant.
Qed.

Lemma handle_invariant r db :
  account_invariant db → account_invariant (fst (handle r db)).
Proof.
  intros Hinv. destruct r; cbn [handle].
  - by apply post_access_requests_invariant.
  - by apply post_access_requests_approve_invariant.
  - by apply post_access_requests_reject_invariant.
  - eapply account_invariant_same_accounts;
      [apply patch_users_role_same_accounts|exact Hinv].
  - eapply account_invariant_same_accounts;
      [apply patch_user_profile_same_accounts|exact Hinv].
  - eapply account_invariant_same_accounts;
      [apply post_user_change_password_same_accounts|exact Hinv].
  - eapply account_invariant_same_accounts;
      [apply delete_roles_same_accounts|exact Hinv].
  - eapply account_invariant_same_accounts;
      [apply delete_messages_same_accounts|exact Hinv].
  - eapply account_invariant_same_accounts;
      [apply patch_tasks_same_accounts|exact Hinv].
  - eapply account_invariant_same_accounts;
      [apply post_attendance_clock_in_same_accounts|exact Hinv].
  - eapply account_invariant_same_accounts;
      [apply post_attendance_clock_out_same_accounts|exact Hinv].
Qed.

Lemma reachable_account_invariant db : reachable db → account_invariant db.
Proof.
  induction 1 as [random|db random _ IH|db r _ IH|db db' _ IH Husers Hreqs].
  - apply initializeAdmin_emptyDb.
  - by rewrite initializeAdmin_again.
  - by apply handle_invariant.
  - eapply account_invariant_same_accounts; [|exact IH].
    split; [unfold usernames; by rewrite Husers|exact Hreqs].
Qed.

Lemma head_filter_update_where {A} (P : A → Prop) `{∀ x, Decision (P x)}
    (set : A → A) (rows : list A) :
  (∀ r, P r → P (set r)) →
  head (filter P (update_where P set rows)) = set <$> head (filter P rows).
Proof.
  intros Hset. unfold update_where.
  induction rows as [|r rows IH]; [reflexivity|].
  rewrite fmap_cons, (filter_cons _ r). case_decide as Hr.
  - rewrite filter_cons_True by auto. reflexivity.
  - rewrite filter_cons_False by done. exact IH.
Qed.

Lemma admin_session_true session db :
  admin_session session db = true →
  ∃ admin, deserializeUser session db = Some admin ∧ User.isAdmin admin = true.
Proof.
  unfold admin_session. destruct (deserializeUser session db); [eauto|done].
Qed.

Lemma admin_session_approved session requestId request db :
  admin_session session db = true →
  admin_session session (approved requestId request db) = true.
Proof.
  unfold admin_session, deserializeUser.
  destruct (approved_accounts requestId request db) as (_ & _ & ->).
  destruct session as [id|]; [|done]. cbn.
  rewrite filter_app. by destruct (filter _ (users db)).
Qed.

(** C5: in every state the server can reach, approving a request that is
    not pending is refused (400 for an admin, 403 for anyone else) and
    writes nothing; an admin's approval of a pending request answers 200,
    appends a user that is approved and not admin and carries the
    request's name, password, e-mail and display name, and leaves the
    request approved, so that approving it a second time is refused with
    400 and writes nothing. *)
Theorem approve_once_then_rejected session requestId db request :
  reachable db →
  eval (getAccessRequest requestId) db = Return (Some request) →
  (* not pending: an error, and nothing is written *)
  (AccessRequest.status request ≠ "pending" →
   post_access_requests_approve session requestId db
   = (db, if admin_session session db
          then mkResponse 400 (Send "Request already processed")
          else mkResponse 403 (Send "Forbidden"))) ∧
  (* pending, approved by an admin *)
  (AccessRequest.status request = "pending" →
   admin_session session db = true →
   let newUser :=
     User.mk (users_id_seq db) (AccessRequest.username request)
       (AccessRequest.password request) (AccessRequest.email request)
       (AccessRequest.name request) None false None true in
   let db' := fst (post_access_requests_approve session requestId db) in
   snd (post_access_requests_approve session requestId db)
   = mkResponse 200 Json_success ∧
   users db' = users db ++ [newUser] ∧
   eval (getAccessRequest requestId) db'
   = Return (Some (AccessRequest_set_status "approved" request)) ∧
   (* the second approval *)
   post_access_requests_approve session requestId db'
   = (db', mkResponse 400 (Send "Request already processed"))).
Proof.
  intros Hreach Hreq. split.
  - intros Hst. unfold admin_session.
    destruct (deserializeUser session db) as [user|] eqn:Hsession.
    + destruct (User.isAdmin user) eqn:Hadmin.
      * by eapply approve_not_pending.
      * apply approve_not_admin. intros ?; congruence.
    + apply approve_not_admin. intros ?; congruence.
  - intros Hst Hadmin newUser db'. subst db' newUser.
    destruct (admin_session_true _ _ Hadmin) as (admin & Hsession & Hisadmin).
    pose proof (reachable_account_invariant db Hreach) as Hinv.
    assert (AccessRequest.username request ∉ usernames db) as Hfree.
    { apply (pending_names_free db Hinv); [|exact Hst].
      by apply eval_found, head_filter_found in Hreq as [? _]. }
    rewrite (approve_pending _ _ _ _ _ Hsession Hisadmin Hreq Hst Hfree).
    cbn [fst snd].
    destruct (approved_accounts requestId request db) as (_ & Hreqs & Husers).
    assert (eval (getAccessRequest requestId) (approved requestId request db)
            = Return (Some (AccessRequest_set_status "approved" request)))
      as Hreq'.
    { unfold getAccessRequest. rewrite eval_query, Hreqs. f_equal.
      rewrite head_filter_update_where by done.
      apply eval_found in Hreq. by rewrite Hreq. }
    split; [reflexivity|]. split; [exact Husers|]. split; [exact Hreq'|].
    destruct (admin_session_true _ _ (admin_session_approved _ requestId request _ Hadmin))
      as (admin' & Hsession' & Hisadmin').
    by eapply approve_not_pending.
Qed.

End Reachable.

Lemma approve_once_then_rejected_witness :
  status (snd (post_access_requests_approve (Some 1%Z) 1 example_db_pending))
  = 200%Z ∧
  (User.username <$>
     users (fst (post_access_requests_approve (Some 1%Z) 1 example_db_pending)))
  = ["grovefanreal"; "u2"].
Proof.
  assert (@reachable toyScrypt example_db_pending) as Hreach.
  { apply reachable_handle, reachable_start. }
  destruct (head (filter (λ r, AccessRequest.id r = 1%Z)
                    (accessRequests example_db_pending)))
    as [request|] eqn:Hrequest; [|vm_compute in Hrequest; discriminate].
  destruct (approve_once_then_rejected (Some 1%Z) 1 example_db_pending request
              Hreach) as [_ Hpending].
  - unfold getAccessRequest. rewrite eval_query. by f_equal.
  - destruct Hpending as (Hstatus & Husers & _).
    + vm_compute in Hrequest. by injection Hrequest as <-.
    + vm_compute. reflexivity.
    + split.
      * by rewrite Hstatus.
      * rewrite Husers, fmap_app. vm_compute in Hrequest.
        injection Hrequest as <-. vm_compute. reflexivity.
Defined.

(** ** Roles *)

Lemma User_set_roleId_fields roleId u :
  User.id (User_set_roleId roleId u) = User.id u ∧
  User.username (User_set_roleId roleId u) = User.username u ∧
  User.password (User_set_roleId roleId u) = User.password u ∧
  User.email (User_set_roleId roleId u) = User.email u ∧
  User.name (User_set_roleId roleId u) = User.name u ∧
  User.avatar (User_set_roleId roleId u) = User.avatar u ∧
  User.isAdmin (User_set_roleId roleId u) = User.isAdmin u ∧
  User.isApproved (User_set_roleId roleId u) = User.isApproved u ∧
  User.roleId (User_set_roleId roleId u) = roleId.
Proof. repeat split. Qed.

(** C7: [deleteRole] first nulls the role reference of the N users that
    hold the role and then removes the role row; afterwards no user row
    references the id, the role is gone, the N holders have a null
    reference and every other user row is unchanged. *)
Theorem deleteRole_detaches_then_removes (id : Z) (db : Db) :
  let N := length (filter (holds_role id) (users db)) in
  let detached :=
    set_users (update_where (holds_role id) (User_set_roleId None)) db in
  let db' := exec (deleteRole id) db in
  eval (deleteRole id) db = Return tt ∧
  (* first the references, then the row *)
  filter (holds_role id) (users detached) = [] ∧
  roles detached = roles db ∧
  db' = set_roles (filter (λ r, Role.id r ≠ id)) detached ∧
  (* no user references the role any more *)
  filter (holds_role id) (users db') = [] ∧
  (* the role row is gone, the other roles are as before *)
  eval (getRole id) db' = Return None ∧
  roles db' = filter (λ r, Role.id r ≠ id) (roles db) ∧
  (* row by row: holders have a null reference, the others are unchanged *)
  length (users db') = length (users db) ∧
  (∀ i u, users db !! i = Some u →
     users db' !! i
     = Some (if decide (holds_role id u) then User_set_roleId None u else u)) ∧
  length (filter (λ u, User.roleId u = None) (users db'))
  = length (filter (λ u, User.roleId u = None) (users db)) + N.
Proof.
  intros N detached db'. subst db' detached.
  unfold deleteRole, exec, eval. rewrite bind_modify.
  cbn [modify fst snd users roles set_users set_roles].
  assert (filter (holds_role id)
            (update_where (holds_role id) (User_set_roleId None) (users db))
          = []) as Hgone.
  { apply filter_update_where_gone. intros u Hu. discriminate Hu. }
  split; [reflexivity|]. split; [exact Hgone|]. split; [reflexivity|].
  split; [reflexivity|]. split; [exact Hgone|]. split.
  { unfold getRole, query. cbn [snd roles set_roles set_users]. f_equal.
    apply head_None. induction (roles db) as [|r l IH]; [done|].
    rewrite filter_cons. case_decide.
    - rewrite filter_cons_False; auto.
    - exact IH. }
  split; [reflexivity|]. split; [apply length_update_where|]. split.
  { intros i u Hi. rewrite update_where_lookup, Hi. reflexivity. }
  clear Hgone. subst N. unfold update_where, holds_role.
  induction (users db) as [|u l IH]; [reflexivity|].
  rewrite fmap_cons, !filter_cons.
  destruct (decide (User.roleId u = Some id)) as [Hu|Hu].
  - rewrite decide_True by done. rewrite decide_False by congruence.
    cbn [length]. rewrite IH. lia.
  - destruct (decide (User.roleId u = None)); cbn [length]; rewrite IH; lia.
Qed.

(** [DELETE /api/roles/:id] runs [deleteRole] for an admin and for no one
    else. *)
Lemma delete_roles_by_admin session roleId db :
  admin_session session db = true →
  delete_roles session roleId db
  = (exec (deleteRole roleId) db, mkResponse 200 Json_success).
Proof.
  intros (admin & Hsession & Hadmin)%admin_session_true.
  unfold delete_roles, requireAdmin, try_catch. rewrite Hsession, Hadmin.
  reflexivity.
Qed.

Lemma delete_roles_forbidden session roleId db :
  admin_session session db = false →
  delete_roles session roleId db = (db, mkResponse 403 (Send "Forbidden")).
Proof.
  unfold admin_session, delete_roles, requireAdmin.
  destruct (deserializeUser session db) as [user|]; [|done].
  by intros ->.
Qed.

(** ** Sorting *)

Section Sorted.
Context {A : Type} (le : A → A → bool).
Hypothesis le_total : ∀ a b, le a b = true ∨ le b a = true.
Hypothesis le_trans : ∀ a b c, le a b = true → le b c = true → le a c = true.

Lemma insert_by_sorted (x : A) (l : list A) :
  StronglySorted (λ a b, le a b = true) l →
  StronglySorted (λ a b, le a b = true) (insert_by le x l).
Proof.
  induction 1 as [|y l Hl IH Hy]; cbn.
  - repeat constructor.
  - destruct (le x y) eqn:Hxy.
    + constructor; [by constructor|].
      constructor; [exact Hxy|].
      eapply Forall_impl; [exact Hy|]. intros z Hz. by eapply le_trans.
    + constructor; [exact IH|].
      rewrite insert_by_Permutation. constructor; [|exact Hy].
      destruct (le_total x y); congruence.
Qed.

Lemma order_by_sorted (l : list A) :
  StronglySorted (λ a b, le a b = true) (order_by le l).
Proof.
  induction l as [|x l IH]; cbn; [constructor|]. by apply insert_by_sorted.
Qed.

End Sorted.

Lemma StronglySorted_fmap_key {A B} (f : A → B) (R : B → B → Prop) (l : list A) :
  StronglySorted (λ a b, R (f a) (f b)) l → StronglySorted R (f <$> l).
Proof.
  induction 1 as [|x l Hl IH Hx]; cbn; constructor; [exact IH|].
  by apply Forall_fmap.
Qed.

Lemma StronglySorted_weaken {A} (R R' : A → A → Prop) (l : list A) :
  (∀ a b, R a b → R' a b) → StronglySorted R l → StronglySorted R' l.
Proof.
  intros HR. induction 1 as [|x l Hl IH Hx]; constructor; [exact IH|].
  eapply Forall_impl; [exact Hx|]. auto.
Qed.

Lemma fmap_cancel {A B} (f : A → B) (g : B → A) (l : list A) :
  (∀ x, g (f x) = x) → g <$> (f <$> l) = l.
Proof.
  intros Hgf. induction l as [|x l IH]; [reflexivity|].
  cbn. by rewrite Hgf, IH.
Qed.

(** ** Messages *)


Lemma with_sender_messages (db db' : Db) (m : Message.t) :
  users db' = users db → roles db' = roles db →
  with_sender db' m = with_sender db m.
Proof.
  intros Hu Hr. unfold with_sender, with_role. rewrite Hu, Hr. reflexivity.
Qed.


Lemma Message_asc_createdAt_sorted (rows : list Message.t) :
  StronglySorted (λ a b, (Message.createdAt a ≤ Message.createdAt b)%Z)
    (order_by Message_asc_createdAt rows).
Proof.
  eapply StronglySorted_weaken; [|apply (order_by_sorted Message_asc_createdAt)].
  - intros a b Hab. by apply Z.leb_le.
  - intros a b. unfold Message_asc_createdAt. rewrite !Z.leb_le. lia.
  - intros a b c. unfold Message_asc_createdAt. rewrite !Z.leb_le. lia.
Qed.

Section SoftDelete.
Context `{H : Scan}.



End SoftDelete.


(** [DELETE /api/messages/:id] runs [deleteMessage] for the sender and for
    an admin, and announces it. *)
Lemma delete_messages_by_owner_or_admin session messageId db user message :
  deserializeUser session db = Some user →
  eval (getMessage messageId) db = Return (Some message) →
  Message.senderId message = User.id user ∨ User.isAdmin user = true →
  delete_messages session messageId db
  = (emit (Broadcast_delete_message messageId) (exec (deleteMessage messageId) db),
     mkResponse 200 Json_success).
Proof.
  intros Hsession Hmessage%eval_found Hmay.
  unfold delete_messages, requireAuth, try_catch, getMessage.
  rewrite Hsession, bind_query, Hmessage.
  assert (bool_decide (Message.senderId message ≠ User.id user)
          && negb (User.isAdmin user) = false) as ->.
  { destruct Hmay as [->| ->].
    - by rewrite bool_decide_false by (by intros []).
    - apply andb_false_r. }
  reflexivity.
Qed.

Lemma delete_messages_forbidden session messageId db user message :
  deserializeUser session db = Some user →
  eval (getMessage messageId) db = Return (Some message) →
  Message.senderId message ≠ User.id user →
  User.isAdmin user = false →
  delete_messages session messageId db = (db, mkResponse 403 (Send "Forbidden")).
Proof.
  intros Hsession Hmessage%eval_found Hother Hadmin.
  unfold delete_messages, requireAuth, try_catch, getMessage.
  rewrite Hsession, bind_query, Hmessage, Hadmin.
  by rewrite bool_decide_true.
Qed.

(** ** The user list *)

Lemma omit_password_toObject (x : UserWithRole.t) :
  omit_password (UserWithRole_toObject x) = SafeUser_toObject x.
Proof.
  unfold omit_password, UserWithRole_toObject, SafeUser_toObject.
  vm_compute. reflexivity.
Qed.

Lemma omit_password_lookup (o : gmap string Value) :
  omit_password o !! "password" = None ∧
  ∀ k, k ≠ "password" → omit_password o !! k = o !! k.
Proof.
  unfold omit_password. split; [apply lookup_delete_eq|].
  intros k Hk. by apply lookup_delete_ne.
Qed.

Lemma Role_toObject_no_password (r : Role.t) :
  Role_toObject r !! "password" = None.
Proof. reflexivity. Qed.

Lemma SafeUser_toObject_values (x : UserWithRole.t) (k : string) (v : Value) :
  SafeUser_toObject x !! k = Some v → password_free v.
Proof.
  unfold SafeUser_toObject. cbn zeta. intros H%elem_of_list_to_map_2.
  repeat (apply elem_of_cons in H as [[= -> ->]|H]); try exact I.
  - destruct (User.avatar _); exact I.
  - destruct (User.roleId _); exact I.
  - destruct (UserWithRole.role x); [reflexivity|exact I].
  - by apply elem_of_nil in H.
Qed.

(** C10: for an authenticated caller the list answers 200 with one object
    per user row; each object has no [password] key, agrees with the user
    (and its joined [role]) on every other key, and no nested object has a
    [password] key either. *)
Theorem get_users_omits_password (session : option Z) (db : Db) (user : User.t) :
  deserializeUser session db = Some user →
  ∃ all,
    eval getAllUsers db = Return all ∧
    all ≡ₚ with_role db <$> users db ∧
    get_users session db
    = (db, mkResponse 200 (Json_objects (SafeUser_toObject <$> all))) ∧
    Forall (λ x,
      let o := SafeUser_toObject x in
      o !! "password" = None ∧
      (∀ k, k ≠ "password" → o !! k = UserWithRole_toObject x !! k) ∧
      (∀ k v, o !! k = Some v → password_free v)) all.
Proof.
  intros Huser. eexists. split; [reflexivity|]. split.
  { by rewrite order_by_Permutation. }
  split.
  { unfold get_users, requireAuth, try_catch, getAllUsers.
    rewrite Huser, bind_query. unfold ret. cbn zeta.
    rewrite (list_fmap_ext (omit_password ∘ UserWithRole_toObject)
               SafeUser_toObject); [reflexivity|].
    intros _ x _. apply omit_password_toObject. }
  apply Forall_forall. intros x _. cbn zeta.
  rewrite <- omit_password_toObject.
  destruct (omit_password_lookup (UserWithRole_toObject x)) as [Hp Hk].
  split; [exact Hp|]. split; [exact Hk|].
  rewrite omit_password_toObject. apply SafeUser_toObject_values.
Qed.

(** ** Concrete runs *)

Lemma attendance_transition_guards_witness :
  post_attendance_clock_in (Some 2%Z) example_now example_now
    example_db_clocked_out
  = (example_db_clocked_out, mkResponse 400 (Send "Already clocked in today")) ∧
  post_attendance_clock_out (Some 2%Z) example_now example_now
    example_db_clocked_out
  = (example_db_clocked_out, mkResponse 400 (Send "Already clocked out today")) ∧
  post_attendance_clock_out (Some 2%Z) example_now example_now example_db
  = (example_db, mkResponse 400 (Send "Not clocked in today")).
Proof.
  destruct (attendance_transition_guards (Some 2%Z) example_now example_now
              example_db_clocked_out example_staff eq_refl) as (Hin & _ & Hout).
  destruct (attendance_transition_guards (Some 2%Z) example_now example_now
              example_db example_staff eq_refl) as (_ & Hnone & _).
  split; [|split].
  - eapply Hin. reflexivity.
  - eapply Hout; [reflexivity|]. eexists. reflexivity.
  - apply Hnone. reflexivity.
Defined.

Lemma get_users_omits_password_witness :
  ∃ objects,
    snd (get_users (Some 2%Z) example_db) = mkResponse 200 (Json_objects objects) ∧
    length objects = 2 ∧
    Forall (λ o : gmap string Value, o !! "password" = None) objects.
Proof.
  destruct (get_users_omits_password (Some 2%Z) example_db example_staff eq_refl)
    as (all & Hall & Hperm & Hres & Hsafe).
  exists (SafeUser_toObject <$> all). split; [by rewrite Hres|]. split.
  - rewrite length_fmap, Hperm, length_fmap. reflexivity.
  - apply Forall_fmap. eapply Forall_impl; [exact Hsafe|].
    intros x (Hpw & _). exact Hpw.
Defined.

Example split_examples :
  split "." "a.b.c" = ["a"; "b"; "c"] ∧
  split "." "abc" = ["abc"] ∧
  split "." "abc." = ["abc"; EmptyString] ∧
  split "." EmptyString = [EmptyString].
Proof. repeat split. Qed.

Example hex_examples :
  toString_hex [x0a; xff] = "0aff" ∧
  Buffer_from_hex "0aFF" = [x0a; xff] ∧
  Buffer_from_hex "0affzz00" = [x0a; xff] ∧
  Buffer_from_hex "abc" = [xab].
Proof. repeat split. Qed.

Section Runs.
Context `{K : Scrypt}.

(** The scenario of the specification: U1 completes the task assigned to
    it. *)
Example assignee_completes_task :
  let body := TaskPatch.mk None None None (Some "completed") None None None in
  Task.status <$> tasks (fst (patch_tasks (Some 2%Z) 1 body example_db))
  = ["completed"].
Proof. reflexivity. Qed.

Example correct_password_accepted (random : Buffer) :
  comparePasswords "hunter2" (hashPassword random "hunter2") = Return true.
Proof. rewrite comparePasswords_hashPassword. by rewrite bool_decide_true. Qed.

End Runs.

Example toy_hash_round_trip :
  @comparePasswords toyScrypt "hunter2"
    (@hashPassword toyScrypt [x01; x02] "hunter2") = Return true ∧
  @comparePasswords toyScrypt "hunter3"
    (@hashPassword toyScrypt [x01; x02] "hunter2") = Return false.
Proof. vm_compute. split; reflexivity. Qed.

Lemma login_requires_approved_or_admin_witness :
  @comparePasswords toyScrypt "pw" (User.password example_pending_user)
  = Return true ∧
  @post_login toyScrypt "u3" "pw" example_db_with_pending_user
  = (mkResponse 401 (Send "Account pending approval"), None).
Proof.
  split; [vm_compute; reflexivity|].
  apply (proj1 (@login_requires_approved_or_admin toyScrypt "u3" "pw"
                  example_db_with_pending_user) example_pending_user);
    reflexivity.
Defined.


(** * Further properties *)

(** ** Sessions and login *)

Section LoginOutcomes.
Context `{K : Scrypt}.

Lemma LocalStrategy_accepts username password random db user :
  eval (getUserByUsername username) db = Return (Some user) →
  User.isApproved user = true ∨ User.isAdmin user = true →
  User.password user = hashPassword random password →
  LocalStrategy username password db = done_user user.
Proof.
  intros Huser%eval_found Hok Hpw.
  unfold LocalStrategy, getUserByUsername. rewrite bind_query, Huser.
  assert (negb (User.isApproved user) && negb (User.isAdmin user) = false) as ->.
  { destruct Hok as [-> | ->]; [reflexivity|apply andb_false_r]. }
  rewrite bind_lift, Hpw, comparePasswords_hashPassword.
  rewrite bool_decide_true by reflexivity. reflexivity.
Qed.

Lemma LocalStrategy_wrong_password username password original random db user :
  eval (getUserByUsername username) db = Return (Some user) →
  User.isApproved user = true ∨ User.isAdmin user = true →
  User.password user = hashPassword random original →
  scrypt password (toString_hex random) 64
    ≠ scrypt original (toString_hex random) 64 →
  LocalStrategy username password db = done_false "Invalid credentials".
Proof.
  intros Huser%eval_found Hok Hpw Hkey.
  unfold LocalStrategy, getUserByUsername. rewrite bind_query, Huser.
  assert (negb (User.isApproved user) && negb (User.isAdmin user) = false) as ->.
  { destruct Hok as [-> | ->]; [reflexivity|apply andb_false_r]. }
  rewrite bind_lift, Hpw, comparePasswords_hashPassword.
  rewrite bool_decide_false by (intros Heq; apply Hkey; congruence).
  reflexivity.
Qed.

Lemma LocalStrategy_unknown username password db :
  eval (getUserByUsername username) db = Return None →
  LocalStrategy username password db = done_false "Invalid credentials".
Proof.
  intros Huser%eval_missing.
  unfold LocalStrategy, getUserByUsername. by rewrite bind_query, Huser.
Qed.

Lemma deserializeUser_id session db user :
  deserializeUser session db = Some user → session = Some (User.id user).
Proof.
  unfold deserializeUser. destruct session as [id|]; [|done]. cbn.
  intros [_ <-]%head_filter_found. reflexivity.
Qed.

Lemma deserializeUser_of_member db user :
  user ∈ users db →
  ∃ row, deserializeUser (Some (User.id user)) db = Some row ∧
         User.id row = User.id user.
Proof.
  intros Hin. unfold deserializeUser. cbn [mbind option_bind].
  destruct (head (filter (λ u, User.id u = User.id user) (users db)))
    as [row|] eqn:Hrow.
  - exists row. split; [reflexivity|]. by apply head_filter_found in Hrow as [_ ?].
  - exfalso. apply (not_elem_of_key User.id) in Hrow. apply Hrow.
    apply list_elem_of_fmap. eauto.
Qed.

(** A user that is approved or admin logs in with the password whose hash
    is stored, when neither the user name nor the password is empty: the
    answer is 200 with the user's row and role, and the session that is
    bound resolves to that row on the next request. *)
Theorem post_login_accepts_stored_password username password random db user :
  truthy username = true →
  truthy password = true →
  eval (getUserByUsername username) db = Return (Some user) →
  User.isApproved user = true ∨ User.isAdmin user = true →
  User.password user = hashPassword random password →
  ∃ row,
    deserializeUser (Some (User.id user)) db = Some row ∧
    User.id row = User.id user ∧
    post_login username password db
    = (mkResponse 200 (Json_UserWithRole (Some (with_role db row))),
       Some (User.id user)).
Proof.
  intros Hname Hpresent Huser Hok Hpw.
  assert (user ∈ users db) as Hin.
  { by apply eval_found, head_filter_found in Huser as [? _]. }
  destruct (deserializeUser_of_member db user Hin) as (row & Hrow & Hid).
  exists row. split; [exact Hrow|]. split; [exact Hid|].
  rewrite post_login_present by done.
  rewrite (LocalStrategy_accepts _ _ _ _ _ Huser Hok Hpw).
  unfold deserializeUser in Hrow. cbn [mbind option_bind] in Hrow.
  by rewrite Hrow.
Qed.

(** A login without a user name or without a password is answered 401
    with the text "Missing credentials", whoever the user is. With both,
    an unknown user name and a wrong password get the same answer: 401
    with the text "Invalid credentials". No session is bound. *)
Theorem post_login_invalid_credentials username password db :
  let refused := (mkResponse 401 (Send "Invalid credentials"), None) in
  (truthy username = false ∨ truthy password = false →
   post_login username password db
   = (mkResponse 401 (Send "Missing credentials"), None)) ∧
  (truthy username = true →
   truthy password = true →
   eval (getUserByUsername username) db = Return None →
   post_login username password db = refused) ∧
  (∀ user random original,
     truthy username = true →
     truthy password = true →
     eval (getUserByUsername username) db = Return (Some user) →
     User.isApproved user = true ∨ User.isAdmin user = true →
     User.password user = hashPassword random original →
     scrypt password (toString_hex random) 64
       ≠ scrypt original (toString_hex random) 64 →
     post_login username password db = refused).
Proof.
  intros refused. split; [|split].
  - apply post_login_missing.
  - intros Hname Hpresent Huser. rewrite post_login_present by done.
    by rewrite LocalStrategy_unknown.
  - intros user random original Hname Hpresent Huser Hok Hpw Hkey.
    rewrite post_login_present by done.
    by erewrite LocalStrategy_wrong_password.
Qed.

End LoginOutcomes.

Lemma post_login_accepts_stored_password_witness :
  status (fst (@post_login toyScrypt "u4" "correct horse" example_db_member))
  = 200%Z ∧
  snd (@post_login toyScrypt "u4" "correct horse" example_db_member)
  = Some 4%Z.
Proof.
  destruct (@post_login_accepts_stored_password toyScrypt "u4" "correct horse"
              [x07; x08] example_db_member example_member)
    as (row & _ & _ & ->).
  - reflexivity.
  - reflexivity.
  - reflexivity.
  - left. reflexivity.
  - reflexivity.
  - split; reflexivity.
Defined.

(** ** Who may write *)

Section Authority.
Context `{K : Scrypt}.

(** A request whose session resolves to no user writes nothing and is
    answered 401 (403 on the admin routes); on the admin routes a user
    that is not admin writes nothing and is answered 403. *)
Theorem handle_refuses_without_authority r session db :
  session_of r = Some session →
  (deserializeUser session db = None →
   handle r db
   = (db, if admin_only r then mkResponse 403 (Send "Forbidden")
          else mkResponse 401 (Send "Unauthorized"))) ∧
  (∀ user,
     admin_only r = true →
     deserializeUser session db = Some user →
     User.isAdmin user = false →
     handle r db = (db, mkResponse 403 (Send "Forbidden"))).
Proof.
  intros Hsession. split.
  - intros Hnone.
    destruct r; simplify_eq/=;
      unfold post_access_requests_approve, post_access_requests_reject,
        patch_users_role, patch_user_profile, post_user_change_password,
        delete_roles, delete_messages, patch_tasks, post_attendance_clock_in,
        post_attendance_clock_out, requireAuth, requireAdmin;
      by rewrite Hnone.
  - intros user Hadmin Huser Hno.
    destruct r; simplify_eq/=;
      unfold post_access_requests_approve, post_access_requests_reject,
        patch_users_role, delete_roles, requireAdmin;
      by rewrite Huser, Hno.
Qed.

End Authority.

Lemma handle_refuses_without_authority_witness :
  @handle toyScrypt (DELETE_roles None 1) example_db
  = (example_db, mkResponse 403 (Send "Forbidden")) ∧
  @handle toyScrypt (PATCH_tasks None 1 retitle) example_db
  = (example_db, mkResponse 401 (Send "Unauthorized")) ∧
  @handle toyScrypt (PATCH_users_role (Some 2%Z) 2 None) example_db
  = (example_db, mkResponse 403 (Send "Forbidden")).
Proof.
  split; [|split].
  - apply (proj1 (@handle_refuses_without_authority toyScrypt
                    (DELETE_roles None 1) None example_db eq_refl)).
    reflexivity.
  - apply (proj1 (@handle_refuses_without_authority toyScrypt
                    (PATCH_tasks None 1 retitle) None example_db eq_refl)).
    reflexivity.
  - apply (proj2 (@handle_refuses_without_authority toyScrypt
                    (PATCH_users_role (Some 2%Z) 2 None) (Some 2%Z) example_db
                    eq_refl) example_staff); reflexivity.
Defined.

(** ** The admin account *)

Section AdminAccount.
Context `{K : Scrypt}.

Lemma initializeAdmin_present random db :
  ADMIN_USERNAME ∈ usernames db → initializeAdmin random db = (db, Return tt).
Proof.
  intros Hadmin. unfold initializeAdmin, getUserByUsername.
  rewrite bind_query.
  destruct (head _) as [admin|] eqn:Hhead; [reflexivity|].
  by apply (not_elem_of_key User.username) in Hhead.
Qed.

Lemma initializeAdmin_absent random db :
  ADMIN_USERNAME ∉ usernames db →
  initializeAdmin random db
  = (set_users (λ rows, rows ++
       [User.mk (users_id_seq db) ADMIN_USERNAME
          (hashPassword random ADMIN_PASSWORD) "admin@grovefan.com" "Admin"
          None true None true]) (next_users_id db),
     Return tt).
Proof.
  intros Hadmin. unfold initializeAdmin, getUserByUsername.
  rewrite bind_query.
  destruct (head _) as [admin|] eqn:Hhead.
  { exfalso. apply Hadmin. apply head_filter_found in Hhead as [Hin <-].
    apply list_elem_of_fmap. eauto. }
  unfold bind, createUser. cbn [InsertUser.username].
  rewrite decide_False by exact Hadmin. reflexivity.
Qed.

(** [initializeAdmin] never throws, leaves an existing admin account as it
    is, creates the account (admin, approved, with the hash of the built-in
    password) when there is none, and is idempotent: a second run changes
    nothing. *)
Theorem initializeAdmin_creates_once random random' db :
  let db1 := exec (initializeAdmin random) db in
  eval (initializeAdmin random) db = Return tt ∧
  ADMIN_USERNAME ∈ usernames db1 ∧
  exec (initializeAdmin random') db1 = db1 ∧
  (ADMIN_USERNAME ∈ usernames db → db1 = db) ∧
  (ADMIN_USERNAME ∉ usernames db →
   users db1
   = users db ++
       [User.mk (users_id_seq db) ADMIN_USERNAME
          (hashPassword random ADMIN_PASSWORD) "admin@grovefan.com" "Admin"
          None true None true]).
Proof.
  intros db1. subst db1. unfold exec, eval.
  destruct (decide (ADMIN_USERNAME ∈ usernames db)) as [Hin|Hout].
  - rewrite (initializeAdmin_present random db Hin). cbn [fst snd].
    rewrite (initializeAdmin_present random' db Hin). by repeat split.
  - rewrite (initializeAdmin_absent random db Hout). cbn [fst snd].
    assert (ADMIN_USERNAME ∈ usernames
              (set_users (λ rows, rows ++
                 [User.mk (users_id_seq db) ADMIN_USERNAME
                    (hashPassword random ADMIN_PASSWORD) "admin@grovefan.com"
                    "Admin" None true None true]) (next_users_id db))) as Hnow.
    { unfold usernames. cbn. rewrite fmap_app. apply elem_of_app. right.
      by left. }
    rewrite (initializeAdmin_present random' _ Hnow). by repeat split.
Qed.

(** On a database without the admin account, [initializeAdmin] makes the
    built-in credentials work: the login answers 200 and binds a session to
    the id the account was given. *)
Theorem initializeAdmin_then_login random db :
  ADMIN_USERNAME ∉ usernames db →
  let db1 := exec (initializeAdmin random) db in
  status (fst (post_login ADMIN_USERNAME ADMIN_PASSWORD db1)) = 200%Z ∧
  snd (post_login ADMIN_USERNAME ADMIN_PASSWORD db1) = Some (users_id_seq db).
Proof.
  intros Hout db1. subst db1. unfold exec.
  rewrite (initializeAdmin_absent random db Hout). cbn [fst].
  set (admin := User.mk _ _ _ _ _ _ _ _ _).
  set (db1 := set_users _ _).
  unfold post_login.
  rewrite (LocalStrategy_accepts ADMIN_USERNAME ADMIN_PASSWORD random db1 admin).
  - split; reflexivity.
  - unfold getUserByUsername. rewrite eval_query. f_equal.
    subst db1. cbn [users set_users next_users_id].
    apply (not_elem_of_key User.username), head_None in Hout.
    rewrite filter_app, Hout. by rewrite filter_cons_True.
  - by right.
  - reflexivity.
Qed.

End AdminAccount.

Lemma initializeAdmin_then_login_witness :
  snd (@post_login toyScrypt ADMIN_USERNAME ADMIN_PASSWORD
         (exec (@initializeAdmin toyScrypt [x0a; x0b]) emptyDb)) = Some 1%Z.
Proof.
  apply (@initializeAdmin_then_login toyScrypt [x0a; x0b] emptyDb).
  apply (bool_decide_unpack _). vm_compute. exact I.
Defined.

(** ** A day of attendance *)

Lemma deserializeUser_same_users session db db' :
  users db' = users db → deserializeUser session db' = deserializeUser session db.
Proof. intros Heq. unfold deserializeUser. by rewrite Heq. Qed.

Lemma post_attendance_clock_in_users session now now' db :
  users (fst (post_attendance_clock_in session now now' db)) = users db.
Proof.
  unfold post_attendance_clock_in, createAttendance, getTodayAttendance.
  run_route.
Qed.

Lemma post_attendance_clock_out_users session now now' db :
  users (fst (post_attendance_clock_out session now now' db)) = users db.
Proof.
  unfold post_attendance_clock_out, updateAttendance, getTodayAttendance.
  run_route.
Qed.

(** From no record for today, a clock-in (201) followed by a clock-out
    (200) on the same day leaves one record for the user and that day,
    carrying both times; after that every clock-in and every clock-out of
    that day is answered 400 and writes nothing. *)
Theorem attendance_day_runs_once session now1 now1' now2 now2' db user :
  deserializeUser session db = Some user →
  eval (getTodayAttendance (User.id user) (isoDay now1)) db = Return None →
  isoDay now2 = isoDay now1 →
  let db1 := fst (post_attendance_clock_in session now1 now1' db) in
  let db2 := fst (post_attendance_clock_out session now2 now2' db1) in
  let record :=
    Attendance.mk (attendance_id_seq db) (User.id user) (getTime now1')
      (Some (getTime now2')) (isoDay now1) in
  status (snd (post_attendance_clock_in session now1 now1' db)) = 201%Z ∧
  status (snd (post_attendance_clock_out session now2 now2' db1)) = 200%Z ∧
  eval (getTodayAttendance (User.id user) (isoDay now1)) db2
  = Return (Some record) ∧
  ∀ now3 now3',
    isoDay now3 = isoDay now1 →
    post_attendance_clock_in session now3 now3' db2
    = (db2, mkResponse 400 (Send "Already clocked in today")) ∧
    post_attendance_clock_out session now3 now3' db2
    = (db2, mkResponse 400 (Send "Already clocked out today")).
Proof.
  intros Huser Habsent Hday db1 db2 record.
  destruct (clock_in_from_absent session now1 now1' db user Huser Habsent)
    as (Hin & _ & Htoday1).
  fold db1 in Hin, Htoday1.
  assert (deserializeUser session db1 = Some user) as Huser1.
  { rewrite <- Huser. apply deserializeUser_same_users.
    apply post_attendance_clock_in_users. }
  rewrite <- Hday in Htoday1.
  destruct (clock_out_from_clocked_in session now2 now2' db1 user _
              Huser1 Htoday1 eq_refl) as (Hout & Htoday2).
  fold db2 in Htoday2. rewrite Hday in Htoday2.
  assert (deserializeUser session db2 = Some user) as Huser2.
  { rewrite <- Huser1. apply deserializeUser_same_users.
    apply post_attendance_clock_out_users. }
  split; [by rewrite Hin|]. split; [exact Hout|]. split; [exact Htoday2|].
  intros now3 now3' Hday3. rewrite <- Hday3 in Htoday2. split.
  - by eapply clock_in_conflict.
  - eapply clock_out_twice; [done|done|]. by eexists.
Qed.

Lemma attendance_day_runs_once_witness :
  let db2 :=
    fst (post_attendance_clock_out (Some 2%Z) example_now example_now
           (fst (post_attendance_clock_in (Some 2%Z) example_now example_now
                   example_db))) in
  Attendance.clockOut <$> attendance db2 = [Some 1767607200000%Z] ∧
  post_attendance_clock_in (Some 2%Z) example_now example_now db2
  = (db2, mkResponse 400 (Send "Already clocked in today")).
Proof.
  destruct (attendance_day_runs_once (Some 2%Z) example_now example_now
              example_now example_now example_db example_staff
              eq_refl eq_refl eq_refl) as (_ & _ & _ & Hlater).
  split; [reflexivity|].
  apply (Hlater example_now example_now eq_refl).
Defined.

(** ** Rejecting an access request *)

(** The database after [request] was rejected. *)
Lemma reject_by_admin session requestId db request :
  admin_session session db = true →
  eval (getAccessRequest requestId) db = Return (Some request) →
  post_access_requests_reject session requestId db
  = ((if truthy (AccessRequest.email request)
      then emit (AccessRejectedEmail (AccessRequest.email request)
                   (AccessRequest.username request))
      else id)
       (set_accessRequests
          (update_where (λ r, AccessRequest.id r = requestId)
             (AccessRequest_set_status "rejected")) db),
     mkResponse 200 Json_success).
Proof.
  intros (admin & Hsession & Hadmin)%admin_session_true Hreq%eval_found.
  unfold post_access_requests_reject, requireAdmin, try_catch, getAccessRequest.
  rewrite Hsession, Hadmin, bind_query, Hreq.
  unfold updateAccessRequestStatus. rewrite bind_modify.
  destruct (truthy (AccessRequest.email request)); reflexivity.
Qed.

(** An admin's rejection has no guard on the status: whatever the status
    of the request was (an approved one included), the answer is 200, the
    request becomes rejected, no user row is touched, the e-mail goes out
    when the request has an address, and an approval afterwards is refused
    with 400. *)
Theorem reject_is_final session requestId db request :
  admin_session session db = true →
  eval (getAccessRequest requestId) db = Return (Some request) →
  let db' := fst (post_access_requests_reject session requestId db) in
  snd (post_access_requests_reject session requestId db)
  = mkResponse 200 Json_success ∧
  users db' = users db ∧
  eval (getAccessRequest requestId) db'
  = Return (Some (AccessRequest_set_status "rejected" request)) ∧
  outbox db'
  = outbox db ++
      (if truthy (AccessRequest.email request)
       then [AccessRejectedEmail (AccessRequest.email request)
               (AccessRequest.username request)]
       else []) ∧
  post_access_requests_approve session requestId db'
  = (db', mkResponse 400 (Send "Request already processed")).
Proof.
  intros Hadmin Hreq db'. subst db'.
  rewrite (reject_by_admin _ _ _ _ Hadmin Hreq). cbn [fst snd].
  set (written := set_accessRequests _ db).
  set (db' := (if truthy _ then _ else _) written).
  assert (users db' = users db ∧ accessRequests db' = accessRequests written)
    as [Husers Hreqs].
  { subst db'. by destruct (truthy _). }
  assert (eval (getAccessRequest requestId) db'
          = Return (Some (AccessRequest_set_status "rejected" request)))
    as Hreq'.
  { unfold getAccessRequest. rewrite eval_query, Hreqs. f_equal.
    subst written. cbn [accessRequests set_accessRequests].
    rewrite head_filter_update_where by done.
    apply eval_found in Hreq. by rewrite Hreq. }
  split; [reflexivity|]. split; [exact Husers|]. split; [exact Hreq'|]. split.
  { subst db'. destruct (truthy _); cbn; [reflexivity|].
    by rewrite app_nil_r. }
  destruct (admin_session_true _ _ Hadmin) as (admin & Hsession & Hisadmin).
  eapply approve_not_pending; [|exact Hisadmin|exact Hreq'|done].
  rewrite <- Hsession. by apply deserializeUser_same_users.
Qed.

Lemma reject_is_final_witness :
  AccessRequest.status <$>
    accessRequests
      (fst (post_access_requests_reject (Some 1%Z) 1 example_db_pending))
  = ["rejected"] ∧
  status (snd (post_access_requests_approve (Some 1%Z) 1
                 (fst (post_access_requests_reject (Some 1%Z) 1
                         example_db_pending)))) = 400%Z.
Proof.
  destruct (head (filter (λ r, AccessRequest.id r = 1%Z)
                    (accessRequests example_db_pending)))
    as [request|] eqn:Hrequest; [|vm_compute in Hrequest; discriminate].
  destruct (reject_is_final (Some 1%Z) 1 example_db_pending request)
    as (_ & _ & _ & _ & Happrove).
  - reflexivity.
  - unfold getAccessRequest. rewrite eval_query. by f_equal.
  - split; [reflexivity|]. by rewrite Happrove.
Defined.

(** ** Profile, password and role of a user *)

Lemma update_where_Forall2 {A} (P : A → Prop) `{∀ x, Decision (P x)}
    (set : A → A) (R : A → A → Prop) (rows : list A) :
  (∀ r, r ∈ rows → P r → R r (set r)) →
  (∀ r, r ∈ rows → ¬ P r → R r r) →
  Forall2 R rows (update_where P set rows).
Proof.
  intros Hset Hkeep. unfold update_where.
  apply Forall2_fmap_r, Forall_Forall2_diag, Forall_forall.
  intros r Hr. unfold compose. case_decide; auto.
Qed.

Lemma set_users_same (f : list User.t → list User.t) db :
  f (users db) = users db → set_users f db = db.
Proof. intros Hf. destruct db. unfold set_users. cbn in *. by rewrite Hf. Qed.

Lemma UserPatch_apply_same_account data u :
  UserPatch.password data = None → same_account u (UserPatch_apply data u).
Proof. intros Hpw. unfold same_account, UserPatch_apply. cbn. by rewrite Hpw. Qed.

Lemma patch_user_profile_db session name email file db :
  fst (patch_user_profile session name email file db) = db ∨
  ∃ user data,
    deserializeUser session db = Some user ∧
    UserPatch.password data = None ∧
    fst (patch_user_profile session name email file db)
    = set_users (update_where (λ u, User.id u = User.id user)
                   (UserPatch_apply data)) db.
Proof.
  unfold patch_user_profile, updateUser, getUserWithRole. run_route; eauto;
    right; eexists _, _; by repeat split.
Qed.

(** Whatever the profile form carries, the route writes only to the
    caller's own row and only to its name, e-mail and avatar: every user
    keeps its id, user name, password, admin and approval flags and role,
    the rows of other users are unchanged, and no other table is
    touched. *)
Theorem patch_user_profile_scope session name email file db :
  let db' := fst (patch_user_profile session name email file db) in
  Forall2 (λ u u', same_account u u' ∧ (session ≠ Some (User.id u) → u' = u))
    (users db) (users db') ∧
  roles db' = roles db ∧ accessRequests db' = accessRequests db ∧
  messages db' = messages db ∧ tasks db' = tasks db ∧
  attendance db' = attendance db.
Proof.
  intros db'. subst db'.
  destruct (patch_user_profile_db session name email file db)
    as [->|(user & data & Huser & Hpw & ->)].
  - split; [|done]. apply Forall_Forall2_diag, Forall_forall. intros u _.
    by repeat split.
  - split; [|done]. apply deserializeUser_id in Huser as ->.
    cbn [users set_users]. apply update_where_Forall2.
    + intros u _ Hid. split; [by apply UserPatch_apply_same_account|].
      intros Hne. by rewrite Hid in Hne.
    + intros u _ _. by repeat split.
Qed.

(** What the form carries is written to the caller's row. *)
Theorem patch_user_profile_writes session name email file db user :
  deserializeUser session db = Some user →
  is_Some name ∨ is_Some email ∨ is_Some file →
  let db' := fst (patch_user_profile session name email file db) in
  let user' :=
    User.mk (User.id user) (User.username user) (User.password user)
      (default (User.email user) email) (default (User.name user) name)
      (if file is Some filename then Some ("/uploads/" +:+ filename)
       else User.avatar user)
      (User.isAdmin user) (User.roleId user) (User.isApproved user) in
  deserializeUser session db' = Some user' ∧
  patch_user_profile session name email file db
  = (db', mkResponse 200 (Json_UserWithRole (Some (with_role db' user')))).
Proof.
  intros Huser Hsome db' user'.
  pose proof (deserializeUser_id _ _ _ Huser) as ->.
  assert (head (filter (λ u, User.id u = User.id user) (users db)) = Some user)
    as Hrow by exact Huser.
  set (data := UserPatch.mk None email name
                 (if file is Some filename
                  then Some (Some ("/uploads/" +:+ filename)) else None)).
  assert (UserPatch_is_empty data = false) as Hdata.
  { subst data. unfold UserPatch_is_empty. cbn.
    destruct Hsome as [[? ->]|[[? ->]|[? ->]]]; by repeat case_match. }
  assert (UserPatch_apply data user = user') as Happly.
  { subst data user'. unfold UserPatch_apply. cbn. by destruct file. }
  assert (patch_user_profile (Some (User.id user)) name email file db
          = (set_users (update_where (λ u, User.id u = User.id user)
                          (UserPatch_apply data)) db,
             mkResponse 200
               (Json_UserWithRole
                  (Some (with_role
                           (set_users (update_where (λ u, User.id u = User.id user)
                                         (UserPatch_apply data)) db) user')))))
    as Hrun.
  { unfold patch_user_profile, requireAuth. rewrite Huser.
    unfold try_catch, updateUser. cbn zeta. fold data. rewrite Hdata.
    unfold bind at 1. rewrite head_returning, Hrow. cbn [fmap option_fmap option_map].
    unfold getUserWithRole. rewrite bind_query.
    cbn [users set_users]. rewrite head_filter_update_where by done.
    rewrite Hrow. cbn. by rewrite Happly. }
  subst db'. rewrite Hrun. cbn [fst]. split; [|reflexivity].
  unfold deserializeUser. cbn [mbind option_bind users set_users].
  rewrite head_filter_update_where by done. rewrite Hrow. cbn.
  by rewrite Happly.
Qed.

Lemma patch_user_profile_writes_witness :
  User.name <$>
    users (fst (patch_user_profile (Some 2%Z) (Some "U Uno") None None example_db))
  = ["Admin"; "U Uno"].
Proof.
  destruct (patch_user_profile_writes (Some 2%Z) (Some "U Uno") None None
              example_db example_staff eq_refl) as [_ ->].
  - left. by eexists.
  - reflexivity.
Defined.

Section PasswordChange.
Context `{K : Scrypt}.

Lemma post_user_change_password_run session random random0 old new db user :
  deserializeUser session db = Some user →
  User.password user = hashPassword random0 old →
  post_user_change_password session random old new db
  = (set_users
       (update_where (λ u, User.id u = User.id user)
          (UserPatch_apply
             (UserPatch.mk (Some (hashPassword random new)) None None None))) db,
     mkResponse 200 Json_success).
Proof.
  intros Huser Hpw.
  assert (head (filter (λ u, User.id u = User.id user) (users db)) = Some user)
    as Hrow.
  { pose proof (deserializeUser_id _ _ _ Huser) as ->. exact Huser. }
  unfold post_user_change_password, requireAuth, try_catch, getUser.
  rewrite Huser, bind_query. cbn zeta. rewrite Hrow.
  rewrite bind_lift, Hpw, comparePasswords_hashPassword.
  rewrite bool_decide_true by reflexivity. reflexivity.
Qed.

(** With the current password the change succeeds: the caller's row then
    holds the hash of the new password, which [comparePasswords] accepts,
    every other field and every other user's row is as before, and the
    user logs in with the new password, unless the new password or the
    user name is empty: such a login binds no session. *)
Theorem change_password_then_login session random random0 old new db user :
  deserializeUser session db = Some user →
  eval (getUserByUsername (User.username user)) db = Return (Some user) →
  User.isApproved user = true ∨ User.isAdmin user = true →
  User.password user = hashPassword random0 old →
  let db' := fst (post_user_change_password session random old new db) in
  let user' :=
    User.mk (User.id user) (User.username user) (hashPassword random new)
      (User.email user) (User.name user) (User.avatar user)
      (User.isAdmin user) (User.roleId user) (User.isApproved user) in
  snd (post_user_change_password session random old new db)
  = mkResponse 200 Json_success ∧
  deserializeUser session db' = Some user' ∧
  comparePasswords new (User.password user') = Return true ∧
  Forall2 (λ u u', User.id u ≠ User.id user → u' = u) (users db) (users db') ∧
  snd (post_login (User.username user) new db')
  = if truthy (User.username user) && truthy new
    then Some (User.id user) else None.
Proof.
  intros Huser Hname Hok Hpw db' user'. subst db'.
  rewrite (post_user_change_password_run _ _ _ _ _ _ _ Huser Hpw).
  cbn [fst snd].
  set (data := UserPatch.mk (Some (hashPassword random new)) None None None).
  assert (UserPatch_apply data user = user') as Happly by reflexivity.
  pose proof (deserializeUser_id _ _ _ Huser) as ->.
  assert (head (filter (λ u, User.id u = User.id user) (users db)) = Some user)
    as Hrow by exact Huser.
  split; [reflexivity|]. split.
  { unfold deserializeUser. cbn [mbind option_bind users set_users].
    rewrite head_filter_update_where by done. by rewrite Hrow. }
  split.
  { cbn [User.password user']. rewrite comparePasswords_hashPassword.
    by rewrite bool_decide_true. }
  split.
  { cbn [users set_users]. apply update_where_Forall2; [done|done]. }
  destruct (truthy (User.username user)) eqn:Hpresent,
           (truthy new) eqn:Hnew; cbn [andb];
    try (rewrite post_login_missing by auto; reflexivity).
  rewrite post_login_present by done.
  rewrite (LocalStrategy_accepts (User.username user) new random _ user').
  - reflexivity.
  - unfold getUserByUsername. rewrite eval_query. f_equal.
    cbn [users set_users]. apply eval_found in Hname.
    unfold update_where.
    induction (users db) as [|u l IH]; [discriminate|].
    rewrite fmap_cons. rewrite filter_cons in Hname, Hrow.
    destruct (decide (User.username u = User.username user)) as [Hu|Hu].
    + injection Hname as ->. rewrite decide_True by done.
      rewrite filter_cons_True by done. by rewrite Happly.
    + rewrite filter_cons_False.
      2:{ case_decide; [|done]. by destruct u. }
      apply IH; [exact Hname|].
      case_decide as Hid; [|exact Hrow]. injection Hrow as ->. done.
  - exact Hok.
  - reflexivity.
Qed.

(** With a password whose key differs from the stored one the change is
    refused with 400 and nothing is written. *)
Theorem change_password_needs_current session random random0 old wrong new db user :
  deserializeUser session db = Some user →
  User.password user = hashPassword random0 old →
  scrypt wrong (toString_hex random0) 64 ≠ scrypt old (toString_hex random0) 64 →
  post_user_change_password session random wrong new db
  = (db, mkResponse 400 (Send "Current password is incorrect")).
Proof.
  intros Huser Hpw Hkey.
  assert (head (filter (λ u, User.id u = User.id user) (users db)) = Some user)
    as Hrow.
  { pose proof (deserializeUser_id _ _ _ Huser) as ->. exact Huser. }
  unfold post_user_change_password, requireAuth, try_catch, getUser.
  rewrite Huser, bind_query. cbn zeta. rewrite Hrow.
  rewrite bind_lift, Hpw, comparePasswords_hashPassword.
  rewrite bool_decide_false by (intros Heq; apply Hkey; congruence).
  reflexivity.
Qed.

End PasswordChange.

Lemma change_password_then_login_witness :
  snd (@post_login toyScrypt "u4" "battery staple"
         (fst (@post_user_change_password toyScrypt (Some 4%Z) [x09]
                 "correct horse" "battery staple" example_db_member)))
  = Some 4%Z.
Proof.
  apply (@change_password_then_login toyScrypt (Some 4%Z) [x09] [x07; x08]
           "correct horse" "battery staple" example_db_member example_member);
    try reflexivity.
  by left.
Defined.

Lemma change_password_needs_current_witness :
  @post_user_change_password toyScrypt (Some 4%Z) [x09]
    "incorrect horse" "battery staple" example_db_member
  = (example_db_member, mkResponse 400 (Send "Current password is incorrect")).
Proof.
  apply (@change_password_needs_current toyScrypt (Some 4%Z) [x09] [x07; x08]
           "correct horse" "incorrect horse" "battery staple" example_db_member
           example_member); try reflexivity.
  vm_compute. discriminate.
Defined.

(** ** Assigning a role *)

(** An admin's role assignment answers 200 whether or not the user and
    the role exist. The user with that id then carries the reference, and
    is shown with the role of that id, or with no role when the reference
    is null or points at no role; the rows of users with another id and
    the roles are unchanged. *)
Theorem patch_users_role_assigns session userId roleId db :
  admin_session session db = true →
  let db' := fst (patch_users_role session userId roleId db) in
  snd (patch_users_role session userId roleId db) = mkResponse 200 Json_success ∧
  roles db' = roles db ∧
  Forall2 (λ u u', if decide (User.id u = userId)
                   then u' = User_set_roleId roleId u else u' = u)
    (users db) (users db') ∧
  eval (getUserWithRole userId) db'
  = Return ((λ u, UserWithRole.mk (User_set_roleId roleId u)
                    (r ← roleId; head (filter (λ x, Role.id x = r) (roles db))))
              <$> head (filter (λ u, User.id u = userId) (users db))).
Proof.
  intros (admin & Hsession & Hadmin)%admin_session_true db'. subst db'.
  unfold patch_users_role, requireAdmin, try_catch, assignRoleToUser.
  rewrite Hsession, Hadmin, bind_modify. cbn [fst snd ret].
  split; [reflexivity|]. split; [reflexivity|]. split.
  - cbn [users set_users]. apply update_where_Forall2.
    + intros u _ Hid. by rewrite decide_True.
    + intros u _ Hid. by rewrite decide_False.
  - unfold getUserWithRole. rewrite eval_query. f_equal.
    cbn [users roles set_users]. rewrite head_filter_update_where by done.
    by destruct (head (filter _ (users db))).
Qed.

Lemma patch_users_role_assigns_witness :
  User.roleId <$>
    users (fst (patch_users_role (Some 1%Z) 2 (Some 7%Z) example_db))
  = [None; Some 7%Z] ∧
  eval (getUserWithRole 2) (fst (patch_users_role (Some 1%Z) 2 (Some 7%Z) example_db))
  = Return (Some (UserWithRole.mk (User_set_roleId (Some 7%Z) example_staff) None)).
Proof.
  destruct (patch_users_role_assigns (Some 1%Z) 2 (Some 7%Z) example_db eq_refl)
    as (_ & _ & _ & Hshown).
  split; [reflexivity|]. rewrite Hshown. reflexivity.
Defined.

(** ** Listings are ordered and complete *)

(** [getAllUsers] returns every user row exactly once, each with the role
    its reference points at, by descending id. *)
Theorem getAllUsers_descending_and_complete db :
  ∃ all,
    eval getAllUsers db = Return all ∧
    UserWithRole.user <$> all ≡ₚ users db ∧
    StronglySorted (λ a b, (User.id (UserWithRole.user b)
                            ≤ User.id (UserWithRole.user a))%Z) all ∧
    Forall (λ x, x = with_role db (UserWithRole.user x)) all.
Proof.
  eexists. split; [reflexivity|]. split; [|split].
  - rewrite fmap_cancel by done. apply order_by_Permutation.
  - apply StronglySorted_fmap_key. cbn.
    eapply StronglySorted_weaken; [|apply (order_by_sorted User_desc_id)].
    + intros a b Hab. by apply Z.leb_le.
    + intros a b. unfold User_desc_id. rewrite !Z.leb_le. lia.
    + intros a b c. unfold User_desc_id. rewrite !Z.leb_le. lia.
  - apply Forall_fmap, Forall_forall. by intros u _.
Qed.

(** [getAllMessages] returns every message row exactly once, deleted ones
    included, by ascending creation time, each with the user row of its
    sender; this holds whatever order the database scans the table in. *)
Theorem getAllMessages_ascending_and_complete `{H : Scan} db :
  ∃ all,
    eval getAllMessages db = Return all ∧
    MessageWithSender.message <$> all ≡ₚ messages db ∧
    StronglySorted (λ a b, (Message.createdAt (MessageWithSender.message a)
                            ≤ Message.createdAt (MessageWithSender.message b))%Z)
      all ∧
    Forall (λ x,
      MessageWithSender.sender x
      = with_role db <$>
          head (filter (λ u, User.id u
                             = Message.senderId (MessageWithSender.message x))
                  (users db))) all.
Proof.
  eexists. split; [reflexivity|]. split; [|split].
  - rewrite fmap_cancel by done.
    rewrite order_by_Permutation. apply scan_Permutation.
  - apply StronglySorted_fmap_key. cbn.
    apply Message_asc_createdAt_sorted.
  - apply Forall_fmap, Forall_forall. by intros m _.
Qed.

(** ** The stored form of a password *)

Lemma length_toString_hex (buf : Buffer) :
  String.length (toString_hex buf) = 2 * length buf.
Proof. induction buf as [|b buf IH]; cbn; lia. Qed.

Lemma length_append_string (s t : string) :
  String.length (s +:+ t) = String.length s + String.length t.
Proof.
  induction s as [|c s IH]; [reflexivity|].
  rewrite append_String. cbn. by rewrite IH.
Qed.

Section StoredForm.
Context `{K : Scrypt}.

(** A value that [hashPassword] returns is the 128 hexadecimal digits of
    the key, a dot, and the digits of the salt (161 characters for the 16
    random bytes the code draws); it is never malformed for the check; and
    it determines the salt, so that values made with different random
    bytes differ, whatever the passwords. *)
Theorem hashPassword_stored_form (random : Buffer) (password : string) :
  String.length (hashPassword random password) = 129 + 2 * length random ∧
  split "." (hashPassword random password)
  = [toString_hex (scrypt password (toString_hex random) 64);
     toString_hex random] ∧
  ¬ malformed (hashPassword random password) ∧
  ∀ random' password',
    hashPassword random password = hashPassword random' password' →
    random = random' ∧
    scrypt password (toString_hex random) 64
    = scrypt password' (toString_hex random) 64.
Proof.
  split; [|split; [|split]].
  - unfold hashPassword. cbn zeta.
    rewrite !length_append_string, !length_toString_hex, scrypt_keylen.
    cbn [String.length]. lia.
  - apply split_hashPassword.
  - unfold malformed. rewrite split_hashPassword.
    rewrite Buffer_from_hex_toString_hex, scrypt_keylen. by intros [].
  - intros random' password' Heq.
    pose proof (split_hashPassword random password) as Hsplit.
    rewrite Heq, split_hashPassword in Hsplit.
    injection Hsplit as Hkey Hsalt.
    apply toString_hex_inj in Hsalt as <-.
    apply toString_hex_inj in Hkey. by rewrite Hkey.
Qed.

End StoredForm.

(** ** What every sequence of requests preserves *)

Lemma ids_below_insert {A} (id : A → Z) (rows : list A) (seq : Z) (r : A) :
  id r = seq → ids_below id rows seq → ids_below id (rows ++ [r]) (seq + 1).
Proof.
  intros Hr [Hnd Hlt]. split.
  - rewrite fmap_app. apply NoDup_app. split; [exact Hnd|].
    split; [|apply NoDup_singleton].
    intros k (r0 & -> & Hr0)%list_elem_of_fmap [Heq|[]%elem_of_nil]%elem_of_cons.
    rewrite Forall_forall in Hlt. specialize (Hlt r0 Hr0). lia.
  - apply Forall_app. split.
    + eapply Forall_impl; [exact Hlt|]. intros; cbn in *; lia.
    + constructor; [lia|constructor].
Qed.

Lemma ids_below_bump {A} (id : A → Z) (rows : list A) (seq : Z) :
  ids_below id rows seq → ids_below id rows (seq + 1).
Proof.
  intros [Hnd Hlt]. split; [exact Hnd|].
  eapply Forall_impl; [exact Hlt|]. intros; cbn in *; lia.
Qed.

Lemma ids_below_update {A} (id : A → Z) (P : A → Prop) `{∀ x, Decision (P x)}
    (set : A → A) (rows : list A) (seq : Z) :
  (∀ r, id (set r) = id r) →
  ids_below id rows seq → ids_below id (update_where P set rows) seq.
Proof.
  intros Hset [Hnd Hlt]. split.
  - by rewrite update_where_key.
  - unfold update_where. apply Forall_fmap.
    eapply Forall_impl; [exact Hlt|]. intros r Hr. unfold compose.
    case_decide; [by rewrite Hset|done].
Qed.

Lemma NoDup_snoc_fresh {A} (l : list A) (x : A) :
  x ∉ l → NoDup l → NoDup (l ++ [x]).
Proof.
  intros Hx Hl. apply NoDup_app. split; [exact Hl|].
  split; [|apply NoDup_singleton].
  by intros y Hy [->|[]%elem_of_nil]%elem_of_cons.
Qed.

Lemma attendance_day_fresh (rows : list Attendance.t) (userId : Z) (date : string) :
  head (filter (λ a, Attendance.userId a = userId ∧ Attendance.date a = date) rows)
    = None →
  (userId, date) ∉ (λ a, (Attendance.userId a, Attendance.date a)) <$> rows.
Proof.
  intros Hnone. pose proof (proj1 (head_filter_missing _ _) Hnone) as Hall.
  intros (a & [= -> ->] & Ha)%list_elem_of_fmap. by apply (Hall a).
Qed.

Section Serve.
Context `{K : Scrypt}.

Ltac unfold_routes :=
  unfold post_access_requests, post_access_requests_approve,
    post_access_requests_reject, patch_users_role, patch_user_profile,
    post_user_change_password, delete_roles, delete_messages, patch_tasks,
    post_attendance_clock_in, post_attendance_clock_out,
    getUser, getUserByUsername, getUserWithRole, createUser, updateUser,
    deleteRole, assignRoleToUser, getAccessRequest, getAccessRequestByUsername,
    createAccessRequest, updateAccessRequestStatus, getMessage, deleteMessage,
    getTask, updateTask, getTodayAttendance, createAttendance, updateAttendance.

Lemma handle_user_ids r db :
  ids_below User.id (users db) (users_id_seq db) →
  ids_below User.id (users (fst (handle r db))) (users_id_seq (fst (handle r db))).
Proof.
  intros Hok. destruct r; cbn [handle]; unfold_routes; run_route;
    try done;
    try (by apply ids_below_update);
    try (by apply ids_below_bump);
    try (by apply ids_below_insert).
Qed.

Lemma handle_user_names r db :
  NoDup (User.username <$> users db) →
  NoDup (User.username <$> users (fst (handle r db))).
Proof.
  intros Hok. destruct r; cbn [handle]; unfold_routes; run_route;
    try done;
    try (by rewrite update_where_key);
    try (rewrite fmap_app; by apply NoDup_snoc_fresh).
Qed.

Lemma handle_request_ids r db :
  ids_below AccessRequest.id (accessRequests db) (access_requests_id_seq db) →
  ids_below AccessRequest.id (accessRequests (fst (handle r db)))
    (access_requests_id_seq (fst (handle r db))).
Proof.
  intros Hok. destruct r; cbn [handle]; unfold_routes; run_route;
    try done;
    try (by apply ids_below_update);
    try (by apply ids_below_bump);
    try (by apply ids_below_insert).
Qed.

Lemma handle_attendance_ids r db :
  ids_below Attendance.id (attendance db) (attendance_id_seq db) →
  ids_below Attendance.id (attendance (fst (handle r db)))
    (attendance_id_seq (fst (handle r db))).
Proof.
  intros Hok. destruct r; cbn [handle]; unfold_routes; run_route;
    try done;
    try (by apply ids_below_update);
    try (by apply ids_below_bump);
    try (by apply ids_below_insert).
Qed.

Lemma handle_attendance_days r db :
  NoDup ((λ a, (Attendance.userId a, Attendance.date a)) <$> attendance db) →
  NoDup ((λ a, (Attendance.userId a, Attendance.date a))
           <$> attendance (fst (handle r db))).
Proof.
  intros Hok. destruct r; cbn [handle]; unfold_routes; run_route;
    try done;
    try (by rewrite update_where_key);
    try (rewrite fmap_app; apply NoDup_snoc_fresh; [|done];
         by apply attendance_day_fresh).
Qed.

Lemma handle_keys_unique r db :
  keys_unique db → keys_unique (fst (handle r db)).
Proof.
  intros [? ? ? ? ?]. split.
  - by apply handle_user_ids.
  - by apply handle_user_names.
  - by apply handle_request_ids.
  - by apply handle_attendance_ids.
  - by apply handle_attendance_days.
Qed.

Lemma started_keys_unique random : keys_unique (started random).
Proof.
  split; cbn; try (split; [apply NoDup_nil_2|constructor]);
    try apply NoDup_nil_2.
  - split; [apply NoDup_singleton|]. by repeat constructor.
  - apply NoDup_singleton.
Qed.

Lemma serve_app rs rs' db : serve (rs ++ rs') db = serve rs' (serve rs db).
Proof. unfold serve. apply foldl_app. Qed.

Lemma serve_keys_unique rs db : keys_unique db → keys_unique (serve rs db).
Proof.
  revert db. induction rs as [|r rs IH]; intros db Hdb; [exact Hdb|].
  cbn. apply IH. by apply handle_keys_unique.
Qed.

Lemma serve_reachable rs random : reachable (serve rs (started random)).
Proof.
  induction rs as [|r rs IH] using rev_ind.
  - apply reachable_start.
  - rewrite serve_app. cbn. by apply reachable_handle.
Qed.

(** Whatever requests are served after the first start: user ids, user
    names, access-request ids and attendance ids are pairwise different,
    every id is below the next value of its sequence, and no user has two
    attendance records for one day. *)
Theorem served_keys_unique rs random :
  let db := serve rs (started random) in
  NoDup (User.id <$> users db) ∧
  NoDup (User.username <$> users db) ∧
  NoDup (AccessRequest.id <$> accessRequests db) ∧
  NoDup (Attendance.id <$> attendance db) ∧
  NoDup ((λ a, (Attendance.userId a, Attendance.date a)) <$> attendance db) ∧
  Forall (λ u, (User.id u < users_id_seq db)%Z) (users db) ∧
  Forall (λ r, (AccessRequest.id r < access_requests_id_seq db)%Z)
    (accessRequests db) ∧
  Forall (λ a, (Attendance.id a < attendance_id_seq db)%Z) (attendance db).
Proof.
  intros db.
  destruct (serve_keys_unique rs (started random) (started_keys_unique random))
    as [[? ?] ? [? ?] [? ?] ?].
  by repeat split.
Qed.

End Serve.

(** ** From the access-request form to the first login *)

Section Onboarding.
Context `{K : Scrypt}.

Lemma admin_session_same_users session db db' :
  users db' = users db → admin_session session db' = admin_session session db.
Proof.
  intros Heq. unfold admin_session. by rewrite (deserializeUser_same_users _ _ _ Heq).
Qed.

(** After any sequence of requests: when a free user name is requested
    with a password and an admin approves the request under the id it was
    given, the password does not log in before the approval (401) and
    logs in after it (200), with a session bound to the id of the account
    that the approval created. A request with an empty user name or
    password is approved all the same, but its login is refused before
    and after (401, "Missing credentials"). *)
Theorem request_approve_login rs random0 random now body session :
  let db := serve rs (started random0) in
  let name := InsertAccessRequest.username body in
  let password := InsertAccessRequest.password body in
  name ∉ usernames db →
  name ∉ AccessRequest.username <$> accessRequests db →
  admin_session session db = true →
  let db1 := fst (post_access_requests random now body db) in
  let db2 :=
    fst (post_access_requests_approve session (access_requests_id_seq db) db1) in
  let present := truthy name && truthy password in
  post_login name password db1
  = (mkResponse 401
       (Send (if present then "Invalid credentials" else "Missing credentials")),
     None) ∧
  snd (post_access_requests_approve session (access_requests_id_seq db) db1)
  = mkResponse 200 Json_success ∧
  status (fst (post_login name password db2))
  = (if present then 200 else 401)%Z ∧
  snd (post_login name password db2)
  = if present then Some (users_id_seq db) else None.
Proof.
  intros db name password Hfree Hnone Hadmin db1 db2 present.
  pose proof (serve_keys_unique rs (started random0)
                (started_keys_unique random0)) as Hkeys.
  fold db in Hkeys. destruct Hkeys as [_ _ [_ Hbelow] _ _].
  set (request :=
    AccessRequest.mk (access_requests_id_seq db) name
      (InsertAccessRequest.email body) (hashPassword random password)
      (InsertAccessRequest.name body) "pending" now).
  assert (post_access_requests random now body db
          = (set_accessRequests (λ rows, rows ++ [request])
               (next_access_requests_id db),
             mkResponse 201 (Json_AccessRequest request))) as Hposted.
  { apply post_access_requests_created.
    - unfold getUserByUsername. rewrite eval_query. f_equal.
      by apply (not_elem_of_key User.username).
    - unfold getAccessRequestByUsername. rewrite eval_query. f_equal.
      by apply (not_elem_of_key AccessRequest.username). }
  assert (users db1 = users db) as Husers1 by (subst db1; by rewrite Hposted).
  assert (accessRequests db1 = accessRequests db ++ [request]) as Hreqs1
    by (subst db1; by rewrite Hposted).
  assert (users_id_seq db1 = users_id_seq db) as Hseq1
    by (subst db1; by rewrite Hposted).
  assert (eval (getUserByUsername name) db1 = Return None) as Hnouser.
  { unfold getUserByUsername. rewrite eval_query, Husers1. f_equal.
    by apply (not_elem_of_key User.username). }
  assert (eval (getAccessRequest (access_requests_id_seq db)) db1
          = Return (Some request)) as Hfound.
  { unfold getAccessRequest. rewrite eval_query, Hreqs1. f_equal.
    rewrite filter_app.
    assert (filter (λ r, AccessRequest.id r = access_requests_id_seq db)
              (accessRequests db) = []) as ->.
    { apply head_None, head_filter_missing. intros r Hr Hid.
      rewrite Forall_forall in Hbelow. specialize (Hbelow r Hr). lia. }
    by rewrite filter_cons_True. }
  destruct (admin_session_true session db1) as (admin & Hsession & Hisadmin).
  { by rewrite (admin_session_same_users _ _ _ Husers1). }
  assert (post_access_requests_approve session (access_requests_id_seq db) db1
          = (approved (access_requests_id_seq db) request db1,
             mkResponse 200 Json_success)) as Happroved.
  { eapply approve_pending; eauto. unfold usernames. by rewrite Husers1. }
  assert (present = false → ∀ db0,
            post_login name password db0
            = (mkResponse 401 (Send "Missing credentials"), None)) as Hmissing.
  { intros Hp db0. apply post_login_missing. subst present.
    by destruct (truthy name); [right|left]. }
  destruct present eqn:Hpresent;
    [|rewrite !Hmissing by done; by rewrite Happroved].
  apply andb_true_iff in Hpresent as [Hname Hpassword].
  split.
  { rewrite post_login_present by done. by rewrite LocalStrategy_unknown. }
  split; [by rewrite Happroved|].
  subst db2. rewrite Happroved. cbn [fst].
  destruct (approved_accounts (access_requests_id_seq db) request db1)
    as (_ & _ & Husers2).
  rewrite Husers1, Hseq1 in Husers2. cbn in Husers2.
  set (account := User.mk _ _ _ _ _ _ _ _ _) in Husers2.
  rewrite post_login_present by done.
  rewrite (LocalStrategy_accepts name password random _ account).
  - split; reflexivity.
  - unfold getUserByUsername. rewrite eval_query, Husers2. f_equal.
    rewrite filter_app.
    assert (filter (λ u, User.username u = name) (users db) = []) as ->.
    { by apply head_None, (not_elem_of_key User.username). }
    by rewrite filter_cons_True.
  - by left.
  - reflexivity.
Qed.

End Onboarding.

Lemma request_approve_login_witness :
  snd (@post_login toyScrypt "u2" "hunter2"
         (fst (post_access_requests_approve (Some 1%Z) 1
                 (fst (@post_access_requests toyScrypt [x01; x02] 500
                         example_request_body
                         (@serve toyScrypt [] (@started toyScrypt [x0a; x0b])))))))
  = Some 2%Z.
Proof.
  apply (@request_approve_login toyScrypt [] [x0a; x0b] [x01; x02] 500
           example_request_body (Some 1%Z)).
  - apply (bool_decide_unpack _). vm_compute. exact I.
  - apply (bool_decide_unpack _). vm_compute. exact I.
  - reflexivity.
Defined.

(** ** The session between login and logout *)

Section SessionLife.
Context `{K : Scrypt}.

(** Whenever a login binds a session, [GET /api/user] with that session
    answers exactly what the login answered (200, the user's whole row and
    its role) and writes nothing; after the logout the same route answers
    401. *)
Theorem session_from_login_to_logout username password db res id :
  post_login username password db = (res, Some id) →
  status res = 200%Z ∧
  get_user (Some id) db = (db, res) ∧
  get_user (snd (post_logout (Some id))) db
  = (db, mkResponse 401 (Send "Unauthorized")).
Proof.
  intros Hlogin.
  destruct (post_login_session _ _ _ _ _ Hlogin) as (user & Huser & -> & _ & _).
  unfold post_login in Hlogin.
  destruct (negb (truthy username) || negb (truthy password));
    [discriminate|].
  destruct (LocalStrategy username password db) as [user'| |]; try discriminate.
  injection Hlogin as <- Hid.
  split; [reflexivity|]. split; [|reflexivity].
  assert (user ∈ users db) as Hin.
  { by apply eval_found, head_filter_found in Huser as [? _]. }
  destruct (deserializeUser_of_member db user Hin) as (row & Hrow & Hrowid).
  unfold get_user. rewrite Hrow. unfold getUserWithRole, query.
  by rewrite Hrowid, Hid.
Qed.

End SessionLife.

Lemma session_from_login_to_logout_witness :
  fst (get_user (Some 4%Z) example_db_member) = example_db_member ∧
  status (snd (get_user (Some 4%Z) example_db_member)) = 200%Z.
Proof.
  destruct (@session_from_login_to_logout toyScrypt "u4" "correct horse"
              example_db_member _ 4 eq_refl) as (_ & -> & _).
  split; reflexivity.
Defined.

(** ** Today's attendance record *)

Lemma get_attendance_today_run session now db user :
  deserializeUser session db = Some user →
  get_attendance_today session now db
  = (db, mkResponse 200
           (Json_Attendance
              (head (filter (λ a, Attendance.userId a = User.id user
                                  ∧ Attendance.date a = isoDay now)
                       (attendance db))))).
Proof.
  intros Huser. unfold get_attendance_today, requireAuth, try_catch.
  rewrite Huser. reflexivity.
Qed.

(** [GET /api/attendance/today] answers [null] while the caller has no
    record for the day, and after the caller's clock-in it answers the
    record that the clock-in created. *)
Theorem get_attendance_today_follows_clock_in session now now' db user :
  deserializeUser session db = Some user →
  eval (getTodayAttendance (User.id user) (isoDay now)) db = Return None →
  let db1 := fst (post_attendance_clock_in session now now' db) in
  get_attendance_today session now db
  = (db, mkResponse 200 (Json_Attendance None)) ∧
  get_attendance_today session now db1
  = (db1, mkResponse 200
            (Json_Attendance
               (Some (Attendance.mk (attendance_id_seq db) (User.id user)
                        (getTime now') None (isoDay now))))).
Proof.
  intros Huser Habsent db1.
  destruct (clock_in_from_absent session now now' db user Huser Habsent)
    as (_ & _ & Htoday).
  fold db1 in Htoday. apply eval_found in Htoday.
  assert (deserializeUser session db1 = Some user) as Huser1.
  { rewrite <- Huser. apply deserializeUser_same_users.
    apply post_attendance_clock_in_users. }
  rewrite (get_attendance_today_run session now db user Huser).
  rewrite (get_attendance_today_run session now db1 user Huser1).
  rewrite Htoday. apply eval_missing in Habsent. by rewrite Habsent.
Qed.

Lemma get_attendance_today_follows_clock_in_witness :
  snd (get_attendance_today (Some 2%Z) example_now
         (fst (post_attendance_clock_in (Some 2%Z) example_now example_now
                 example_db)))
  = mkResponse 200
      (Json_Attendance
         (Some (Attendance.mk 1 2 1767607200000 None "2026-01-05"))).
Proof.
  destruct (get_attendance_today_follows_clock_in (Some 2%Z) example_now
              example_now example_db example_staff eq_refl eq_refl) as [_ ->].
  reflexivity.
Defined.

Section TodayIsPrivate.
Context `{K : Scrypt}.

Lemma today_after_other_clock_in session' now1 now1' db other userId date :
  deserializeUser session' db = Some other →
  User.id other ≠ userId →
  let P := λ a, Attendance.userId a = userId ∧ Attendance.date a = date in
  filter P (attendance (fst (post_attendance_clock_in session' now1 now1' db)))
  = filter P (attendance db).
Proof.
  intros Hother Hne P.
  unfold post_attendance_clock_in, requireAuth, try_catch, getTodayAttendance,
    createAttendance.
  rewrite Hother, bind_query. cbn zeta.
  destruct (head _); [reflexivity|].
  unfold bind. cbn [InsertAttendance.userId].
  case_decide; [|reflexivity].
  unfold ret. cbn [fst attendance set_attendance next_attendance_id].
  rewrite filter_app, filter_cons_False, filter_nil, app_nil_r; [done|].
  subst P. cbn. intros [? _]. done.
Qed.

Lemma today_after_other_clock_out session' now1 now1' db other userId date :
  NoDup (Attendance.id <$> attendance db) →
  deserializeUser session' db = Some other →
  User.id other ≠ userId →
  let P := λ a, Attendance.userId a = userId ∧ Attendance.date a = date in
  filter P (attendance (fst (post_attendance_clock_out session' now1 now1' db)))
  = filter P (attendance db).
Proof.
  intros Hnd Hother Hne P.
  unfold post_attendance_clock_out, requireAuth, try_catch, getTodayAttendance.
  rewrite Hother, bind_query. cbn zeta.
  destruct (head _) as [existing|] eqn:Hexisting; [|reflexivity].
  destruct (Attendance.clockOut existing); [reflexivity|].
  unfold bind, updateAttendance, ret.
  cbn [fst attendance set_attendance].
  apply head_filter_found in Hexisting as [Hin [Huid _]].
  unfold update_where.
  assert (∀ a, a ∈ attendance db → P a → Attendance.id a ≠ Attendance.id existing)
    as Hmine.
  { intros a Ha [Hauid _] Hid.
    assert (a = existing) as ->
      by (by apply (NoDup_fmap_elem_inj Attendance.id (attendance db))).
    congruence. }
  clear Hnd Hin. induction (attendance db) as [|a l IH]; [reflexivity|].
  rewrite fmap_cons. rewrite (filter_cons _ a).
  destruct (decide (Attendance.id a = Attendance.id existing)) as [Hid|Hid].
  - assert (¬ P a) as Ha.
    { intros Ha. apply (Hmine a); [by left|exact Ha|exact Hid]. }
    rewrite decide_False by exact Ha.
    rewrite filter_cons_False by (by destruct a).
    apply IH. intros; apply Hmine; [by right|done].
  - rewrite filter_cons.
    rewrite IH by (intros; apply Hmine; [by right|done]). reflexivity.
Qed.

(** After any sequence of requests, what a user is told about today does
    not change when another user clocks in or out. *)
Theorem attendance_today_is_private rs random0 session session' now now1 now1' :
  let db := serve rs (started random0) in
  ∀ user other,
    deserializeUser session db = Some user →
    deserializeUser session' db = Some other →
    User.id other ≠ User.id user →
    snd (get_attendance_today session now
           (fst (post_attendance_clock_in session' now1 now1' db)))
    = snd (get_attendance_today session now db) ∧
    snd (get_attendance_today session now
           (fst (post_attendance_clock_out session' now1 now1' db)))
    = snd (get_attendance_today session now db).
Proof.
  intros db user other Huser Hother Hne.
  pose proof (serve_keys_unique rs (started random0)
                (started_keys_unique random0)) as Hkeys.
  fold db in Hkeys. destruct Hkeys as [_ _ _ [Hnd _] _].
  rewrite (get_attendance_today_run session now db user Huser).
  rewrite (get_attendance_today_run session now _ user).
  2:{ rewrite <- Huser. apply deserializeUser_same_users.
      apply post_attendance_clock_in_users. }
  rewrite (get_attendance_today_run session now
             (fst (post_attendance_clock_out session' now1 now1' db)) user).
  2:{ rewrite <- Huser. apply deserializeUser_same_users.
      apply post_attendance_clock_out_users. }
  cbn [snd].
  rewrite (today_after_other_clock_in session' now1 now1' db other) by done.
  rewrite (today_after_other_clock_out session' now1 now1' db other) by done.
  done.
Qed.

End TodayIsPrivate.

Lemma attendance_today_is_private_witness :
  snd (get_attendance_today (Some 2%Z) example_now
         (fst (post_attendance_clock_in (Some 1%Z) example_now example_now
                 example_db_served)))
  = mkResponse 200 (Json_Attendance None).
Proof.
  destruct (deserializeUser (Some 2%Z) example_db_served) as [user|] eqn:Huser;
    [|vm_compute in Huser; discriminate].
  destruct (deserializeUser (Some 1%Z) example_db_served) as [other|] eqn:Hother;
    [|vm_compute in Hother; discriminate].
  destruct (@attendance_today_is_private toyScrypt example_requests [x0a; x0b]
              (Some 2%Z) (Some 1%Z) example_now example_now example_now
              user other Huser Hother) as [Hsame _].
  - apply deserializeUser_id in Huser, Hother.
    injection Huser as <-. injection Hother as <-. done.
  - fold example_db_served in Hsame. rewrite Hsame.
    rewrite (get_attendance_today_run _ _ _ user Huser). reflexivity.
Defined.


(** ** Who sees which tasks and attendance records *)

Lemma filter_all {A} (P : A → Prop) `{∀ x, Decision (P x)} (l : list A) :
  (∀ x, P x) → filter P l = l.
Proof.
  intros HP. induction l as [|x l IH]; [reflexivity|].
  by rewrite filter_cons_True, IH.
Qed.

(** [GET /api/tasks] writes nothing and answers, by descending creation
    time, each exactly once: to an admin who does not ask for [my=my],
    every task; to everyone else, the tasks assigned to the caller and no
    other. *)
Theorem get_tasks_visibility session my db user :
  deserializeUser session db = Some user →
  ∃ answer,
    get_tasks session my db = (db, reply_json 200 answer) ∧
    TaskWithUsers.task <$> answer
    ≡ₚ filter (λ t, (my ≠ Some "my" ∧ User.isAdmin user = true)
                    ∨ Task.assignedTo t = Some (User.id user)) (tasks db) ∧
    StronglySorted (λ a b, (Task.createdAt (TaskWithUsers.task b)
                            ≤ Task.createdAt (TaskWithUsers.task a))%Z) answer.
Proof.
  intros Huser.
  assert (∀ l, StronglySorted (λ a b, (Task.createdAt (TaskWithUsers.task b)
                 ≤ Task.createdAt (TaskWithUsers.task a))%Z)
               (with_users db <$> order_by Task_desc_createdAt l)) as Hsorted.
  { intros l. apply StronglySorted_fmap_key. cbn.
    eapply StronglySorted_weaken;
      [|apply (order_by_sorted Task_desc_createdAt)].
    - intros a b Hab. by apply Z.leb_le.
    - intros a b. unfold Task_desc_createdAt. rewrite !Z.leb_le. lia.
    - intros a b c. unfold Task_desc_createdAt. rewrite !Z.leb_le. lia. }
  assert (∀ l, TaskWithUsers.task <$> (with_users db <$> order_by Task_desc_createdAt l)
               ≡ₚ l) as Hperm.
  { intros l. rewrite fmap_cancel by done. apply order_by_Permutation. }
  unfold get_tasks, requireAuth_in, try_catch_in. cbn [id]. rewrite Huser.
  destruct (decide (my = Some "my")) as [Hmy|Hmy];
    [|destruct (User.isAdmin user) eqn:Hadmin].
  - eexists. split; [reflexivity|]. split; [|apply Hsorted].
    rewrite Hperm. erewrite list_filter_iff; [reflexivity|]. intros t.
    intuition congruence.
  - eexists. split; [reflexivity|]. split; [|apply Hsorted].
    rewrite Hperm, filter_all; [reflexivity|]. intros t. auto.
  - eexists. split; [reflexivity|]. split; [|apply Hsorted].
    rewrite Hperm. erewrite list_filter_iff; [reflexivity|]. intros t.
    intuition congruence.
Qed.

Lemma get_tasks_visibility_witness :
  ∃ answer,
    get_tasks (Some 2%Z) None example_db = (example_db, reply_json 200 answer) ∧
    TaskWithUsers.task <$> answer
    ≡ₚ filter (λ t, (None ≠ Some "my" ∧ User.isAdmin example_staff = true)
                    ∨ Task.assignedTo t = Some (User.id example_staff))
         (tasks example_db) ∧
    StronglySorted (λ a b, (Task.createdAt (TaskWithUsers.task b)
                            ≤ Task.createdAt (TaskWithUsers.task a))%Z) answer.
Proof. exact (get_tasks_visibility (Some 2%Z) None example_db example_staff eq_refl). Defined.

(** [GET /api/attendance] writes nothing and answers, by descending
    clock-in time, each exactly once: to an admin every record, to anyone
    else the caller's own records and no other. *)
Theorem get_attendance_visibility session db user :
  deserializeUser session db = Some user →
  ∃ answer,
    get_attendance session db = (db, reply_json 200 answer) ∧
    AttendanceWithUser.record <$> answer
    ≡ₚ filter (λ a, User.isAdmin user = true
                    ∨ Attendance.userId a = User.id user) (attendance db) ∧
    StronglySorted (λ a b, (Attendance.clockIn (AttendanceWithUser.record b)
                            ≤ Attendance.clockIn (AttendanceWithUser.record a))%Z)
      answer.
Proof.
  intros Huser.
  assert (∀ l, StronglySorted
                 (λ a b, (Attendance.clockIn (AttendanceWithUser.record b)
                          ≤ Attendance.clockIn (AttendanceWithUser.record a))%Z)
               (with_user db <$> order_by Attendance_desc_clockIn l)) as Hsorted.
  { intros l. apply StronglySorted_fmap_key. cbn.
    eapply StronglySorted_weaken;
      [|apply (order_by_sorted Attendance_desc_clockIn)].
    - intros a b Hab. by apply Z.leb_le.
    - intros a b. unfold Attendance_desc_clockIn. rewrite !Z.leb_le. lia.
    - intros a b c. unfold Attendance_desc_clockIn. rewrite !Z.leb_le. lia. }
  assert (∀ l, AttendanceWithUser.record
                 <$> (with_user db <$> order_by Attendance_desc_clockIn l)
               ≡ₚ l) as Hperm.
  { intros l. rewrite fmap_cancel by done. apply order_by_Permutation. }
  unfold get_attendance, requireAuth_in, try_catch_in. cbn [id]. rewrite Huser.
  destruct (User.isAdmin user) eqn:Hadmin.
  - eexists. split; [reflexivity|]. split; [|apply Hsorted].
    rewrite Hperm, filter_all; [reflexivity|]. intros a. auto.
  - eexists. split; [reflexivity|]. split; [|apply Hsorted].
    rewrite Hperm. erewrite list_filter_iff; [reflexivity|]. intros a.
    intuition congruence.
Qed.

Lemma get_attendance_visibility_witness :
  ∃ answer,
    get_attendance (Some 2%Z) example_db_clocked_out
    = (example_db_clocked_out, reply_json 200 answer) ∧
    AttendanceWithUser.record <$> answer
    ≡ₚ filter (λ a, User.isAdmin example_staff = true
                    ∨ Attendance.userId a = User.id example_staff)
         (attendance example_db_clocked_out) ∧
    StronglySorted (λ a b, (Attendance.clockIn (AttendanceWithUser.record b)
                            ≤ Attendance.clockIn (AttendanceWithUser.record a))%Z)
      answer.
Proof.
  exact (get_attendance_visibility (Some 2%Z) example_db_clocked_out
           example_staff eq_refl).
Defined.


(** ** Integrity of the store is kept by every request *)

Ltac run_call :=
  unfold requireAuth_in, requireAdmin_in, try_catch_in, bind_in, ret_in,
    in_database;
  repeat case_match; simplify_eq/=.

Lemma ids_below_filter {A} (id : A → Z) (P : A → Prop) `{∀ x, Decision (P x)}
    (rows : list A) (seq : Z) :
  ids_below id rows seq → ids_below id (filter P rows) seq.
Proof.
  intros [Hnd Hlt]. split.
  - eapply sublist_NoDup; [exact Hnd|]. apply fmap_sublist, sublist_filter.
  - rewrite Forall_forall in *. intros r [_ Hr]%list_elem_of_filter.
    by apply Hlt.
Qed.

Lemma NoDup_fmap_filter {A B} (f : A → B) (P : A → Prop)
    `{∀ x, Decision (P x)} (rows : list A) :
  NoDup (f <$> rows) → NoDup (f <$> filter P rows).
Proof.
  intros Hnd. eapply sublist_NoDup; [exact Hnd|].
  apply fmap_sublist, sublist_filter.
Qed.

Lemma Forall_update_where {A} (Q : A → Prop) (P : A → Prop)
    `{∀ x, Decision (P x)} (set : A → A) (rows : list A) :
  (∀ r, r ∈ rows → P r → Q r → Q (set r)) →
  Forall Q rows → Forall Q (update_where P set rows).
Proof.
  intros Hset HQ. unfold update_where. apply Forall_fmap, Forall_forall.
  intros r Hr. unfold compose. rewrite Forall_forall in HQ.
  case_decide; auto.
Qed.

Lemma returning_nil_update_where {A} (P : A → Prop) `{∀ x, Decision (P x)}
    (set : A → A) (rows : list A) :
  returning P set rows = [] → update_where P set rows = rows.
Proof.
  unfold returning, update_where. intros Hnil%fmap_nil_inv.
  induction rows as [|r rows IH]; [reflexivity|].
  rewrite filter_cons in Hnil. cbn. case_decide; [discriminate|].
  f_equal. by apply IH.
Qed.

Section Integrity.
Context `{K : Scrypt}.

Ltac unfold_handlers :=
  unfold post_access_requests, post_access_requests_approve,
    post_access_requests_reject, patch_users_role, patch_user_profile,
    post_user_change_password, delete_roles, delete_messages, patch_tasks,
    post_attendance_clock_in, post_attendance_clock_out,
    getUser, getUserByUsername, getUserWithRole, createUser, updateUser,
    deleteRole, assignRoleToUser, getAccessRequest, getAccessRequestByUsername,
    createAccessRequest, updateAccessRequestStatus, getMessage, deleteMessage,
    getTask, updateTask, getTodayAttendance, createAttendance, updateAttendance.

Lemma handle_user_ids_grow r db i :
  i ∈ user_ids db → i ∈ user_ids (fst (handle r db)).
Proof.
  unfold user_ids.
  intros Hi. destruct r; cbn [handle]; unfold_handlers; run_route;
    try done;
    try (by rewrite update_where_key);
    try (rewrite fmap_app, elem_of_app; by left).
Qed.

Lemma handle_role_ids r db seq :
  ids_below Role.id (roles db) seq →
  ids_below Role.id (roles (fst (handle r db))) seq.
Proof.
  intros Hok. destruct r; cbn [handle]; unfold_handlers; run_route;
    try done; by apply ids_below_filter.
Qed.

Lemma handle_role_names r db :
  NoDup (Role.name <$> roles db) →
  NoDup (Role.name <$> roles (fst (handle r db))).
Proof.
  intros Hok. destruct r; cbn [handle]; unfold_handlers; run_route;
    try done; by apply NoDup_fmap_filter.
Qed.

Lemma handle_message_ids r db seq :
  ids_below Message.id (messages db) seq →
  ids_below Message.id (messages (fst (handle r db))) seq.
Proof.
  intros Hok. destruct r; cbn [handle]; unfold_handlers; run_route;
    try done; by apply ids_below_update.
Qed.

Lemma handle_message_senders r db :
  Forall (λ m, Message.senderId m ∈ user_ids db) (messages db) →
  Forall (λ m, Message.senderId m ∈ user_ids db) (messages (fst (handle r db))).
Proof.
  intros Hok. destruct r; cbn [handle]; unfold_handlers; run_route;
    try done; by apply Forall_update_where.
Qed.

Lemma handle_task_ids r db seq :
  ids_below Task.id (tasks db) seq →
  ids_below Task.id (tasks (fst (handle r db))) seq.
Proof.
  intros Hok. destruct r; cbn [handle]; unfold_handlers; run_route;
    try done; by apply ids_below_update.
Qed.

Lemma handle_task_users r db :
  Forall (λ t, Task.createdBy t ∈ user_ids db
               ∧ ∀ u, Task.assignedTo t = Some u → u ∈ user_ids db) (tasks db) →
  Forall (λ t, Task.createdBy t ∈ user_ids db
               ∧ ∀ u, Task.assignedTo t = Some u → u ∈ user_ids db)
    (tasks (fst (handle r db))).
Proof.
  intros Hok. destruct r; cbn [handle]; unfold_handlers; run_route;
    try done.
  all: match goal with H : _ ∨ TaskPatch_references_ok _ _ |- _ =>
    pose proof H as Hrefs end.
  all: clear -Hok Hrefs; destruct Hrefs as [Hnil|[Hcreator Hassignee]];
    [by rewrite returning_nil_update_where|].
  all: apply Forall_update_where; [|exact Hok].
  all: intros row _ _ [Ht1 Ht2]; unfold TaskPatch_apply; cbn; split.
  all: try (destruct (TaskPatch.createdBy _); [exact Hcreator|exact Ht1]).
  all: destruct (TaskPatch.assignedTo _) as [[a|]|]; cbn;
    [by intros u [= <-]|by intros u [=]|exact Ht2].
Qed.

Lemma handle_attendance_users r db :
  Forall (λ a, Attendance.userId a ∈ user_ids db) (attendance db) →
  Forall (λ a, Attendance.userId a ∈ user_ids db)
    (attendance (fst (handle r db))).
Proof.
  intros Hok. destruct r; cbn [handle]; unfold_handlers; run_route;
    try done;
    try (by apply Forall_update_where).
  all: apply Forall_app; split; [exact Hok|]; by repeat constructor.
Qed.

End Integrity.

Lemma for_of_notify {A} (wanted : A → bool) (notice : A → Notice)
    (xs : list A) (s : Store) :
  for_of xs (λ x, if wanted x
                  then λ s, (notify (notice x) s, Return tt)
                  else ret_in tt) s
  = (mkStore (database s) (workReports s) (roles_id_seq s) (messages_id_seq s)
       (tasks_id_seq s) (work_reports_id_seq s)
       (notices s ++ (notice <$> filter (λ x, wanted x = true) xs)),
     Return tt).
Proof.
  revert s. induction xs as [|x xs IH]; intros s.
  - cbn. rewrite app_nil_r. by destruct s.
  - cbn [for_of]. unfold bind_in. rewrite filter_cons.
    destruct (wanted x) eqn:Hx; unfold ret_in.
    + rewrite IH. rewrite decide_True by done. cbn. by rewrite <- app_assoc.
    + rewrite IH. by rewrite decide_False by done.
Qed.

Lemma integrity_notices s ns :
  integrity s →
  integrity (mkStore (database s) (workReports s) (roles_id_seq s)
               (messages_id_seq s) (tasks_id_seq s) (work_reports_id_seq s) ns).
Proof. by intros []. Qed.

Lemma deserializeUser_user_ids session db user :
  deserializeUser session db = Some user → User.id user ∈ user_ids db.
Proof.
  intros Huser%deserializeUser_elem_of. unfold user_ids.
  apply list_elem_of_fmap. eauto.
Qed.

(** [POST /api/reports], run: the caller exists, so the insert cannot
    fail. *)
Lemma post_reports_run session now title content s user :
  deserializeUser session (database s) = Some user →
  let report :=
    WorkReport.mk (work_reports_id_seq s) (User.id user) title content
      "pending" now in
  post_reports session now title content s
  = (mkStore (database s) (workReports s ++ [report]) (roles_id_seq s)
       (messages_id_seq s) (tasks_id_seq s) (work_reports_id_seq s + 1)
       (notices s
        ++ ((λ admin, ReportSubmittedEmail (User.email admin)
                        (or_else (User.username user) (Some (User.name user)))
                        title content)
              <$> filter (λ admin, truthy (User.email admin) = true)
                    (filter (λ u, User.isAdmin u = true) (users (database s))))),
     reply_json 201 report).
Proof.
  intros Huser report. pose proof (deserializeUser_user_ids _ _ _ Huser) as Hid.
  unfold post_reports, requireAuth_in, try_catch_in. rewrite Huser.
  unfold bind_in at 1. unfold createWorkReport.
  cbn [InsertWorkReport.userId]. rewrite decide_True by exact Hid.
  unfold bind_in at 1. unfold in_database, getAdmins, query.
  cbn [set_workReports next_work_reports_id set_database database workReports
       roles_id_seq messages_id_seq tasks_id_seq work_reports_id_seq notices].
  unfold bind_in. rewrite for_of_notify. reflexivity.
Qed.

Section Performed.
Context `{K : Scrypt}.

Lemma on_database_integrity r s :
  integrity s → integrity (set_database (λ db, fst (handle r db)) s).
Proof.
  intros [Hkeys Hrid Hrname Hmid Htid Hwid Hms Hts Has Hws].
  assert (∀ i, i ∈ user_ids (database s)
               → i ∈ user_ids (fst (handle r (database s)))) as Hgrow.
  { intros i. apply handle_user_ids_grow. }
  constructor; cbn.
  - by apply handle_keys_unique.
  - by apply handle_role_ids.
  - by apply handle_role_names.
  - by apply handle_message_ids.
  - by apply handle_task_ids.
  - exact Hwid.
  - eapply Forall_impl; [by apply handle_message_senders|]. cbn. auto.
  - eapply Forall_impl; [by apply handle_task_users|]. cbn.
    intros t [Ht1 Ht2]. split; auto.
  - eapply Forall_impl; [by apply handle_attendance_users|]. cbn. auto.
  - eapply Forall_impl; [exact Hws|]. cbn. auto.
Qed.

Ltac table_goal :=
  first [ done
        | by apply ids_below_bump
        | by apply ids_below_insert
        | (rewrite fmap_app; by apply NoDup_snoc_fresh)
        | idtac ].

Ltac split_integrity H :=
  destruct H as [Hkeys Hrid Hrname Hmid Htid Hwid Hms Hts Has Hws];
  unfold user_ids in *; constructor; cbn;
  [by destruct Hkeys|table_goal..].

Lemma post_roles_integrity session name color s :
  integrity s → integrity (fst (post_roles session name color s)).
Proof.
  intros Hok. unfold post_roles, createRole. run_call; try done.
  all: split_integrity Hok.
Qed.

Lemma post_messages_integrity session now content messageType file s :
  integrity s →
  integrity (fst (post_messages session now content messageType file s)).
Proof.
  intros Hok. unfold post_messages, createMessage. run_call; try done.
  all: split_integrity Hok.
  all: try (apply Forall_app; split; [exact Hms|]; by repeat constructor).
Qed.

Lemma post_tasks_integrity session Date_parse now body s :
  integrity s →
  integrity (fst (post_tasks session Date_parse now body s)).
Proof.
  intros Hok. unfold post_tasks, createTask, getUser, query.
  cbn [InsertTask.dueDate InsertTask.assignedTo].
  run_call; try done.
  all: split_integrity Hok.
  all: apply Forall_app; split; [exact Hts|]; repeat constructor; cbn;
    match goal with H : InsertTask_references_ok _ _ |- _ =>
      destruct H as [Hcreator Hassignee] end; cbn in *; try done.
  all: try (intros u [= <-]; by rewrite ?H1 in Hassignee).
Qed.

Lemma post_reports_integrity session now title content s :
  integrity s → integrity (fst (post_reports session now title content s)).
Proof.
  intros Hok.
  destruct (deserializeUser session (database s)) as [user|] eqn:Huser.
  - rewrite (post_reports_run _ _ _ _ _ user Huser). cbn [fst].
    pose proof (deserializeUser_user_ids _ _ _ Huser) as Hid.
    split_integrity Hok.
    apply Forall_app. split; [exact Hws|]. by repeat constructor.
  - unfold post_reports, requireAuth_in. by rewrite Huser.
Qed.

Lemma patch_reports_integrity session reportId status s :
  integrity s → integrity (fst (patch_reports session reportId status s)).
Proof.
  intros Hok. unfold patch_reports, updateWorkReportStatus.
  run_call; try done.
  all: split_integrity Hok.
  - by apply ids_below_update.
  - by apply Forall_update_where.
Qed.

Lemma perform_integrity c s : integrity s → integrity (perform c s).
Proof.
  destruct c; cbn [perform].
  - apply on_database_integrity.
  - apply post_roles_integrity.
  - apply post_messages_integrity.
  - apply post_tasks_integrity.
  - apply post_reports_integrity.
  - apply patch_reports_integrity.
Qed.

Lemma booted_integrity random : integrity (booted random).
Proof.
  constructor; cbn; try apply started_keys_unique.
  all: unfold started, initializeAdmin, getUserByUsername, createUser;
    cbn; repeat constructor.
Qed.

Lemma run_integrity cs s : integrity s → integrity (run cs s).
Proof.
  revert s. induction cs as [|c cs IH]; intros s Hok; [exact Hok|].
  cbn. apply IH. by apply perform_integrity.
Qed.

(** After any sequence of requests the identity columns and the role names
    are keys, and every sender of a message, creator and assignee of a task,
    owner of an attendance record and author of a work report is a row of
    [users]. *)
Theorem served_store_integrity cs random :
  let s := run cs (booted random) in
  let db := database s in
  let exists_user (id : Z) := ∃ u, u ∈ users db ∧ User.id u = id in
  NoDup (Role.id <$> roles db) ∧
  NoDup (Role.name <$> roles db) ∧
  NoDup (Message.id <$> messages db) ∧
  NoDup (Task.id <$> tasks db) ∧
  NoDup (WorkReport.id <$> workReports s) ∧
  (∀ m, m ∈ messages db → exists_user (Message.senderId m)) ∧
  (∀ t, t ∈ tasks db →
     exists_user (Task.createdBy t) ∧
     ∀ a, Task.assignedTo t = Some a → exists_user a) ∧
  (∀ a, a ∈ attendance db → exists_user (Attendance.userId a)) ∧
  (∀ r, r ∈ workReports s → exists_user (WorkReport.userId r)).
Proof.
  intros s db exists_user.
  destruct (run_integrity cs (booted random) (booted_integrity random))
    as [_ [Hrid _] Hrname [Hmid _] [Htid _] [Hwid _] Hms Hts Has Hws].
  fold s in Hrid, Hrname, Hmid, Htid, Hwid, Hms, Hts, Has, Hws.
  fold db in Hrid, Hrname, Hmid, Htid, Hms, Hts, Has, Hws.
  assert (∀ i, i ∈ user_ids db → exists_user i) as Hex.
  { intros i (u & -> & Hu)%list_elem_of_fmap. by exists u. }
  pose proof (proj1 (Forall_forall _ _) Hms) as Hms'.
  pose proof (proj1 (Forall_forall _ _) Hts) as Hts'.
  pose proof (proj1 (Forall_forall _ _) Has) as Has'.
  pose proof (proj1 (Forall_forall _ _) Hws) as Hws'.
  clear Hms Hts Has Hws. cbn beta in *.
  repeat split; try done.
  - intros m Hm. by apply Hex, Hms'.
  - apply Hex. by apply Hts'.
  - intros a Ha. apply Hex. by apply (Hts' t).
  - intros a Ha. by apply Hex, Has'.
  - intros r Hr. by apply Hex, Hws'.
Qed.

End Performed.


(** ** Creating tasks *)

Lemma post_tasks_created session Date_parse now data s admin :
  deserializeUser session (database s) = Some admin →
  User.isAdmin admin = true →
  (∀ d, or_null (TaskBody.dueDate data) = Some d → is_Some (Date_parse d)) →
  (∀ a, id_or_null (TaskBody.assignedTo data) = Some a
        → a ∈ user_ids (database s)) →
  let task :=
    Task.mk (tasks_id_seq s) (TaskBody.title data)
      (or_null (TaskBody.description data))
      (or_else "medium" (TaskBody.priority data)) "pending"
      (id_or_null (TaskBody.assignedTo data)) (User.id admin)
      (or_null (TaskBody.dueDate data) ≫= Date_parse) now in
  let mail :=
    match id_or_null (TaskBody.assignedTo data)
          ≫= (λ a, head (filter (λ u, User.id u = a) (users (database s)))) with
    | Some u => if truthy (User.email u) then [TaskAssigned_mail data u] else []
    | None => []
    end in
  post_tasks session Date_parse now data s
  = (mkStore (set_tasks (λ rows, rows ++ [task]) (database s)) (workReports s)
       (roles_id_seq s) (messages_id_seq s) (tasks_id_seq s + 1)
       (work_reports_id_seq s) (notices s ++ mail),
     reply_json 201 task).
Proof.
  intros Huser Hadmin Hdate Hassignee task mail.
  pose proof (deserializeUser_user_ids _ _ _ Huser) as Hcreator.
  unfold post_tasks, requireAdmin_in, try_catch_in. rewrite Huser, Hadmin.
  unfold bind_in at 1. unfold createTask. cbn [InsertTask.dueDate].
  assert (Date_parse <$> or_null (TaskBody.dueDate data)
          = Some <$> (or_null (TaskBody.dueDate data) ≫= Date_parse)
          ∧ Date_parse <$> or_null (TaskBody.dueDate data) ≠ Some None)
    as [Hdue Hvalid].
  { destruct (or_null (TaskBody.dueDate data)) as [d|]; [|done].
    destruct (Hdate d eq_refl) as [t Ht]. cbn. by rewrite Ht. }
  destruct (Date_parse <$> or_null (TaskBody.dueDate data)) as [[t|]|] eqn:Hd;
    [| done |].
  all: rewrite decide_True
    by (split; [exact Hcreator|]; cbn;
        destruct (id_or_null (TaskBody.assignedTo data)); [by apply Hassignee|done]).
  all: assert (mjoin (Date_parse <$> or_null (TaskBody.dueDate data))
               = or_null (TaskBody.dueDate data) ≫= Date_parse) as Hjoin
    by (by destruct (or_null (TaskBody.dueDate data))).
  all: rewrite Hd in Hjoin; rewrite Hjoin.
  all: cbn [InsertTask.title InsertTask.description InsertTask.priority
            InsertTask.status InsertTask.assignedTo InsertTask.createdBy].
  all: fold task; subst mail.
  all: destruct (id_or_null (TaskBody.assignedTo data)) as [a|] eqn:Ha;
    cbn [mbind option_bind].
  all: unfold bind_in, in_database, getUser, query, ret_in;
    cbn [database set_database next_tasks_id set_tasks users workReports
         roles_id_seq messages_id_seq tasks_id_seq work_reports_id_seq notices].
  all: try (destruct (head (filter (λ u, User.id u = a) (users (database s))))
              as [u|]; [destruct (truthy (User.email u))|]).
  all: unfold notify, TaskAssigned_mail; cbn; rewrite ?app_nil_r; reflexivity.
Qed.

Section TaskLife.
Context `{K : Scrypt}.

Ltac unfold_handlers :=
  unfold post_access_requests, post_access_requests_approve,
    post_access_requests_reject, patch_users_role, patch_user_profile,
    post_user_change_password, delete_roles, delete_messages, patch_tasks,
    post_attendance_clock_in, post_attendance_clock_out,
    getUser, getUserByUsername, getUserWithRole, createUser, updateUser,
    deleteRole, assignRoleToUser, getAccessRequest, getAccessRequestByUsername,
    createAccessRequest, updateAccessRequestStatus, getMessage, deleteMessage,
    getTask, updateTask, getTodayAttendance, createAttendance, updateAttendance.

Lemma handle_user_ids_positive r db :
  Forall (λ u, (0 < User.id u)%Z) (users db) ∧ (0 < users_id_seq db)%Z →
  Forall (λ u, (0 < User.id u)%Z) (users (fst (handle r db)))
  ∧ (0 < users_id_seq (fst (handle r db)))%Z.
Proof.
  intros [Hpos Hseq]. destruct r; cbn [handle]; unfold_handlers; run_route;
    try done;
    try (split; [|done]; apply Forall_update_where; [|exact Hpos]; by intros []);
    try (split; [exact Hpos|lia]).
  all: split; [|lia]; apply Forall_app; split; [exact Hpos|];
    by repeat constructor.
Qed.

Lemma perform_users c s :
  match c with
  | on_database _ => True
  | _ => users (database (perform c s)) = users (database s) ∧
         users_id_seq (database (perform c s)) = users_id_seq (database s)
  end.
Proof.
  destruct c; cbn [perform]; [done|..].
  - unfold post_roles, createRole. by run_call.
  - unfold post_messages, createMessage. by run_call.
  - unfold post_tasks, createTask, getUser, query. by run_call.
  - destruct (deserializeUser session (database s)) as [user|] eqn:Huser.
    + by rewrite (post_reports_run _ _ _ _ _ user Huser).
    + unfold post_reports, requireAuth_in. by rewrite Huser.
  - unfold patch_reports, updateWorkReportStatus. by run_call.
Qed.

Lemma run_user_ids_positive cs random :
  Forall (λ u, (0 < User.id u)%Z) (users (database (run cs (booted random)))).
Proof.
  enough (∀ s, Forall (λ u, (0 < User.id u)%Z) (users (database s))
               ∧ (0 < users_id_seq (database s))%Z →
               Forall (λ u, (0 < User.id u)%Z) (users (database (run cs s)))
               ∧ (0 < users_id_seq (database (run cs s)))%Z) as Hrun.
  { apply Hrun. cbn. split; [by repeat constructor|done]. }
  induction cs as [|c cs IH]; intros s Hs; [exact Hs|].
  cbn. apply IH. pose proof (perform_users c s) as Hc.
  destruct c; [by apply handle_user_ids_positive|..].
  all: by destruct Hc as [-> ->].
Qed.

(** Whatever [POST /api/tasks] answers, it writes to no table but [tasks].
    It answers 201 only to an admin and exactly when it adds a task: one
    pending task with the next id, created by the caller, and at most one
    mail, to the task's assignee. On any other answer (403 or 500) no task
    and no mail is written. *)
Theorem post_tasks_effect session Date_parse now data s :
  let s' := fst (post_tasks session Date_parse now data s) in
  let reply := snd (post_tasks session Date_parse now data s) in
  set_tasks (λ _, tasks (database s)) (database s') = database s ∧
  workReports s' = workReports s ∧
  match reply with
  | reply_json code task =>
      code = 201%Z ∧
      admin_session session (database s) = true ∧
      tasks (database s') = tasks (database s) ++ [task] ∧
      Task.id task = tasks_id_seq s ∧
      Task.status task = "pending" ∧
      session = Some (Task.createdBy task) ∧
      (notices s' = notices s ∨
       ∃ u, u ∈ users (database s) ∧
            Task.assignedTo task = Some (User.id u) ∧
            notices s' = notices s ++ [TaskAssigned_mail data u])
  | reply_send code _ =>
      (code = 403%Z ∨ code = 500%Z) ∧
      tasks (database s') = tasks (database s) ∧
      notices s' = notices s
  end.
Proof.
  intros s' reply. subst s' reply.
  unfold post_tasks, admin_session, requireAdmin_in.
  destruct (deserializeUser session (database s)) as [admin|] eqn:Huser;
    [|by destruct s as [[]]; cbn; auto].
  destruct (User.isAdmin admin) eqn:Hadmin;
    [|by destruct s as [[]]; cbn; auto].
  apply deserializeUser_id in Huser as Hsession.
  unfold try_catch_in, bind_in, createTask, in_database, getUser, query, ret_in.
  cbn [InsertTask.dueDate InsertTask.title InsertTask.description
       InsertTask.priority InsertTask.status InsertTask.assignedTo
       InsertTask.createdBy].
  destruct (Date_parse <$> or_null (TaskBody.dueDate data)) as [[t|]|];
    [| by destruct s as [[]]; cbn; auto |].
  all: case_decide as Hrefs; [|by destruct s as [[]]; cbn; auto].
  all: destruct (id_or_null (TaskBody.assignedTo data)) as [a|] eqn:Ha.
  all: cbn [database set_database next_tasks_id set_tasks users workReports
            roles_id_seq messages_id_seq tasks_id_seq work_reports_id_seq
            notices fst snd].
  all: try (destruct (head (filter (λ u, User.id u = a) (users (database s))))
              as [u|] eqn:Hu; [destruct (truthy (User.email u))|]).
  all: cbn; repeat (split; [by destruct s as [[]]|]); auto.
  all: right; exists u; apply head_filter_found in Hu as [Hu <-]; auto.
Qed.

Lemma get_tasks_run session my db user :
  deserializeUser session db = Some user →
  get_tasks session my db
  = (db, reply_json 200
           (with_users db <$>
              order_by Task_desc_createdAt
                (filter (λ t, (my ≠ Some "my" ∧ User.isAdmin user = true)
                              ∨ Task.assignedTo t = Some (User.id user))
                   (tasks db)))).
Proof.
  intros Huser. unfold get_tasks, requireAuth_in, try_catch_in. cbn [id].
  rewrite Huser.
  destruct (decide (my = Some "my")) as [Hmy|Hmy];
    [|destruct (User.isAdmin user) eqn:Hadmin].
  - unfold getTasksByUser, bind, query, ret. do 4 f_equal.
    apply list_filter_iff. intros t. intuition congruence.
  - unfold getAllTasks, bind, query, ret. do 4 f_equal.
    symmetry. apply filter_all. auto.
  - unfold getTasksByUser, bind, query, ret. do 4 f_equal.
    apply list_filter_iff. intros t. intuition congruence.
Qed.

Lemma getTask_created (task : Task.t) db :
  Forall (λ t, (Task.id t < Task.id task)%Z) (tasks db) →
  eval (getTask (Task.id task)) (set_tasks (λ rows, rows ++ [task]) db)
  = Return (Some task).
Proof.
  intros Hbelow. unfold getTask, eval, query. cbn [snd tasks set_tasks].
  f_equal. rewrite filter_app.
  assert (filter (λ t, Task.id t = Task.id task) (tasks db) = []) as ->.
  { apply (proj1 (head_None _)), head_filter_missing.
    rewrite Forall_forall in Hbelow. intros t Ht%Hbelow. lia. }
  by rewrite filter_cons_True.
Qed.

(** After any sequence of requests: a task that an admin creates for a
    user is from then on listed to that user by [GET /api/tasks], with or
    without [my=my]; any other user who is no admin is not shown it and is
    answered 403 when patching it; and the assignee's [{ status }] patch is
    answered 200 with the created task under the new status, which is what
    the table then holds. *)
Theorem task_from_creation_to_completion cs random session session'
    Date_parse now data admin assignee :
  let s := run cs (booted random) in
  deserializeUser session (database s) = Some admin →
  User.isAdmin admin = true →
  deserializeUser session' (database s) = Some assignee →
  TaskBody.assignedTo data = Some (User.id assignee) →
  (∀ d, or_null (TaskBody.dueDate data) = Some d → is_Some (Date_parse d)) →
  ∃ task,
    let db1 := database (fst (post_tasks session Date_parse now data s)) in
    snd (post_tasks session Date_parse now data s) = reply_json 201 task ∧
    Task.assignedTo task = Some (User.id assignee) ∧
    (∀ my, ∃ answer,
       get_tasks session' my db1 = (db1, reply_json 200 answer) ∧
       task ∈ TaskWithUsers.task <$> answer) ∧
    (∀ session'' other my,
       deserializeUser session'' db1 = Some other →
       User.isAdmin other = false →
       User.id other ≠ User.id assignee →
       (∃ answer,
          get_tasks session'' my db1 = (db1, reply_json 200 answer) ∧
          task ∉ TaskWithUsers.task <$> answer) ∧
       ∀ patch,
         patch_tasks session'' (Task.id task) patch db1
         = (db1, mkResponse 403 (Send "Forbidden"))) ∧
    ∀ st,
      let patched := TaskPatch_apply (status_only st) task in
      snd (patch_tasks session' (Task.id task) (status_only st) db1)
      = mkResponse 200 (Json_Task (Some patched)) ∧
      eval (getTask (Task.id task))
        (fst (patch_tasks session' (Task.id task) (status_only st) db1))
      = Return (Some patched).
Proof.
  intros s Hadmin Hisadmin Hassignee Hto Hdate.
  pose proof (run_integrity cs (booted random) (booted_integrity random))
    as [_ _ _ _ [_ Hbelow] _ _ _ _ _].
  fold s in Hbelow.
  pose proof (run_user_ids_positive cs random) as Hpos. fold s in Hpos.
  pose proof (deserializeUser_elem_of _ _ _ Hassignee) as Hin.
  assert (id_or_null (TaskBody.assignedTo data) = Some (User.id assignee))
    as Hid.
  { rewrite Hto. cbn. rewrite Forall_forall in Hpos.
    specialize (Hpos _ Hin). rewrite decide_False by lia. reflexivity. }
  rewrite (post_tasks_created session Date_parse now data s admin
             Hadmin Hisadmin Hdate).
  2:{ rewrite Hid. intros a [= <-]. by eapply deserializeUser_user_ids. }
  rewrite Hid. cbn [fst snd database].
  set (task := Task.mk _ _ _ _ _ _ _ _ _).
  set (db1 := set_tasks _ (database s)).
  assert (deserializeUser session' db1 = Some assignee) as Hassignee1.
  { by rewrite <- Hassignee. }
  assert (eval (getTask (Task.id task)) db1 = Return (Some task)) as Htask.
  { apply getTask_created. exact Hbelow. }
  exists task. split; [reflexivity|]. split; [reflexivity|].
  split; [|split].
  - intros my. eexists. split; [by apply get_tasks_run|].
    rewrite fmap_cancel by done. rewrite order_by_Permutation.
    apply list_elem_of_filter. split; [by right|].
    cbn. apply elem_of_app. right. by left.
  - intros session'' other my Hother Hplain Hne. split.
    + eexists. split; [by apply get_tasks_run|].
      rewrite fmap_cancel by done. rewrite order_by_Permutation.
      intros [[[_ Habs]|Habs] _]%list_elem_of_filter.
      * congruence.
      * cbn in Habs. congruence.
    + intros patch. eapply patch_tasks_forbidden; [exact Hother|exact Htask| |exact Hplain].
      cbn. congruence.
  - intros st.
    rewrite (patch_tasks_allowed session' (Task.id task) (status_only st) db1
               assignee task Hassignee1 Htask);
      [|by left|reflexivity|by intros d|by split].
    split; [reflexivity|]. by apply getTask_after_update.
Qed.

End TaskLife.

Lemma task_from_creation_to_completion_witness :
  ∃ task,
    snd (@post_tasks (Some 1%Z) (λ _, None) 700 example_task_body example_store)
    = reply_json 201 task ∧
    Task.assignedTo task = Some 2%Z.
Proof.
  edestruct (@task_from_creation_to_completion toyScrypt
               (on_database <$> example_requests) [x0a; x0b] (Some 1%Z)
               (Some 2%Z) (λ _, None) 700 example_task_body)
    as (task & Hreply & Hto & _).
  - vm_compute. reflexivity.
  - reflexivity.
  - vm_compute. reflexivity.
  - reflexivity.
  - intros d [=].
  - exists task. split; [exact Hreply|exact Hto].
Defined.


(** ** Creating, assigning and deleting a role *)

Lemma head_filter_update_where_other {A} (P Q : A → Prop)
    `{∀ x, Decision (P x)} `{∀ x, Decision (Q x)} (set : A → A)
    (rows : list A) :
  (∀ r, P (set r) ↔ P r) →
  head (filter P (update_where Q set rows))
  = (λ r, if decide (Q r) then set r else r) <$> head (filter P rows).
Proof.
  intros Hset. unfold update_where.
  induction rows as [|r rows IH]; [reflexivity|].
  rewrite fmap_cons, (filter_cons _ r), filter_cons.
  destruct (decide (P r)) as [Hr|Hr].
  - rewrite decide_True; [reflexivity|]. case_decide; [by apply Hset|done].
  - rewrite decide_False; [exact IH|]. case_decide; [by rewrite Hset|done].
Qed.

Lemma head_filter_created {A} (id : A → Z) (rows : list A) (r : A) :
  Forall (λ x, (id x < id r)%Z) rows →
  head (filter (λ x, id x = id r) (rows ++ [r])) = Some r.
Proof.
  intros Hbelow. rewrite filter_app.
  assert (filter (λ x, id x = id r) rows = []) as ->.
  { apply (proj1 (head_None _)), head_filter_missing.
    rewrite Forall_forall in Hbelow. intros x Hx%Hbelow. lia. }
  by rewrite filter_cons_True.
Qed.

Lemma admin_session_roleId session (P : User.t → Prop) `{∀ u, Decision (P u)}
    roleId db :
  admin_session session (set_users (update_where P (User_set_roleId roleId)) db)
  = admin_session session db.
Proof.
  unfold admin_session, deserializeUser. destruct session as [i|]; [|done].
  cbn [mbind option_bind users set_users].
  rewrite head_filter_update_where_other by done.
  destruct (head (filter _ (users db))) as [u|]; [|done]. cbn.
  by case_decide.
Qed.

Section RoleLife.
Context `{K : Scrypt}.

Lemma post_roles_created session name color s :
  admin_session session (database s) = true →
  name ∉ Role.name <$> roles (database s) →
  let role := Role.mk (roles_id_seq s) name color in
  post_roles session name color s
  = (set_database (set_roles (λ rows, rows ++ [role])) (next_roles_id s),
     reply_json 201 role).
Proof.
  intros (admin & Hsession & Hadmin)%admin_session_true Hfree role.
  unfold post_roles, requireAdmin_in, try_catch_in, bind_in, createRole.
  rewrite Hsession, Hadmin. cbn [InsertRole.name InsertRole.color].
  by rewrite decide_False.
Qed.

Lemma post_roles_duplicate session name color s :
  admin_session session (database s) = true →
  name ∈ Role.name <$> roles (database s) →
  post_roles session name color s
  = (next_roles_id s,
     reply_send 500 (message_of (unique_violation "roles_name_unique"))).
Proof.
  intros (admin & Hsession & Hadmin)%admin_session_true Htaken.
  unfold post_roles, requireAdmin_in, try_catch_in, bind_in, createRole.
  rewrite Hsession, Hadmin. cbn [InsertRole.name InsertRole.color].
  by rewrite decide_True.
Qed.

(** After any sequence of requests: an admin who creates a role under a
    free name is answered 201 with the new role, and a second creation
    under that name is answered 500 and adds no role. Once the admin has
    assigned the role to a user, that user is shown with exactly this
    role; once the admin has deleted the role, the user is shown with no
    role and the role is gone. *)
Theorem role_from_creation_to_deletion cs random session name color userId
    member :
  let s := run cs (booted random) in
  admin_session session (database s) = true →
  name ∉ Role.name <$> roles (database s) →
  eval (getUser userId) (database s) = Return (Some member) →
  ∃ role,
    let s1 := fst (post_roles session name color s) in
    let db2 :=
      fst (patch_users_role session userId (Some (Role.id role)) (database s1)) in
    let db3 := fst (delete_roles session (Role.id role) db2) in
    snd (post_roles session name color s) = reply_json 201 role ∧
    Role.name role = name ∧
    Role.color role = color ∧
    (∀ color',
       post_roles session name color' s1
       = (next_roles_id s1,
          reply_send 500
            (message_of (unique_violation "roles_name_unique")))) ∧
    eval (getUserWithRole userId) db2
    = Return (Some (UserWithRole.mk
                      (User_set_roleId (Some (Role.id role)) member)
                      (Some role))) ∧
    eval (getUserWithRole userId) db3
    = Return (Some (UserWithRole.mk (User_set_roleId None member) None)) ∧
    eval (getRole (Role.id role)) db3 = Return None.
Proof.
  intros s Hadmin Hfree Hmember%eval_found.
  pose proof (run_integrity cs (booted random) (booted_integrity random))
    as [_ [_ Hbelow] _ _ _ _ _ _ _ _].
  fold s in Hbelow.
  rewrite (post_roles_created session name color s Hadmin Hfree).
  cbn [fst snd]. set (role := Role.mk (roles_id_seq s) name color).
  set (s1 := set_database _ (next_roles_id s)).
  assert (admin_session session (database s1) = true) as Hadmin1.
  { exact Hadmin. }
  exists role. split; [reflexivity|]. split; [reflexivity|].
  split; [reflexivity|]. split; [|split; [|split]].
  - intros color'. apply post_roles_duplicate; [exact Hadmin1|].
    cbn. rewrite fmap_app. apply elem_of_app. right. by left.
  - destruct (admin_session_true _ _ Hadmin1) as (admin & Hsession & Hisadmin).
    unfold patch_users_role, requireAdmin, try_catch, assignRoleToUser.
    rewrite Hsession, Hisadmin, bind_modify. cbn [fst ret].
    unfold getUserWithRole. rewrite eval_query. f_equal.
    cbn [users set_users]. rewrite head_filter_update_where by done.
    cbn [database s1 set_database next_roles_id set_roles users].
    rewrite Hmember. cbn [fmap option_fmap option_map]. f_equal.
    unfold with_role. f_equal.
    cbn [User.roleId User_set_roleId mbind option_bind roles set_users].
    by apply (head_filter_created Role.id _ role).
  - destruct (admin_session_true _ _ Hadmin1) as (admin & Hsession & Hisadmin).
    unfold patch_users_role, requireAdmin, try_catch, assignRoleToUser.
    rewrite Hsession, Hisadmin, bind_modify. cbn [fst ret].
    rewrite delete_roles_by_admin by (by rewrite admin_session_roleId).
    cbn [fst]. unfold exec, deleteRole. rewrite bind_modify.
    unfold modify. cbn [fst]. unfold getUserWithRole. rewrite eval_query.
    f_equal. cbn [users set_users set_roles].
    rewrite head_filter_update_where_other by done.
    rewrite head_filter_update_where by done.
    cbn [database s1 set_database next_roles_id set_roles users].
    rewrite Hmember. cbn [fmap option_fmap option_map]. f_equal.
    rewrite decide_True by done. reflexivity.
  - destruct (admin_session_true _ _ Hadmin1) as (admin & Hsession & Hisadmin).
    unfold patch_users_role, requireAdmin, try_catch, assignRoleToUser.
    rewrite Hsession, Hisadmin, bind_modify. cbn [fst ret].
    rewrite delete_roles_by_admin by (by rewrite admin_session_roleId).
    cbn [fst]. unfold exec, deleteRole. rewrite bind_modify.
    unfold modify. cbn [fst]. unfold getRole. rewrite eval_query. f_equal.
    cbn [roles set_roles set_users].
    apply head_filter_missing. intros r [Hr _]%list_elem_of_filter. done.
Qed.

End RoleLife.

Lemma role_from_creation_to_deletion_witness :
  ∃ role,
    snd (@post_roles (Some 1%Z) "Cashier" "#00ff00" example_store)
    = reply_json 201 role ∧
    Role.name role = "Cashier".
Proof.
  edestruct (@role_from_creation_to_deletion toyScrypt
               (on_database <$> example_requests) [x0a; x0b] (Some 1%Z)
               "Cashier" "#00ff00" 2)
    as (role & Hreply & Hname & _).
  - reflexivity.
  - apply (bool_decide_unpack _). vm_compute. exact I.
  - vm_compute. reflexivity.
  - exists role. split; [exact Hreply|exact Hname].
Defined.


(** ** Posting and deleting a message *)

Section MessageLife.
Context `{K : Scrypt} `{H : Scan}.

(** [POST /api/messages], run: the caller exists, so the insert cannot
    fail. *)
Lemma post_messages_run session now content messageType file s sender :
  deserializeUser session (database s) = Some sender →
  let message :=
    Message.mk (messages_id_seq s) (User.id sender) (or_null content)
      (or_else "text" messageType)
      (if file is Some filename then Some ("/uploads/" +:+ filename) else None)
      false now in
  post_messages session now content messageType file s
  = (notify (Broadcast_new_message message)
       (set_database (set_messages (λ rows, rows ++ [message]))
          (next_messages_id s)),
     reply_json 201 message).
Proof.
  intros Hsender message.
  pose proof (deserializeUser_user_ids _ _ _ Hsender) as Hid.
  unfold post_messages, requireAuth_in, try_catch_in, bind_in, createMessage,
    ret_in.
  rewrite Hsender. cbn [InsertMessage.senderId].
  by rewrite decide_True by exact Hid.
Qed.

Lemma deserializeUser_head session db user :
  deserializeUser session db = Some user →
  head (filter (λ u, User.id u = User.id user) (users db)) = Some user.
Proof.
  intros Huser. pose proof (deserializeUser_id _ _ _ Huser) as ->.
  exact Huser.
Qed.

(** After any sequence of requests: a signed-in user's message is always
    stored (201) under the caller as sender, not deleted, and broadcast;
    the listing then shows it with its sender. Another user who is no admin
    is answered 403 when deleting it; the sender's deletion is answered
    200, is broadcast, and leaves the message in the table, flagged as
    deleted. *)
Theorem message_from_post_to_delete cs random session now content messageType
    file sender :
  let s := run cs (booted random) in
  deserializeUser session (database s) = Some sender →
  ∃ message,
    let s1 := fst (post_messages session now content messageType file s) in
    let db1 := database s1 in
    let db2 := fst (delete_messages session (Message.id message) db1) in
    snd (post_messages session now content messageType file s)
    = reply_json 201 message ∧
    Message.senderId message = User.id sender ∧
    Message.isDeleted message = false ∧
    notices s1 = notices s ++ [Broadcast_new_message message] ∧
    (∃ all,
       eval getAllMessages db1 = Return all ∧
       MessageWithSender.mk message (Some (with_role db1 sender)) ∈ all) ∧
    (∀ session' other,
       deserializeUser session' db1 = Some other →
       User.isAdmin other = false →
       User.id other ≠ User.id sender →
       delete_messages session' (Message.id message) db1
       = (db1, mkResponse 403 (Send "Forbidden"))) ∧
    snd (delete_messages session (Message.id message) db1)
    = mkResponse 200 Json_success ∧
    outbox db2 = outbox db1 ++ [Broadcast_delete_message (Message.id message)] ∧
    eval (getMessage (Message.id message)) db2
    = Return (Some (Message_set_isDeleted true message)) ∧
    length (messages db2) = S (length (messages (database s))).
Proof.
  intros s Hsender.
  pose proof (run_integrity cs (booted random) (booted_integrity random))
    as [_ _ _ [_ Hbelow] _ _ _ _ _ _].
  fold s in Hbelow.
  rewrite (post_messages_run session now content messageType file s sender
             Hsender).
  cbn [fst snd]. set (message := Message.mk (messages_id_seq s) _ _ _ _ _ _).
  set (db1 := database (notify _ _)).
  assert (users db1 = users (database s)) as Husers by reflexivity.
  assert (deserializeUser session db1 = Some sender) as Hsender1.
  { by rewrite (deserializeUser_same_users _ _ _ Husers). }
  assert (eval (getMessage (Message.id message)) db1 = Return (Some message))
    as Hmessage.
  { unfold getMessage. rewrite eval_query. f_equal.
    by apply (head_filter_created Message.id _ message). }
  exists message. split; [reflexivity|]. split; [reflexivity|].
  split; [reflexivity|]. split; [reflexivity|]. split; [|split].
  - eexists. split; [reflexivity|].
    apply list_elem_of_fmap. exists message. split.
    + unfold with_sender. f_equal. cbn [Message.senderId message].
      by rewrite (deserializeUser_head _ _ _ Hsender1).
    + rewrite order_by_Permutation, scan_Permutation.
      cbn. apply elem_of_app. right. by left.
  - intros session' other Hother Hplain Hne.
    eapply delete_messages_forbidden; [exact Hother|exact Hmessage| |exact Hplain].
    cbn. congruence.
  - rewrite (delete_messages_by_owner_or_admin session (Message.id message) db1
               sender message Hsender1 Hmessage) by (by left).
    cbn [fst snd]. split; [reflexivity|]. split; [reflexivity|]. split.
    + unfold getMessage, exec, deleteMessage, modify. rewrite eval_query.
      f_equal. cbn [fst messages emit set_messages].
      rewrite head_filter_update_where by done.
      apply eval_found in Hmessage. by rewrite Hmessage.
    + unfold exec, deleteMessage, modify. cbn [fst messages emit set_messages].
      rewrite length_update_where. cbn. rewrite length_app. cbn. lia.
Qed.

End MessageLife.

Lemma message_from_post_to_delete_witness :
  ∃ message,
    snd (@post_messages (Some 2%Z) 900 (Some "hello") None None example_store)
    = reply_json 201 message ∧
    Message.senderId message = 2%Z.
Proof.
  edestruct (@message_from_post_to_delete toyScrypt insertion_order
               (on_database <$> example_requests) [x0a; x0b] (Some 2%Z) 900
               (Some "hello") None None)
    as (message & Hreply & Hsender & _).
  - vm_compute. reflexivity.
  - exists message. split; [exact Hreply|exact Hsender].
Defined.


(** ** Work reports: who sees which, and the count of pending ones *)

Lemma length_filter_fmap {A B} (f : A → B) (P : B → Prop)
    `{∀ y, Decision (P y)} (l : list A) :
  length (filter P (f <$> l)) = length (filter (λ x, P (f x)) l).
Proof.
  induction l as [|x l IH]; [reflexivity|].
  rewrite fmap_cons, !filter_cons. case_decide; cbn; by rewrite IH.
Qed.

Lemma update_where_none {A} (P : A → Prop) `{∀ x, Decision (P x)}
    (set : A → A) (rows : list A) :
  Forall (λ r, ¬ P r) rows → update_where P set rows = rows.
Proof.
  unfold update_where. induction 1 as [|r rows Hr _ IH]; [reflexivity|].
  cbn. rewrite decide_False by done. by rewrite IH.
Qed.

Lemma length_pending_listing s (rows : list WorkReport.t) :
  length (filter is_pending
            (with_reporter s <$> order_by WorkReport_desc_createdAt rows))
  = length (filter (λ r, WorkReport.status r = "pending") rows).
Proof.
  rewrite length_filter_fmap. unfold is_pending. cbn.
  apply Permutation_length, filter_Permutation, order_by_Permutation.
Qed.

Lemma get_reports_run session s user :
  deserializeUser session (database s) = Some user →
  get_reports session s
  = (s, reply_json 200
          (with_reporter s <$>
             order_by WorkReport_desc_createdAt
               (filter (may_see user) (workReports s)))).
Proof.
  intros Huser. unfold get_reports, requireAuth_in, try_catch_in.
  rewrite Huser. destruct (User.isAdmin user) eqn:Hadmin.
  - unfold bind_in, getAllWorkReports, ret_in. do 4 f_equal.
    symmetry. apply filter_all. intros r. by left.
  - unfold bind_in, getUserWorkReports, ret_in. do 4 f_equal.
    apply list_filter_iff. intros r. unfold may_see. intuition congruence.
Qed.

Lemma get_reports_stats_run session s user :
  deserializeUser session (database s) = Some user →
  get_reports_stats session s
  = (s, reply_json 200 (pending_for user (workReports s))).
Proof.
  intros Huser. unfold get_reports_stats, requireAuth_in, try_catch_in.
  rewrite Huser. unfold pending_for. destruct (User.isAdmin user) eqn:Hadmin.
  - unfold bind_in, getAllWorkReports, ret_in.
    rewrite length_pending_listing. do 4 f_equal.
    symmetry. apply filter_all. intros r. by left.
  - unfold bind_in, getUserWorkReports, ret_in.
    rewrite length_pending_listing. do 4 f_equal.
    apply list_filter_iff. intros r. unfold may_see. intuition congruence.
Qed.

(** [GET /api/reports] writes nothing and answers, by descending creation
    time, each exactly once: to an admin every work report, to anyone else
    the caller's own reports and no other. [GET /api/reports/stats] answers
    the number of pending reports among exactly those. *)
Theorem reports_listed_and_counted session s user :
  deserializeUser session (database s) = Some user →
  ∃ answer,
    get_reports session s = (s, reply_json 200 answer) ∧
    WorkReportWithUser.report <$> answer
    ≡ₚ filter (λ r, User.isAdmin user = true
                    ∨ WorkReport.userId r = User.id user) (workReports s) ∧
    StronglySorted
      (λ a b, (WorkReport.createdAt (WorkReportWithUser.report b)
               ≤ WorkReport.createdAt (WorkReportWithUser.report a))%Z) answer ∧
    get_reports_stats session s
    = (s, reply_json 200
            (length (filter (λ x, WorkReport.status (WorkReportWithUser.report x)
                                  = "pending") answer))).
Proof.
  intros Huser. eexists. split; [by apply get_reports_run|].
  split; [|split].
  - rewrite fmap_cancel by done. apply order_by_Permutation.
  - apply StronglySorted_fmap_key. cbn.
    eapply StronglySorted_weaken;
      [|apply (order_by_sorted WorkReport_desc_createdAt)].
    + intros a b Hab. by apply Z.leb_le.
    + intros a b. unfold WorkReport_desc_createdAt. rewrite !Z.leb_le. lia.
    + intros a b c. unfold WorkReport_desc_createdAt. rewrite !Z.leb_le. lia.
  - rewrite (get_reports_stats_run _ _ _ Huser). do 2 f_equal.
    unfold pending_for. symmetry. apply length_pending_listing.
Qed.

Lemma reports_listed_and_counted_witness :
  ∃ answer, get_reports (Some 2%Z) example_store
            = (example_store, reply_json 200 answer).
Proof.
  edestruct (reports_listed_and_counted (Some 2%Z) example_store)
    as (answer & Hanswer & _).
  - vm_compute. reflexivity.
  - exists answer. exact Hanswer.
Defined.

(** ** A work report from submission to review *)

Lemma pending_for_submitted viewer rows report :
  WorkReport.status report = "pending" →
  pending_for viewer (rows ++ [report])
  = if decide (may_see viewer report)
    then S (pending_for viewer rows) else pending_for viewer rows.
Proof.
  intros Hpending. unfold pending_for. rewrite filter_app.
  rewrite (filter_cons _ report). cbn [filter list_filter].
  case_decide.
  - rewrite filter_app, length_app. rewrite filter_cons_True by exact Hpending.
    cbn. lia.
  - by rewrite app_nil_r.
Qed.

Lemma pending_for_reviewed viewer rows report status :
  Forall (λ r, (WorkReport.id r < WorkReport.id report)%Z) rows →
  status ≠ "pending" →
  pending_for viewer
    (update_where (λ r, WorkReport.id r = WorkReport.id report)
       (WorkReport_set_status status) (rows ++ [report]))
  = pending_for viewer rows.
Proof.
  intros Hbelow Hstatus. unfold pending_for, update_where.
  rewrite fmap_app. fold (update_where (λ r, WorkReport.id r = WorkReport.id report)
                            (WorkReport_set_status status) rows).
  rewrite update_where_none.
  2:{ eapply Forall_impl; [exact Hbelow|]. cbn. intros r Hr. lia. }
  cbn [fmap list_fmap]. rewrite decide_True by done.
  rewrite filter_app. rewrite (filter_cons _ (WorkReport_set_status _ _)).
  cbn [filter list_filter]. case_decide.
  - rewrite filter_app. rewrite filter_cons_False by (cbn; exact Hstatus).
    cbn. by rewrite app_nil_r.
  - by rewrite app_nil_r.
Qed.

Section ReportLife.
Context `{K : Scrypt}.

(** After any sequence of requests: a signed-in user's work report is
    always stored (201), pending and under the caller's id, and one mail
    goes to every admin with an e-mail address, in table order. The count
    of pending reports then grows by one for the submitter and for every
    admin and stays as it was for everybody else. A review needs an admin
    (403 otherwise) and a status (500 otherwise, nothing written); once an
    admin has set any status but [pending], everybody's count is back to
    what it was before the submission. *)
Theorem report_from_submission_to_review cs random session now title content
    submitter :
  let s := run cs (booted random) in
  deserializeUser session (database s) = Some submitter →
  ∃ report,
    let s1 := fst (post_reports session now title content s) in
    snd (post_reports session now title content s) = reply_json 201 report ∧
    WorkReport.userId report = User.id submitter ∧
    WorkReport.status report = "pending" ∧
    database s1 = database s ∧
    notices s1
    = notices s
      ++ (ReportSubmitted_mail submitter title content
            <$> filter (λ u, User.isAdmin u = true ∧ truthy (User.email u) = true)
                  (users (database s))) ∧
    (∀ viewer,
       pending_for viewer (workReports s1)
       = if decide (User.isAdmin viewer = true
                    ∨ User.id viewer = User.id submitter)
         then S (pending_for viewer (workReports s))
         else pending_for viewer (workReports s)) ∧
    (∀ session' status,
       admin_session session' (database s1) = false →
       patch_reports session' (WorkReport.id report) status s1
       = (s1, reply_send 403 "Forbidden")) ∧
    (∀ session',
       admin_session session' (database s1) = true →
       patch_reports session' (WorkReport.id report) None s1
       = (s1, reply_send 500 "No values to set") ∧
       ∀ status,
         status ≠ "pending" →
         let s2 :=
           fst (patch_reports session' (WorkReport.id report) (Some status) s1) in
         snd (patch_reports session' (WorkReport.id report) (Some status) s1)
         = reply_json 200 tt ∧
         database s2 = database s ∧
         ∀ viewer,
           pending_for viewer (workReports s2)
           = pending_for viewer (workReports s)).
Proof.
  intros s Hsubmitter.
  pose proof (run_integrity cs (booted random) (booted_integrity random))
    as [_ _ _ _ _ [_ Hbelow] _ _ _ _].
  fold s in Hbelow.
  rewrite (post_reports_run session now title content s submitter Hsubmitter).
  cbn [fst snd database workReports notices].
  set (report := WorkReport.mk (work_reports_id_seq s) _ _ _ _ _).
  exists report. split; [reflexivity|]. split; [reflexivity|].
  split; [reflexivity|]. split; [reflexivity|]. split; [|split; [|split]].
  - f_equal. rewrite list_filter_filter. unfold ReportSubmitted_mail.
    f_equal. apply list_filter_iff. intros u. tauto.
  - intros viewer. rewrite pending_for_submitted by reflexivity.
    unfold may_see. cbn [WorkReport.userId report].
    destruct (decide (User.isAdmin viewer = true
                      ∨ User.id submitter = User.id viewer)) as [Hsee|Hsee].
    + rewrite decide_True; [reflexivity|]. intuition congruence.
    + rewrite decide_False; [reflexivity|]. intuition congruence.
  - intros session' status. unfold admin_session, patch_reports, requireAdmin_in.
    cbn [database].
    destruct (deserializeUser session' (database s)) as [user|]; [|done].
    by intros ->.
  - intros session' (admin & Hsession & Hadmin)%admin_session_true.
    cbn [database] in Hsession.
    unfold patch_reports, requireAdmin_in, try_catch_in, bind_in,
      updateWorkReportStatus, ret_in.
    cbn [database]. rewrite Hsession, Hadmin.
    split; [reflexivity|]. intros status Hstatus. cbn [fst snd].
    split; [reflexivity|]. split; [reflexivity|].
    intros viewer. cbn [workReports set_workReports].
    by apply (pending_for_reviewed viewer (workReports s) report).
Qed.

End ReportLife.

Lemma report_from_submission_to_review_witness :
  ∃ report,
    snd (@post_reports (Some 2%Z) 900 "Monday" "All done" example_store)
    = reply_json 201 report ∧
    WorkReport.userId report = 2%Z.
Proof.
  edestruct (@report_from_submission_to_review toyScrypt
               (on_database <$> example_requests) [x0a; x0b] (Some 2%Z) 900
               "Monday" "All done")
    as (report & Hreply & Huser & _).
  - vm_compute. reflexivity.
  - exists report. split; [exact Hreply|exact Huser].
Defined.


(** ** The WebSocket clients *)

Lemma elem_of_Set_add ws w clients :
  ws ∈ Set_add w clients ↔ ws = w ∨ ws ∈ clients.
Proof.
  unfold Set_add. case_decide as Hw.
  - split; [by right|]. by intros [->|?].
  - rewrite elem_of_app, list_elem_of_singleton. tauto.
Qed.

Lemma elem_of_Set_delete ws w clients :
  ws ∈ Set_delete w clients ↔ ws ≠ w ∧ ws ∈ clients.
Proof. unfold Set_delete. by rewrite list_elem_of_filter. Qed.

Lemma snoc_split {A} (before after events : list A) (x e : A) :
  before ++ x :: after = events ++ [e] →
  (after = [] ∧ before = events ∧ x = e)
  ∨ ∃ after', after = after' ++ [e] ∧ events = before ++ x :: after'.
Proof.
  induction after as [|a after' _] using rev_ind.
  - intros [-> ->]%app_inj_tail. by left.
  - rewrite app_comm_cons, app_assoc.
    intros [<- ->]%app_inj_tail. right. eauto.
Qed.

Lemma registry_NoDup (events : list SocketEvent) :
  NoDup (foldl on_event [] events).
Proof.
  induction events as [|e events IH] using rev_ind; [apply NoDup_nil_2|].
  rewrite foldl_app. cbn. destruct e; cbn.
  - unfold Set_add. case_decide; [exact IH|]. by apply NoDup_snoc_fresh.
  - by apply NoDup_filter.
  - by apply NoDup_filter.
Qed.

Lemma registry_member (events : list SocketEvent) (ws : nat) :
  ws ∈ foldl on_event [] events
  ↔ ∃ before after,
      events = before ++ on_connection ws :: after ∧
      Forall (λ e, socket_of e ≠ ws) after.
Proof.
  induction events as [|e events IH] using rev_ind.
  - cbn. split; [by intros ?%elem_of_nil|].
    intros (before & after & Heq & _). by destruct before.
  - rewrite foldl_app. cbn [foldl].
    assert (ws ∈ on_event (foldl on_event [] events) e
            ↔ e = on_connection ws
              ∨ (socket_of e ≠ ws ∧ ws ∈ foldl on_event [] events)) as ->.
    { destruct e as [w|w|w]; cbn [on_event socket_of].
      - rewrite elem_of_Set_add. destruct (decide (ws = w)) as [->|Hne].
        + split; [by left|by left].
        + split; [intros [?|?]; [done|right; by split]|].
          intros [[= ->]|[_ ?]]; [done|by right].
      - rewrite elem_of_Set_delete. split; [intros [? ?]; right; by split|].
        intros [[=]|[? ?]]. by split.
      - rewrite elem_of_Set_delete. split; [intros [? ?]; right; by split|].
        intros [[=]|[? ?]]. by split. }
    rewrite IH. split.
    + intros [->|[Hne (before & after & -> & Hafter)]].
      * exists events, []. by split.
      * exists before, (after ++ [e]). split; [by rewrite <- app_assoc|].
        apply Forall_app. split; [exact Hafter|]. by repeat constructor.
    + intros (before & after & Heq & Hafter). symmetry in Heq.
      apply snoc_split in Heq as [(-> & -> & <-)|(after' & -> & ->)].
      * by left.
      * apply Forall_app in Hafter as [Hafter He].
        inversion_clear He as [|? ? He' _]. right. split; [exact He'|]. eauto.
Qed.

(** After any sequence of connection, close and error events, a broadcast
    sends the message once to each socket that is open and whose last
    event is its connection, and to no other socket. *)
Theorem broadcast_reaches_connected_open events readyState message :
  let sent := broadcastMessage readyState message (foldl on_event [] events) in
  NoDup sent ∧
  ∀ ws text,
    (ws, text) ∈ sent
    ↔ text = message ∧
      readyState ws = OPEN ∧
      ∃ before after,
        events = before ++ on_connection ws :: after ∧
        Forall (λ e, socket_of e ≠ ws) after.
Proof.
  intros sent. subst sent. unfold broadcastMessage. split.
  - apply NoDup_fmap_2; [by intros a b [=]|].
    apply NoDup_filter, registry_NoDup.
  - intros ws text. rewrite list_elem_of_fmap. split.
    + intros (client & [= -> ->] & [Hopen Hin]%list_elem_of_filter).
      split; [reflexivity|]. split; [exact Hopen|]. by apply registry_member.
    + intros (-> & Hopen & Hlast). exists ws. split; [reflexivity|].
      apply list_elem_of_filter. split; [exact Hopen|]. by apply registry_member.
Qed.
